(** * Student management system: entity, storage engine and queries

    A shallow embedding of [student.py], [database.py] and the update
    use-case of [student_manager.py], followed by the properties of the
    specification that are settled against it.

    Modelling conventions.
    - Python [str] values are Rocq strings read as sequences of ASCII code
      points; case mapping and whitespace follow [str.upper], [str.lower],
      [str.title] and [str.strip] on that range.
    - Python [float] values. Where a number is only stored, compared and
      handed back (storage, search, rankings, the use-cases) gpa and grades
      are read as exact rationals [Q]. The arithmetic of [add_grade],
      [_update_gpa] and [get_statistics] is embedded on IEEE binary64 in
      the module [Binary64], with its rounding, its infinities and NaN, and
      the properties about that arithmetic are stated there.
    - A raised exception is the [Raise] case of [res]; where a method can
      raise after it has already assigned attributes the object state is
      threaded through explicitly.
    - [datetime.now()] is an input ([Clock]); the JSON file and the backup
      directory are an explicit [Disk] value, and I/O failures are chosen
      by an explicit [Faults] argument. *)

From Stdlib Require Import String Ascii List Bool Arith ZArith QArith Qround Lia Lqa.
From Stdlib Require Import Permutation Sorted.
From Stdlib Require Import Floats Uint63.
Import ListNotations.

Local Open Scope string_scope.
Local Open Scope list_scope.

(* A decimal literal denotes the nearest binary64 value, as in Python. *)
Set Warnings "-inexact-float".

(** ** Exceptions *)

Inductive exn : Type :=
| ValueError (msg : string)
| AttributeError (msg : string).

Inductive res (A : Type) : Type :=
| Ok (a : A)
| Raise (e : exn).

Arguments Ok {A} a.
Arguments Raise {A} e.

Definition bind {A B : Type} (m : res A) (k : A -> res B) : res B :=
  match m with
  | Ok a => k a
  | Raise e => Raise e
  end.

Notation "'do' x <- m ; k" := (bind m (fun x => k))
  (at level 10, x name, m at level 100, k at level 200).

Definition is_ok {A : Type} (m : res A) : bool :=
  match m with Ok _ => true | Raise _ => false end.

(** ** Python strings *)

Module PyStr.

Definition code (c : ascii) : nat := nat_of_ascii c.

Definition between (lo hi : nat) (c : ascii) : bool :=
  Nat.leb lo (code c) && Nat.leb (code c) hi.

(** [str.isspace] on ASCII: TAB, LF, VT, FF, CR, FS, GS, RS, US, space. *)
Definition is_space (c : ascii) : bool :=
  between 9 13 c || between 28 32 c.

Definition is_upper (c : ascii) : bool := between 65 90 c.
Definition is_lower (c : ascii) : bool := between 97 122 c.
Definition is_alpha (c : ascii) : bool := is_upper c || is_lower c.
Definition is_digit (c : ascii) : bool := between 48 57 c.
Definition is_alnum (c : ascii) : bool := is_alpha c || is_digit c.

Definition upper_char (c : ascii) : ascii :=
  if is_lower c then ascii_of_nat (code c - 32) else c.

Definition lower_char (c : ascii) : ascii :=
  if is_upper c then ascii_of_nat (code c + 32) else c.

Fixpoint map (f : ascii -> ascii) (s : string) : string :=
  match s with
  | EmptyString => EmptyString
  | String c r => String (f c) (map f r)
  end.

Definition upper : string -> string := map upper_char.
Definition lower : string -> string := map lower_char.

Fixpoint lstrip (s : string) : string :=
  match s with
  | EmptyString => EmptyString
  | String c r => if is_space c then lstrip r else s
  end.

(** Drops the trailing whitespace: a character is kept when it is not a
    space or when something is kept after it. *)
Fixpoint rstrip (s : string) : string :=
  match s with
  | EmptyString => EmptyString
  | String c r =>
      match rstrip r with
      | EmptyString => if is_space c then EmptyString else String c EmptyString
      | r' => String c r'
      end
  end.

Definition strip (s : string) : string := rstrip (lstrip s).

(** [str.title]: a cased character is upper-cased when the character
    before it is not cased and lower-cased otherwise. *)
Fixpoint title_from (prev_cased : bool) (s : string) : string :=
  match s with
  | EmptyString => EmptyString
  | String c r =>
      if is_lower c then
        String (if prev_cased then c else upper_char c) (title_from true r)
      else if is_upper c then
        String (if prev_cased then lower_char c else c) (title_from true r)
      else String c (title_from false r)
  end.

Definition title : string -> string := title_from false.

(** Truth value of a string: [not s] holds exactly for the empty one. *)
Definition truthy (s : string) : bool :=
  match s with EmptyString => false | String _ _ => true end.

Fixpoint count (p : ascii -> bool) (s : string) : nat :=
  match s with
  | EmptyString => 0
  | String c r => (if p c then 1 else 0) + count p r
  end.

Fixpoint all (p : ascii -> bool) (s : string) : bool :=
  match s with
  | EmptyString => true
  | String c r => p c && all p r
  end.

(** [str.isascii]: every code point is below 128. *)
Definition isascii : string -> bool := all (fun c => Nat.ltb (code c) 128).

(** [needle in hay] for strings: substring test. *)
Fixpoint contains (needle hay : string) : bool :=
  prefix needle hay ||
  match hay with
  | EmptyString => false
  | String _ r => contains needle r
  end.

(** [x in l] for a list of strings. *)
Definition mem (x : string) (l : list string) : bool :=
  existsb (String.eqb x) l.

(** [str.replace(old, new)] for single characters. *)
Definition replace_char (old new : ascii) : string -> string :=
  map (fun c => if Ascii.eqb c old then new else c).

End PyStr.

(** ** Regular expressions (the fragment used by the email pattern) *)

Module Regex.

Inductive re : Type :=
| Void
| Eps
| Chr (p : ascii -> bool)
| Cat (a b : re)
| Alt (a b : re)
| Star (a : re).

Fixpoint nullable (r : re) : bool :=
  match r with
  | Void => false
  | Eps => true
  | Chr _ => false
  | Cat a b => nullable a && nullable b
  | Alt a b => nullable a || nullable b
  | Star _ => true
  end.

Fixpoint deriv (c : ascii) (r : re) : re :=
  match r with
  | Void => Void
  | Eps => Void
  | Chr p => if p c then Eps else Void
  | Cat a b =>
      if nullable a then Alt (Cat (deriv c a) b) (deriv c b)
      else Cat (deriv c a) b
  | Alt a b => Alt (deriv c a) (deriv c b)
  | Star a => Cat (deriv c a) (Star a)
  end.

(** The whole of [s] is in the language of [r]. *)
Fixpoint fullmatch (r : re) (s : string) : bool :=
  match s with
  | EmptyString => nullable r
  | String c t => fullmatch (deriv c r) t
  end.

Definition plus (r : re) : re := Cat r (Star r).
Definition lit (c : ascii) : re := Chr (Ascii.eqb c).

(** [chop s] is [s] without its last character. *)
Fixpoint chop (s : string) : string :=
  match s with
  | EmptyString => EmptyString
  | String _ EmptyString => EmptyString
  | String c t => String c (chop t)
  end.

Fixpoint last_is (c : ascii) (s : string) : bool :=
  match s with
  | EmptyString => false
  | String d EmptyString => Ascii.eqb d c
  | String _ t => last_is c t
  end.

(** [re.match] of a pattern [^r$]: the final [$] is satisfied at the end
    of the string and also just before a newline that ends the string. *)
Definition match_anchored (r : re) (s : string) : bool :=
  fullmatch r s || (last_is "010"%char s && fullmatch r (chop s)).

End Regex.

(** ** Dates and the clock *)

Record Date : Type := mkDate { year : Z; month : Z; day : Z }.

(** One reading of [datetime.now()]: the date, and its renderings by
    [strftime] with the formats [%Y-%m-%d] and [%Y%m%d_%H%M%S]. *)
Record Clock : Type := mkClock {
  today : Date;
  today_iso : string;
  stamp : string
}.

Module PyDate.
Import PyStr.

Definition digit_val (c : ascii) : Z := Z.of_nat (code c - 48).

Fixpoint split_on (sep : ascii) (s : string) : list string :=
  match s with
  | EmptyString => [EmptyString]
  | String c t =>
      if Ascii.eqb c sep then EmptyString :: split_on sep t
      else match split_on sep t with
           | [] => [String c EmptyString]
           | w :: ws => String c w :: ws
           end
  end.

(** [%Y]: four digits. *)
Definition parse_year (t : string) : option Z :=
  match t with
  | String a (String b (String c (String d EmptyString))) =>
      if is_digit a && is_digit b && is_digit c && is_digit d
      then Some (1000 * digit_val a + 100 * digit_val b
                 + 10 * digit_val c + digit_val d)%Z
      else None
  | _ => None
  end.

(** [%m]: 1[0-2] | 0[1-9] | [1-9]. *)
Definition parse_month (t : string) : option Z :=
  match t with
  | String a EmptyString =>
      if between 49 57 a then Some (digit_val a) else None
  | String a (String b EmptyString) =>
      if Ascii.eqb a "1" && between 48 50 b then Some (10 + digit_val b)%Z
      else if Ascii.eqb a "0" && between 49 57 b then Some (digit_val b)
      else None
  | _ => None
  end.

(** [%d]: 3[0-1] | [1-2]\d | 0[1-9] | [1-9] | space then [1-9]. *)
Definition parse_day (t : string) : option Z :=
  match t with
  | String a EmptyString =>
      if between 49 57 a then Some (digit_val a) else None
  | String a (String b EmptyString) =>
      if Ascii.eqb a "3" && between 48 49 b then Some (30 + digit_val b)%Z
      else if between 49 50 a && is_digit b
           then Some (10 * digit_val a + digit_val b)%Z
      else if (Ascii.eqb a "0" || Ascii.eqb a " ") && between 49 57 b
           then Some (digit_val b)
      else None
  | _ => None
  end.

Definition is_leap (y : Z) : bool :=
  ((y mod 4 =? 0) && negb (y mod 100 =? 0) || (y mod 400 =? 0))%Z.

Definition days_in_month (y m : Z) : Z :=
  if (m =? 2)%Z then (if is_leap y then 29 else 28)%Z
  else if ((m =? 4) || (m =? 6) || (m =? 9) || (m =? 11))%Z then 30%Z
  else 31%Z.

(** [datetime.strptime(s, "%Y-%m-%d")]; [None] stands for its
    [ValueError]. *)
Definition strptime (s : string) : option Date :=
  match split_on "-" s with
  | [ty; tm; td] =>
      match parse_year ty, parse_month tm, parse_day td with
      | Some y, Some m, Some d =>
          if ((1 <=? y) && (d <=? days_in_month y m))%Z
          then Some (mkDate y m d) else None
      | _, _, _ => None
      end
  | _ => None
  end.

End PyDate.

(** ** Python dictionaries with string keys, in insertion order *)

Module PyDict.
Section Dict.
Context {V : Type}.

Definition dict : Type := list (string * V).

Fixpoint get (k : string) (d : dict) : option V :=
  match d with
  | [] => None
  | (k', v) :: r => if String.eqb k k' then Some v else get k r
  end.

(** [k in d] *)
Definition has (k : string) (d : dict) : bool :=
  match get k d with Some _ => true | None => false end.

(** [d[k] = v]: an existing key keeps its position, a new key goes
    last. *)
Fixpoint set (k : string) (v : V) (d : dict) : dict :=
  match d with
  | [] => [(k, v)]
  | (k', v') :: r =>
      if String.eqb k k' then (k', v) :: r else (k', v') :: set k v r
  end.

(** [del d[k]] *)
Definition del (k : string) (d : dict) : dict :=
  filter (fun kv => negb (String.eqb k (fst kv))) d.

Definition keys (d : dict) : list string := List.map fst d.
Definition values (d : dict) : list V := List.map snd d.

(** Truth value of a dictionary. *)
Definition truthy (d : dict) : bool :=
  match d with [] => false | _ :: _ => true end.
End Dict.
Arguments dict V : clear implicits.
End PyDict.

(** ** student.py: the Student entity *)

Import PyStr.

Record Student : Type := mkStudent {
  student_id : string;
  first_name : string;
  last_name : string;
  email : string;
  phone : string;
  date_of_birth : string;
  address : string;
  major : string;
  gpa : Q;
  enrollment_date : string;
  courses : list string;
  grades : PyDict.dict Q
}.

Definition set_first_name (v : string) (s : Student) : Student :=
  mkStudent (student_id s) v (last_name s) (email s) (phone s)
    (date_of_birth s) (address s) (major s) (gpa s) (enrollment_date s)
    (courses s) (grades s).

Definition set_last_name (v : string) (s : Student) : Student :=
  mkStudent (student_id s) (first_name s) v (email s) (phone s)
    (date_of_birth s) (address s) (major s) (gpa s) (enrollment_date s)
    (courses s) (grades s).

Definition set_email (v : string) (s : Student) : Student :=
  mkStudent (student_id s) (first_name s) (last_name s) v (phone s)
    (date_of_birth s) (address s) (major s) (gpa s) (enrollment_date s)
    (courses s) (grades s).

Definition set_phone (v : string) (s : Student) : Student :=
  mkStudent (student_id s) (first_name s) (last_name s) (email s) v
    (date_of_birth s) (address s) (major s) (gpa s) (enrollment_date s)
    (courses s) (grades s).

Definition set_address (v : string) (s : Student) : Student :=
  mkStudent (student_id s) (first_name s) (last_name s) (email s) (phone s)
    (date_of_birth s) v (major s) (gpa s) (enrollment_date s)
    (courses s) (grades s).

Definition set_major (v : string) (s : Student) : Student :=
  mkStudent (student_id s) (first_name s) (last_name s) (email s) (phone s)
    (date_of_birth s) (address s) v (gpa s) (enrollment_date s)
    (courses s) (grades s).

Definition set_gpa (v : Q) (s : Student) : Student :=
  mkStudent (student_id s) (first_name s) (last_name s) (email s) (phone s)
    (date_of_birth s) (address s) (major s) v (enrollment_date s)
    (courses s) (grades s).

Definition set_enrollment_date (v : string) (s : Student) : Student :=
  mkStudent (student_id s) (first_name s) (last_name s) (email s) (phone s)
    (date_of_birth s) (address s) (major s) (gpa s) v
    (courses s) (grades s).

Definition set_courses (v : list string) (s : Student) : Student :=
  mkStudent (student_id s) (first_name s) (last_name s) (email s) (phone s)
    (date_of_birth s) (address s) (major s) (gpa s) (enrollment_date s)
    v (grades s).

Definition set_grades (v : PyDict.dict Q) (s : Student) : Student :=
  mkStudent (student_id s) (first_name s) (last_name s) (email s) (phone s)
    (date_of_birth s) (address s) (major s) (gpa s) (enrollment_date s)
    (courses s) v.

(** *** Validators *)

Definition _validate_student_id (student_id : string) : res string :=
  if negb (truthy student_id) then
    Raise (ValueError "Student ID must be a non-empty string")
  else if (String.length student_id <? 3)%nat then
    Raise (ValueError "Student ID must be at least 3 characters long")
  else Ok (upper (strip student_id)).

Definition _validate_name (name field_name : string) : res string :=
  if negb (truthy name) then
    Raise (ValueError (field_name ++ " must be a non-empty string"))
  else if negb (truthy (strip name)) then
    Raise (ValueError (field_name ++ " cannot be empty or just whitespace"))
  else Ok (title (strip name)).

(** [a-zA-Z0-9._%+-] *)
Definition email_local_char (c : ascii) : bool :=
  is_alnum c || Ascii.eqb c "." || Ascii.eqb c "_" || Ascii.eqb c "%"
  || Ascii.eqb c "+" || Ascii.eqb c "-".

(** [a-zA-Z0-9.-] *)
Definition email_domain_char (c : ascii) : bool :=
  is_alnum c || Ascii.eqb c "." || Ascii.eqb c "-".

(** [a-zA-Z0-9._%+-]+@[a-zA-Z0-9.-]+\.[a-zA-Z]{2,} between [^] and [$]. *)
Definition email_pattern : Regex.re :=
  Regex.Cat (Regex.plus (Regex.Chr email_local_char))
 (Regex.Cat (Regex.lit "@")
 (Regex.Cat (Regex.plus (Regex.Chr email_domain_char))
 (Regex.Cat (Regex.lit ".")
 (Regex.Cat (Regex.Chr is_alpha)
 (Regex.Cat (Regex.Chr is_alpha)
            (Regex.Star (Regex.Chr is_alpha))))))).

Definition _validate_email (email : string) : res string :=
  if negb (truthy email) then
    Raise (ValueError "Email must be a non-empty string")
  else if negb (Regex.match_anchored email_pattern email) then
    Raise (ValueError "Invalid email format")
  else Ok (lower (strip email)).

Definition _validate_phone (phone : string) : res string :=
  if negb (truthy phone) then
    Raise (ValueError "Phone number must be a non-empty string")
  else
    let digits_only := count is_digit phone in
    if (digits_only <? 10)%nat then
      Raise (ValueError "Phone number must contain at least 10 digits")
    else Ok (strip phone).

Definition _validate_date (date_str : string) : res string :=
  if negb (truthy date_str) then
    Raise (ValueError "Date must be a non-empty string")
  else match PyDate.strptime date_str with
       | Some _ => Ok date_str
       | None => Raise (ValueError "Date must be in YYYY-MM-DD format")
       end.

Definition Qltb (a b : Q) : bool := negb (Qle_bool b a).

Definition _validate_gpa (gpa : Q) : res Q :=
  if Qltb gpa 0%Q || Qltb 4%Q gpa then
    Raise (ValueError "GPA must be between 0.0 and 4.0")
  else Ok gpa.

(** *** Construction *)

Definition __init__ (now : Clock)
    (student_id first_name last_name email phone date_of_birth
       address major : string) (gpa : Q) : res Student :=
  do sid <- _validate_student_id student_id;
  do fn <- _validate_name first_name "First name";
  do ln <- _validate_name last_name "Last name";
  do em <- _validate_email email;
  do ph <- _validate_phone phone;
  do dob <- _validate_date date_of_birth;
  do g <- _validate_gpa gpa;
  Ok (mkStudent sid fn ln em ph dob address major g (today_iso now) [] []).

(** *** Courses and grades *)

Definition add_course (course_name : string) (self : Student)
  : res (bool * Student) :=
  if negb (truthy course_name) then
    Raise (ValueError "Course name must be a non-empty string")
  else
    let course_name := strip course_name in
    if negb (mem course_name (courses self)) then
      Ok (true, set_courses (courses self ++ [course_name]) self)
    else Ok (false, self).

(** [list.remove]: drops the first occurrence. *)
Fixpoint list_remove (x : string) (l : list string) : list string :=
  match l with
  | [] => []
  | y :: r => if String.eqb x y then r else y :: list_remove x r
  end.

Definition remove_course (course_name : string) (self : Student)
  : bool * Student :=
  if mem course_name (courses self) then
    let self := set_courses (list_remove course_name (courses self)) self in
    let self :=
      if PyDict.has course_name (grades self)
      then set_grades (PyDict.del course_name (grades self)) self
      else self in
    (true, self)
  else (false, self).

(** [sum(xs)]: left to right from 0. *)
Definition sum (xs : list Q) : Q := fold_left Qplus xs 0%Q.

(** [sum(d.values()) / len(d)] *)
Definition mean (d : PyDict.dict Q) : Q :=
  (sum (PyDict.values d) / inject_Z (Z.of_nat (length d)))%Q.

Definition _update_gpa (self : Student) : Student :=
  if PyDict.truthy (grades self) then set_gpa (mean (grades self)) self
  else set_gpa 0%Q self.

Definition add_grade (course_name : string) (grade : Q) (self : Student)
  : res (bool * Student) :=
  if negb (mem course_name (courses self)) then
    Raise (ValueError ("Course '" ++ course_name
                       ++ "' not found in student's course list"))
  else if Qltb grade 0%Q || Qltb 4%Q grade then
    Raise (ValueError "Grade must be between 0.0 and 4.0")
  else
    let self := set_grades (PyDict.set course_name grade (grades self)) self in
    Ok (true, _update_gpa self).

Definition get_full_name (self : Student) : string :=
  (first_name self ++ " " ++ last_name self)%string.

Definition get_age (now : Clock) (self : Student) : res Z :=
  match PyDate.strptime (date_of_birth self) with
  | None => Raise (ValueError "time data does not match format")
  | Some birth_date =>
      let age := (year (today now) - year birth_date)%Z in
      if (month (today now) <? month birth_date)%Z
         || ((month (today now) =? month birth_date)%Z
             && (day (today now) <? day birth_date)%Z)
      then Ok (age - 1)%Z
      else Ok age
  end.

(** *** Serialization

    The map read by [from_dict]: the six keys it indexes with [data[...]]
    are always there (a map without one raises [KeyError] and is outside
    the model); the six keys it reads with [data.get] may be missing. *)

Record StudentDict : Type := mkStudentDict {
  d_student_id : string;
  d_first_name : string;
  d_last_name : string;
  d_email : string;
  d_phone : string;
  d_date_of_birth : string;
  d_address : option string;
  d_major : option string;
  d_gpa : option Q;
  d_enrollment_date : option string;
  d_courses : option (list string);
  d_grades : option (PyDict.dict Q)
}.

(** [data.get(key, default)] *)
Definition get_default {A : Type} (field : option A) (default : A) : A :=
  match field with Some v => v | None => default end.

Definition to_dict (self : Student) : StudentDict :=
  mkStudentDict (student_id self) (first_name self) (last_name self)
    (email self) (phone self) (date_of_birth self)
    (Some (address self)) (Some (major self)) (Some (gpa self))
    (Some (enrollment_date self)) (Some (courses self))
    (Some (grades self)).

Definition from_dict (now : Clock) (data : StudentDict) : res Student :=
  do student <- __init__ now (d_student_id data) (d_first_name data)
                  (d_last_name data) (d_email data) (d_phone data)
                  (d_date_of_birth data)
                  (get_default (d_address data) EmptyString)
                  (get_default (d_major data) EmptyString)
                  (get_default (d_gpa data) 0%Q);
  let student :=
    set_enrollment_date
      (get_default (d_enrollment_date data) (enrollment_date student))
      student in
  let student := set_courses (get_default (d_courses data) []) student in
  let student := set_grades (get_default (d_grades data) []) student in
  Ok student.

(** *** update_info *)

Definition updatable_fields : list string :=
  ["first_name"; "last_name"; "email"; "phone"; "address"; "major"].

(** [setattr(self, field, v)] on the updatable fields. *)
Definition setattr (field : string) (v : string) (self : Student) : Student :=
  if String.eqb field "first_name" then set_first_name v self
  else if String.eqb field "last_name" then set_last_name v self
  else if String.eqb field "email" then set_email v self
  else if String.eqb field "phone" then set_phone v self
  else if String.eqb field "address" then set_address v self
  else if String.eqb field "major" then set_major v self
  else self.

(** The keyword arguments are visited in order; the object keeps what was
    assigned before a validator raises. The values are text, as the
    callers pass them. *)
Fixpoint update_info (kwargs : list (string * string)) (self : Student)
  : Student * res unit :=
  match kwargs with
  | [] => (self, Ok tt)
  | (field, value) :: rest =>
      if mem field updatable_fields then
        if mem field ["first_name"; "last_name"] then
          match _validate_name value (title (replace_char "_" " " field)) with
          | Ok v => update_info rest (setattr field v self)
          | Raise e => (self, Raise e)
          end
        else if mem field ["email"; "phone"] then
          match (if String.eqb field "email" then _validate_email value
                 else _validate_phone value) with
          | Ok v => update_info rest (setattr field v self)
          | Raise e => (self, Raise e)
          end
        else update_info rest (setattr field (strip value) self)
      else update_info rest self
  end.

(** ** database.py: the storage engine *)

(** Values passed as search criteria. *)
Inductive pyval : Type :=
| VStr (s : string)
| VInt (n : Z)
| VFloat (q : Q).

(** What [getattr(student, key)] can give. *)
Inductive attr : Type :=
| AStr (s : string)
| AFloat (q : Q)
| AList (l : list string)
| ADict (d : PyDict.dict Q)
| AMethod.

(** Built-ins of the interpreter that the queries call: [float] and [int]
    of a string, and the attributes every object inherits from [object]
    (such as [__doc__] or [__class__]). *)
Record Builtins : Type := mkBuiltins {
  float_of_str : string -> res Q;
  int_of_str : string -> res Z;
  object_attr : string -> option attr
}.

Module StudentDatabase.

(** The contents of a file: JSON text, identified with the array it
    denotes, or text that [json.load] rejects. *)
Inductive File : Type :=
| Json (data : list StudentDict)
| Malformed (raw : string).

(** [db_file] is [None] when the file does not exist; [backups] maps the
    file names of the backup directory to their contents. *)
Record Disk : Type := mkDisk {
  db_file : option File;
  backups : PyDict.dict File
}.

(** How a file write can go: it completes, [open] fails and the file is
    untouched, or the file was opened for writing (and so truncated) and
    an error then leaves [remains] in it. *)
Inductive Fault : Type :=
| NoFault
| OpenFails
| WriteFails (remains : File).

Record Faults : Type := mkFaults {
  backup_fault : Fault;
  save_fault : Fault
}.

Definition no_faults : Faults := mkFaults NoFault NoFault.

Definition _load_data (disk : Disk) : list StudentDict :=
  match db_file disk with
  | Some (Json data) => data
  | Some (Malformed _) => []
  | None => []
  end.

Definition backup_file (now : Clock) : string :=
  ("students_backup_" ++ stamp now ++ ".json")%string.

Definition _create_backup (now : Clock) (fl : Faults) (disk : Disk)
  : Disk :=
  match db_file disk with
  | Some content =>
      match backup_fault fl with
      | NoFault =>
          mkDisk (db_file disk)
            (PyDict.set (backup_file now) content (backups disk))
      | OpenFails => disk
      | WriteFails remains =>
          mkDisk (db_file disk)
            (PyDict.set (backup_file now) remains (backups disk))
      end
  | None => disk
  end.

Definition _save_data (now : Clock) (fl : Faults)
    (data : list StudentDict) (disk : Disk) : bool * Disk :=
  let disk := _create_backup now fl disk in
  match save_fault fl with
  | NoFault => (true, mkDisk (Some (Json data)) (backups disk))
  | OpenFails => (false, disk)
  | WriteFails remains => (false, mkDisk (Some remains) (backups disk))
  end.

Definition id_is (sid : string) (d : StudentDict) : bool :=
  String.eqb (d_student_id d) sid.

Definition add_student (now : Clock) (fl : Faults) (student : Student)
    (disk : Disk) : bool * Disk :=
  let data := _load_data disk in
  if existsb (id_is (student_id student)) data then (false, disk)
  else _save_data now fl (data ++ [to_dict student]) disk.

Definition get_student (now : Clock) (student_id : string) (disk : Disk)
  : res (option Student) :=
  match find (id_is (upper student_id)) (_load_data disk) with
  | Some student_data =>
      do s <- from_dict now student_data; Ok (Some s)
  | None => Ok None
  end.

(** A record that fails [from_dict] is reported and skipped. *)
Fixpoint load_students (now : Clock) (data : list StudentDict)
  : list Student :=
  match data with
  | [] => []
  | student_data :: rest =>
      match from_dict now student_data with
      | Ok s => s :: load_students now rest
      | Raise _ => load_students now rest
      end
  end.

Definition get_all_students (now : Clock) (disk : Disk) : list Student :=
  load_students now (_load_data disk).

(** [data[i] = new] at the first [i] whose id is [sid]. *)
Fixpoint replace_first (sid : string) (new : StudentDict)
    (data : list StudentDict) : option (list StudentDict) :=
  match data with
  | [] => None
  | d :: rest =>
      if id_is sid d then Some (new :: rest)
      else option_map (cons d) (replace_first sid new rest)
  end.

(** [del data[i]] at the first [i] whose id is [sid]. *)
Fixpoint delete_first (sid : string) (data : list StudentDict)
  : option (list StudentDict) :=
  match data with
  | [] => None
  | d :: rest =>
      if id_is sid d then Some rest
      else option_map (cons d) (delete_first sid rest)
  end.

Definition update_student (now : Clock) (fl : Faults) (student : Student)
    (disk : Disk) : bool * Disk :=
  match replace_first (student_id student) (to_dict student)
          (_load_data disk) with
  | Some data => _save_data now fl data disk
  | None => (false, disk)
  end.

Definition delete_student (now : Clock) (fl : Faults)
    (student_id : string) (disk : Disk) : bool * Disk :=
  match delete_first (upper student_id) (_load_data disk) with
  | Some data => _save_data now fl data disk
  | None => (false, disk)
  end.

(** *** Search *)

Definition method_names : list string :=
  ["__init__"; "_validate_student_id"; "_validate_name";
   "_validate_email"; "_validate_phone"; "_validate_date";
   "_validate_gpa"; "add_course"; "remove_course"; "add_grade";
   "_update_gpa"; "get_full_name"; "get_age"; "to_dict"; "from_dict";
   "update_info"; "__str__"; "__repr__"].

(** [getattr(student, key)] when [hasattr(student, key)], else [None]. *)
Definition getattr (py : Builtins) (key : string) (student : Student)
  : option attr :=
  if String.eqb key "student_id" then Some (AStr (student_id student))
  else if String.eqb key "first_name" then Some (AStr (first_name student))
  else if String.eqb key "last_name" then Some (AStr (last_name student))
  else if String.eqb key "email" then Some (AStr (email student))
  else if String.eqb key "phone" then Some (AStr (phone student))
  else if String.eqb key "date_of_birth"
       then Some (AStr (date_of_birth student))
  else if String.eqb key "address" then Some (AStr (address student))
  else if String.eqb key "major" then Some (AStr (major student))
  else if String.eqb key "gpa" then Some (AFloat (gpa student))
  else if String.eqb key "enrollment_date"
       then Some (AStr (enrollment_date student))
  else if String.eqb key "courses" then Some (AList (courses student))
  else if String.eqb key "grades" then Some (ADict (grades student))
  else if mem key method_names then Some AMethod
  else object_attr py key.

(** [value.lower()] *)
Definition value_lower (value : pyval) : res string :=
  match value with
  | VStr s => Ok (lower s)
  | VInt _ => Raise (AttributeError "'int' object has no attribute 'lower'")
  | VFloat _ =>
      Raise (AttributeError "'float' object has no attribute 'lower'")
  end.

(** [float(value)] *)
Definition py_float (py : Builtins) (value : pyval) : res Q :=
  match value with
  | VStr s => float_of_str py s
  | VInt n => Ok (inject_Z n)
  | VFloat q => Ok q
  end.

(** [int(value)]: a float is truncated towards zero. *)
Definition py_int (py : Builtins) (value : pyval) : res Z :=
  match value with
  | VStr s => int_of_str py s
  | VInt n => Ok n
  | VFloat q => Ok (Z.quot (Qnum q) (Zpos (Qden q)))
  end.

(** [student_value == value] when they are not both text. *)
Definition attr_equals (a : attr) (value : pyval) : bool :=
  match a, value with
  | AFloat x, VFloat y => Qeq_bool x y
  | AFloat x, VInt n => Qeq_bool x (inject_Z n)
  | _, _ => false
  end.

(** One turn of the loop over the criteria: [Ok false] is the branch
    that sets [match = False] and breaks. *)
Definition criterion_holds (py : Builtins) (now : Clock)
    (student : Student) (key : string) (value : pyval) : res bool :=
  if String.eqb key "name" then
    do v <- value_lower value;
    Ok (contains v (lower (get_full_name student)))
  else if String.eqb key "major" then
    do v <- value_lower value; Ok (contains v (lower (major student)))
  else if String.eqb key "email" then
    do v <- value_lower value; Ok (contains v (lower (email student)))
  else if String.eqb key "gpa_min" then
    do v <- py_float py value; Ok (negb (Qltb (gpa student) v))
  else if String.eqb key "gpa_max" then
    do v <- py_float py value; Ok (negb (Qltb v (gpa student)))
  else if String.eqb key "age_min" then
    do a <- get_age now student;
    do v <- py_int py value; Ok (negb (a <? v)%Z)
  else if String.eqb key "age_max" then
    do a <- get_age now student;
    do v <- py_int py value; Ok (negb (v <? a)%Z)
  else
    match getattr py key student with
    | Some student_value =>
        match student_value, value with
        | AStr sv, VStr v => Ok (contains (lower v) (lower sv))
        | _, _ => Ok (attr_equals student_value value)
        end
    | None => Ok true
    end.

Fixpoint record_matches (py : Builtins) (now : Clock)
    (criteria : list (string * pyval)) (student : Student) : res bool :=
  match criteria with
  | [] => Ok true
  | (key, value) :: rest =>
      do ok <- criterion_holds py now student key value;
      if ok then record_matches py now rest student else Ok false
  end.

Fixpoint search_loop (py : Builtins) (now : Clock)
    (criteria : list (string * pyval)) (all_students : list Student)
  : res (list Student) :=
  match all_students with
  | [] => Ok []
  | student :: rest =>
      do m <- record_matches py now criteria student;
      do matching <- search_loop py now criteria rest;
      Ok (if m then student :: matching else matching)
  end.

Definition search_students (py : Builtins) (now : Clock)
    (criteria : list (string * pyval)) (disk : Disk)
  : res (list Student) :=
  search_loop py now criteria (get_all_students now disk).

(** [student.gpa > 0], the filter of the ranking. *)
Definition has_gpa (s : Student) : bool := Qltb 0%Q (gpa s).

(** *** CSV import

    One data row as [csv.DictReader] yields it under a header that has
    the six required columns: the optional columns are [None] when the
    header does not have them. *)

Record CsvRow : Type := mkCsvRow {
  c_student_id : string;
  c_first_name : string;
  c_last_name : string;
  c_email : string;
  c_phone : string;
  c_date_of_birth : string;
  c_address : option string;
  c_major : option string;
  c_gpa : option string;
  c_enrollment_date : option string;
  c_courses : option string
}.

(** [[c.strip() for c in text.split(',') if c.strip()]] *)
Definition parse_courses (text : string) : list string :=
  List.map strip
    (filter (fun c => truthy (strip c)) (PyDate.split_on "," text)).

(** [for course in courses: student.add_course(course)] *)
Fixpoint add_courses (courses : list string) (student : Student)
  : res Student :=
  match courses with
  | [] => Ok student
  | course :: rest =>
      do r <- add_course course student; add_courses rest (snd r)
  end.

(** The student built from one row, before it is added. *)
Definition import_row (py : Builtins) (now : Clock) (row : CsvRow)
  : res Student :=
  let courses := parse_courses (get_default (c_courses row) EmptyString) in
  do g <- match c_gpa row with
          | Some text => float_of_str py text
          | None => Ok 0%Q
          end;
  do student <- __init__ now (c_student_id row) (c_first_name row)
                  (c_last_name row) (c_email row) (c_phone row)
                  (c_date_of_birth row)
                  (get_default (c_address row) EmptyString)
                  (get_default (c_major row) EmptyString) g;
  do student <- add_courses courses student;
  Ok match c_enrollment_date row with
     | Some d => if truthy d then set_enrollment_date d student else student
     | None => student
     end.

(** The loop over the rows, with the two counters; a row that raises
    counts as failed. *)
Fixpoint import_rows (py : Builtins) (now : Clock) (fl : Faults)
    (rows : list CsvRow) (disk : Disk) (successful failed : nat)
  : (nat * nat) * Disk :=
  match rows with
  | [] => ((successful, failed), disk)
  | row :: rest =>
      match import_row py now row with
      | Ok student =>
          let (added, disk') := add_student now fl student disk in
          if added
          then import_rows py now fl rest disk' (S successful) failed
          else import_rows py now fl rest disk' successful (S failed)
      | Raise _ => import_rows py now fl rest disk successful (S failed)
      end
  end.

(** [import_from_csv] on a file that opens and parses into [rows]. *)
Definition import_from_csv (py : Builtins) (now : Clock) (fl : Faults)
    (rows : list CsvRow) (disk : Disk) : (nat * nat) * Disk :=
  import_rows py now fl rows disk 0 0.

End StudentDatabase.

(** ** student_manager.py: the update use-case *)

Definition exn_msg (e : exn) : string :=
  match e with ValueError m => m | AttributeError m => m end.

Module StudentManager.

Definition update_student (now : Clock) (fl : StudentDatabase.Faults)
    (student_id : string) (update_data : list (string * string))
    (disk : StudentDatabase.Disk)
  : (bool * string) * StudentDatabase.Disk :=
  match StudentDatabase.get_student now student_id disk with
  | Raise (ValueError m) => ((false, ("Validation error: " ++ m)%string), disk)
  | Raise e => ((false, ("Error updating student: " ++ exn_msg e)%string), disk)
  | Ok None =>
      ((false, ("Student with ID " ++ student_id ++ " not found")%string),
       disk)
  | Ok (Some student) =>
      match update_info update_data student with
      | (_, Raise (ValueError m)) =>
          ((false, ("Validation error: " ++ m)%string), disk)
      | (_, Raise e) =>
          ((false, ("Error updating student: " ++ exn_msg e)%string), disk)
      | (student, Ok _) =>
          let (saved, disk') :=
            StudentDatabase.update_student now fl student disk in
          if saved then
            ((true, ("Student " ++ get_full_name student
                     ++ " updated successfully")%string), disk')
          else ((false, "Failed to update student in database"), disk')
      end
  end.

(** The outcome pair of a use-case that persists: success flag, message. *)
Definition persisted (saved : bool) (done failed : string) : bool * string :=
if saved then (true, done) else (false, failed).

(** [student_data] is read like the map of [from_dict]: the six required
    keys are indexed, address, major and gpa are read with [get]. *)
Definition add_student (now : Clock) (fl : StudentDatabase.Faults)
    (student_data : StudentDict) (disk : StudentDatabase.Disk)
  : (bool * string) * StudentDatabase.Disk :=
  match __init__ now (d_student_id student_data) (d_first_name student_data)
          (d_last_name student_data) (d_email student_data)
          (d_phone student_data) (d_date_of_birth student_data)
          (get_default (d_address student_data) EmptyString)
          (get_default (d_major student_data) EmptyString)
          (get_default (d_gpa student_data) 0%Q) with
  | Raise (ValueError m) =>
      ((false, ("Validation error: " ++ m)%string), disk)
  | Raise e => ((false, ("Unexpected error: " ++ exn_msg e)%string), disk)
  | Ok student =>
      match StudentDatabase.get_student now (student_id student) disk with
      | Raise (ValueError m) =>
          ((false, ("Validation error: " ++ m)%string), disk)
      | Raise e =>
          ((false, ("Unexpected error: " ++ exn_msg e)%string), disk)
      | Ok (Some _) =>
          ((false, ("Student with ID " ++ student_id student
                    ++ " already exists")%string), disk)
      | Ok None =>
          let (saved, disk') :=
            StudentDatabase.add_student now fl student disk in
          (persisted saved
             ("Student " ++ get_full_name student ++ " added successfully")
             "Failed to add student to database", disk')
      end
  end.

Definition get_student (now : Clock) (student_id : string)
    (disk : StudentDatabase.Disk) : option Student * string :=
  match StudentDatabase.get_student now student_id disk with
  | Ok (Some student) => (Some student, "Student found")
  | Ok None =>
      (None, ("Student with ID " ++ student_id ++ " not found")%string)
  | Raise e => (None, ("Error retrieving student: " ++ exn_msg e)%string)
  end.

Definition delete_student (now : Clock) (fl : StudentDatabase.Faults)
    (student_id : string) (disk : StudentDatabase.Disk)
  : (bool * string) * StudentDatabase.Disk :=
  match StudentDatabase.get_student now student_id disk with
  | Raise e =>
      ((false, ("Error deleting student: " ++ exn_msg e)%string), disk)
  | Ok None =>
      ((false, ("Student with ID " ++ student_id ++ " not found")%string),
       disk)
  | Ok (Some student) =>
      let (saved, disk') :=
        StudentDatabase.delete_student now fl student_id disk in
      (persisted saved
         ("Student " ++ get_full_name student ++ " deleted successfully")
         "Failed to delete student from database", disk')
  end.

Definition list_all_students (now : Clock) (disk : StudentDatabase.Disk)
  : list Student :=
  StudentDatabase.get_all_students now disk.

Definition add_course_to_student (now : Clock) (fl : StudentDatabase.Faults)
    (student_id course_name : string) (disk : StudentDatabase.Disk)
  : (bool * string) * StudentDatabase.Disk :=
  match StudentDatabase.get_student now student_id disk with
  | Raise (ValueError m) =>
      ((false, ("Validation error: " ++ m)%string), disk)
  | Raise e => ((false, ("Error adding course: " ++ exn_msg e)%string), disk)
  | Ok None =>
      ((false, ("Student with ID " ++ student_id ++ " not found")%string),
       disk)
  | Ok (Some student) =>
      match add_course course_name student with
      | Raise (ValueError m) =>
          ((false, ("Validation error: " ++ m)%string), disk)
      | Raise e =>
          ((false, ("Error adding course: " ++ exn_msg e)%string), disk)
      | Ok (true, student) =>
          let (saved, disk') :=
            StudentDatabase.update_student now fl student disk in
          (persisted saved
             ("Course '" ++ course_name ++ "' added to "
              ++ get_full_name student)
             "Failed to save changes to database", disk')
      | Ok (false, _) =>
          ((false, ("Course '" ++ course_name
                    ++ "' already exists for this student")%string), disk)
      end
  end.

Definition remove_course_from_student (now : Clock)
    (fl : StudentDatabase.Faults) (student_id course_name : string)
    (disk : StudentDatabase.Disk)
  : (bool * string) * StudentDatabase.Disk :=
  match StudentDatabase.get_student now student_id disk with
  | Raise e =>
      ((false, ("Error removing course: " ++ exn_msg e)%string), disk)
  | Ok None =>
      ((false, ("Student with ID " ++ student_id ++ " not found")%string),
       disk)
  | Ok (Some student) =>
      match remove_course course_name student with
      | (true, student) =>
          let (saved, disk') :=
            StudentDatabase.update_student now fl student disk in
          (persisted saved
             ("Course '" ++ course_name ++ "' removed from "
              ++ get_full_name student)
             "Failed to save changes to database", disk')
      | (false, _) =>
          ((false, ("Course '" ++ course_name
                    ++ "' not found for this student")%string), disk)
      end
  end.

(** [show] is the text Python prints for the float [grade] in the
    message. *)
Definition add_grade_to_student (show : Q -> string) (now : Clock)
    (fl : StudentDatabase.Faults) (student_id course_name : string)
    (grade : Q) (disk : StudentDatabase.Disk)
  : (bool * string) * StudentDatabase.Disk :=
  match StudentDatabase.get_student now student_id disk with
  | Raise (ValueError m) =>
      ((false, ("Validation error: " ++ m)%string), disk)
  | Raise e => ((false, ("Error adding grade: " ++ exn_msg e)%string), disk)
  | Ok None =>
      ((false, ("Student with ID " ++ student_id ++ " not found")%string),
       disk)
  | Ok (Some student) =>
      match add_grade course_name grade student with
      | Raise (ValueError m) =>
          ((false, ("Validation error: " ++ m)%string), disk)
      | Raise e =>
          ((false, ("Error adding grade: " ++ exn_msg e)%string), disk)
      | Ok (true, student) =>
          let (saved, disk') :=
            StudentDatabase.update_student now fl student disk in
          (persisted saved
             ("Grade " ++ show grade ++ " added for course '" ++ course_name
              ++ "' to " ++ get_full_name student)
             "Failed to save changes to database", disk')
      | Ok (false, _) => ((false, "Failed to add grade"), disk)
      end
  end.

(** [student.student_id], where a parameter has the attribute's name. *)
Definition id_of (student : Student) : string := student_id student.

Record Transcript : Type := mkTranscript {
  t_id : string;
  t_name : string;
  t_major : string;
  t_enrollment_date : string;
  t_courses : list string;
  t_grades : PyDict.dict Q;
  overall_gpa : Q;
  total_courses : nat;
  completed_courses : nat
}.

Definition get_student_transcript (now : Clock) (student_id : string)
    (disk : StudentDatabase.Disk) : option Transcript * string :=
  match StudentDatabase.get_student now student_id disk with
  | Raise e =>
      (None, ("Error generating transcript: " ++ exn_msg e)%string)
  | Ok None =>
      (None, ("Student with ID " ++ student_id ++ " not found")%string)
  | Ok (Some student) =>
      (Some (mkTranscript (id_of student) (get_full_name student)
               (major student) (enrollment_date student) (courses student)
               (grades student) (gpa student) (length (courses student))
               (length (grades student))),
       "Transcript generated successfully")
  end.



Definition get_students_by_major (py : Builtins) (now : Clock)
    (major : string) (disk : StudentDatabase.Disk) : res (list Student) :=
  StudentDatabase.search_students py now [("major", VStr major)] disk.

(** One step of a stable sort by gpa, largest first: [x] goes in front of
    the first element whose gpa is not larger than its own. *)
Fixpoint insert_by_gpa (x : Student) (sorted : list Student) : list Student :=
  match sorted with
  | [] => [x]
  | y :: rest =>
      if Qltb (gpa x) (gpa y) then y :: insert_by_gpa x rest
      else x :: sorted
  end.

(** [list.sort(key=lambda x: x.gpa, reverse=True)]: the stable sort. *)
Definition sort_by_gpa_desc (l : list Student) : list Student :=
  fold_right insert_by_gpa [] l.

(** [l[:limit]]: a negative limit counts from the end. *)
Definition slice_to {A : Type} (limit : Z) (l : list A) : list A :=
  if (0 <=? limit)%Z then firstn (Z.to_nat limit) l
  else firstn (length l - Z.to_nat (- limit)) l.

Definition get_top_students (now : Clock) (limit : Z)
    (disk : StudentDatabase.Disk) : list Student :=
  let all_students := StudentDatabase.get_all_students now disk in
  let students_with_gpa := filter StudentDatabase.has_gpa all_students in
  slice_to limit (sort_by_gpa_desc students_with_gpa).


End StudentManager.

(** ** Sequences of entity operations *)

Inductive EntityOp : Type :=
| AddCourse (name : string)
| RemoveCourse (name : string)
| AddGrade (course : string) (value : Q)
| UpdateFields (partial : list (string * string)).

(** The object after one call, whether the call returned or raised. *)
Definition apply_op (op : EntityOp) (self : Student) : Student :=
  match op with
  | AddCourse n =>
      match add_course n self with Ok (_, s') => s' | Raise _ => self end
  | RemoveCourse n => snd (remove_course n self)
  | AddGrade c g =>
      match add_grade c g self with Ok (_, s') => s' | Raise _ => self end
  | UpdateFields kw => fst (update_info kw self)
  end.

Definition run_ops (ops : list EntityOp) (self : Student) : Student :=
  fold_left (fun s op => apply_op op s) ops self.

Definition is_remove (op : EntityOp) : bool :=
  match op with RemoveCourse _ => true | _ => false end.

(** The students the program builds: by the constructor, by the entity
    operations, and by writing a student to the file and reading it back. *)
Inductive Reachable : Student -> Prop :=
| R_init now sid fn ln em ph dob addr mj g s :
    __init__ now sid fn ln em ph dob addr mj g = Ok s -> Reachable s
| R_op op s : Reachable s -> Reachable (apply_op op s)
| R_reload now s s' :
    Reachable s -> from_dict now (to_dict s) = Ok s' -> Reachable s'.

(** Every key of [grades] is one of the [courses]. *)
Definition grades_within_courses (s : Student) : Prop :=
  forall k, In k (PyDict.keys (grades s)) -> In k (courses s).

(** The clock and the first student of the demonstration script. *)
Definition demo_clock : Clock :=
  mkClock (mkDate 2026 11 3) "2026-11-03" "20261103_101500".

Definition alice (g : Q) : res Student :=
  __init__ demo_clock "STU001" "Alice" "Johnson"
    "alice.johnson@university.edu" "(555) 123-4567" "2001-03-15"
    "123 Campus Drive" "Computer Science" g.

Definition alice_student (g : Q) : Student :=
  mkStudent "STU001" "Alice" "Johnson" "alice.johnson@university.edu"
    "(555) 123-4567" "2001-03-15" "123 Campus Drive" "Computer Science" g
    "2026-11-03" [] [].

(** A valid entity: every validated attribute passes its validator and is
    already in the form the validator returns. *)
Record valid_entity (e : Student) : Prop := mk_valid_entity {
  valid_id : _validate_student_id (student_id e) = Ok (student_id e);
  valid_first : _validate_name (first_name e) "First name" = Ok (first_name e);
  valid_last : _validate_name (last_name e) "Last name" = Ok (last_name e);
  valid_email : _validate_email (email e) = Ok (email e);
  valid_phone : _validate_phone (phone e) = Ok (phone e);
  valid_dob : _validate_date (date_of_birth e) = Ok (date_of_birth e);
  valid_gpa : _validate_gpa (gpa e) = Ok (gpa e)
}.

(** ** Write operations of the storage engine *)

Inductive WriteOp : Type :=
| Add (student : Student)
| Update (student : Student)
| Delete (student_id : string).

Definition run_write (now : Clock) (fl : StudentDatabase.Faults)
    (op : WriteOp) (disk : StudentDatabase.Disk)
  : bool * StudentDatabase.Disk :=
  match op with
  | Add e => StudentDatabase.add_student now fl e disk
  | Update e => StudentDatabase.update_student now fl e disk
  | Delete sid => StudentDatabase.delete_student now fl sid disk
  end.

(** The collection an operation sets out to write; [None] when it is
    refused before any write (duplicate id on add, unknown id otherwise). *)
Definition new_collection (op : WriteOp) (disk : StudentDatabase.Disk)
  : option (list StudentDict) :=
  let data := StudentDatabase._load_data disk in
  match op with
  | Add e =>
      if existsb (StudentDatabase.id_is (student_id e)) data then None
      else Some (data ++ [to_dict e])
  | Update e => StudentDatabase.replace_first (student_id e) (to_dict e) data
  | Delete sid => StudentDatabase.delete_first (upper sid) data
  end.

(** The ids stored in the file, in order. *)
Definition stored_ids (disk : StudentDatabase.Disk) : list string :=
  List.map d_student_id (StudentDatabase._load_data disk).

(** The value of an updatable field, by its name. *)
Definition updatable_value (field : string) (self : Student) : string :=
  if String.eqb field "first_name" then first_name self
  else if String.eqb field "last_name" then last_name self
  else if String.eqb field "email" then email self
  else if String.eqb field "phone" then phone self
  else if String.eqb field "address" then address self
  else if String.eqb field "major" then major self
  else EmptyString.

(** ** Search criteria *)


(** A criterion is satisfied when its test returns and does not reject. *)
Definition satisfied (py : Builtins) (now : Clock) (student : Student)
    (kv : string * pyval) : bool :=
  match StudentDatabase.criterion_holds py now student (fst kv) (snd kv) with
  | Ok b => b
  | Raise _ => false
  end.

(** Text for the text predicates, a number for the numeric bounds. *)
Definition well_typed (kv : string * pyval) : bool :=
  if mem (fst kv) ["name"; "major"; "email"] then
    match snd kv with VStr _ => true | _ => false end
  else if mem (fst kv) ["gpa_min"; "gpa_max"; "age_min"; "age_max"] then
    match snd kv with VStr _ => false | _ => true end
  else true.

(** The other two students of the demonstration script. *)
Definition bob_student (g : Q) : Student :=
  mkStudent "STU002" "Bob" "Smith" "bob.smith@university.edu"
    "(555) 234-5678" "2000-07-22" "456 University Ave" "Mathematics" g
    "2026-11-03" [] [].

Definition carol_student (g : Q) : Student :=
  mkStudent "STU003" "Carol" "Davis" "carol.davis@university.edu"
    "(555) 345-6789" "2002-01-10" "789 College Street" "Physics" g
    "2026-11-03" [] [].

Definition demo_disk : StudentDatabase.Disk :=
  StudentDatabase.mkDisk
    (Some (StudentDatabase.Json
             [to_dict (alice_student (19 # 5));
              to_dict (bob_student (18 # 5));
              to_dict (carol_student (39 # 10))])) [].

(** ** The arithmetic of the entity and of the statistics, on binary64

    Python's [float] is IEEE 754 binary64, and so is Rocq's primitive
    [float]: the same rounding to nearest-even, the same infinities and
    NaN, and in both a decimal literal denotes the nearest binary64 value.
    This module embeds the methods of [student.py] and [database.py] that
    compute with gpa and grades over that type. A number passed as an
    [int] is read as the float it converts to.

    The built-in [sum] is a parameter of the methods that call it: CPython
    adds the items from left to right up to version 3.11
    ([sum_left_to_right]) and compensates the rounding errors from 3.12
    on. *)

Module Binary64.

(** [float(n)] for a length [n]; exact below 2^53. *)
Definition of_nat (n : nat) : float :=
  PrimFloat.of_uint63 (Uint63.of_Z (Z.of_nat n)).

(** [sum(xs)] as CPython computes it up to 3.11: from 0, left to right,
    each addition rounded. *)
Definition sum_left_to_right (xs : list float) : float :=
  fold_left PrimFloat.add xs 0%float.

Record Student : Type := mkStudent {
  student_id : string;
  first_name : string;
  last_name : string;
  email : string;
  phone : string;
  date_of_birth : string;
  address : string;
  major : string;
  gpa : float;
  enrollment_date : string;
  courses : list string;
  grades : PyDict.dict float
}.

Definition set_first_name (v : string) (s : Student) : Student :=
  mkStudent (student_id s) v (last_name s) (email s) (phone s)
    (date_of_birth s) (address s) (major s) (gpa s) (enrollment_date s)
    (courses s) (grades s).

Definition set_last_name (v : string) (s : Student) : Student :=
  mkStudent (student_id s) (first_name s) v (email s) (phone s)
    (date_of_birth s) (address s) (major s) (gpa s) (enrollment_date s)
    (courses s) (grades s).

Definition set_email (v : string) (s : Student) : Student :=
  mkStudent (student_id s) (first_name s) (last_name s) v (phone s)
    (date_of_birth s) (address s) (major s) (gpa s) (enrollment_date s)
    (courses s) (grades s).

Definition set_phone (v : string) (s : Student) : Student :=
  mkStudent (student_id s) (first_name s) (last_name s) (email s) v
    (date_of_birth s) (address s) (major s) (gpa s) (enrollment_date s)
    (courses s) (grades s).

Definition set_address (v : string) (s : Student) : Student :=
  mkStudent (student_id s) (first_name s) (last_name s) (email s) (phone s)
    (date_of_birth s) v (major s) (gpa s) (enrollment_date s)
    (courses s) (grades s).

Definition set_major (v : string) (s : Student) : Student :=
  mkStudent (student_id s) (first_name s) (last_name s) (email s) (phone s)
    (date_of_birth s) (address s) v (gpa s) (enrollment_date s)
    (courses s) (grades s).

Definition set_gpa (v : float) (s : Student) : Student :=
  mkStudent (student_id s) (first_name s) (last_name s) (email s) (phone s)
    (date_of_birth s) (address s) (major s) v (enrollment_date s)
    (courses s) (grades s).

Definition set_enrollment_date (v : string) (s : Student) : Student :=
  mkStudent (student_id s) (first_name s) (last_name s) (email s) (phone s)
    (date_of_birth s) (address s) (major s) (gpa s) v
    (courses s) (grades s).

Definition set_courses (v : list string) (s : Student) : Student :=
  mkStudent (student_id s) (first_name s) (last_name s) (email s) (phone s)
    (date_of_birth s) (address s) (major s) (gpa s) (enrollment_date s)
    v (grades s).

Definition set_grades (v : PyDict.dict float) (s : Student) : Student :=
  mkStudent (student_id s) (first_name s) (last_name s) (email s) (phone s)
    (date_of_birth s) (address s) (major s) (gpa s) (enrollment_date s)
    (courses s) v.

(** [gpa < 0.0 or gpa > 4.0]: both comparisons are false of NaN. *)
Definition _validate_gpa (gpa : float) : res float :=
  if (gpa <? 0)%float || (4 <? gpa)%float then
    Raise (ValueError "GPA must be between 0.0 and 4.0")
  else Ok gpa.

Definition __init__ (now : Clock)
    (student_id first_name last_name email phone date_of_birth
       address major : string) (gpa : float) : res Student :=
  do sid <- _validate_student_id student_id;
  do fn <- _validate_name first_name "First name";
  do ln <- _validate_name last_name "Last name";
  do em <- _validate_email email;
  do ph <- _validate_phone phone;
  do dob <- _validate_date date_of_birth;
  do g <- _validate_gpa gpa;
  Ok (mkStudent sid fn ln em ph dob address major g (today_iso now) [] []).

Definition add_course (course_name : string) (self : Student)
  : res (bool * Student) :=
  if negb (truthy course_name) then
    Raise (ValueError "Course name must be a non-empty string")
  else
    let course_name := strip course_name in
    if negb (mem course_name (courses self)) then
      Ok (true, set_courses (courses self ++ [course_name]) self)
    else Ok (false, self).

Definition remove_course (course_name : string) (self : Student)
  : bool * Student :=
  if mem course_name (courses self) then
    let self := set_courses (list_remove course_name (courses self)) self in
    let self :=
      if PyDict.has course_name (grades self)
      then set_grades (PyDict.del course_name (grades self)) self
      else self in
    (true, self)
  else (false, self).

Definition get_age (now : Clock) (self : Student) : res Z :=
  match PyDate.strptime (date_of_birth self) with
  | None => Raise (ValueError "time data does not match format")
  | Some birth_date =>
      let age := (year (today now) - year birth_date)%Z in
      if (month (today now) <? month birth_date)%Z
         || ((month (today now) =? month birth_date)%Z
             && (day (today now) <? day birth_date)%Z)
      then Ok (age - 1)%Z
      else Ok age
  end.

(** The map read by [from_dict], as in [StudentDict], with float gpa and
    grades. *)
Record StudentDict : Type := mkStudentDict {
  d_student_id : string;
  d_first_name : string;
  d_last_name : string;
  d_email : string;
  d_phone : string;
  d_date_of_birth : string;
  d_address : option string;
  d_major : option string;
  d_gpa : option float;
  d_enrollment_date : option string;
  d_courses : option (list string);
  d_grades : option (PyDict.dict float)
}.

Definition from_dict (now : Clock) (data : StudentDict) : res Student :=
  do student <- __init__ now (d_student_id data) (d_first_name data)
                  (d_last_name data) (d_email data) (d_phone data)
                  (d_date_of_birth data)
                  (get_default (d_address data) EmptyString)
                  (get_default (d_major data) EmptyString)
                  (get_default (d_gpa data) 0%float);
  let student :=
    set_enrollment_date
      (get_default (d_enrollment_date data) (enrollment_date student))
      student in
  let student := set_courses (get_default (d_courses data) []) student in
  let student := set_grades (get_default (d_grades data) []) student in
  Ok student.

Definition setattr (field : string) (v : string) (self : Student) : Student :=
  if String.eqb field "first_name" then set_first_name v self
  else if String.eqb field "last_name" then set_last_name v self
  else if String.eqb field "email" then set_email v self
  else if String.eqb field "phone" then set_phone v self
  else if String.eqb field "address" then set_address v self
  else if String.eqb field "major" then set_major v self
  else self.

Fixpoint update_info (kwargs : list (string * string)) (self : Student)
  : Student * res unit :=
  match kwargs with
  | [] => (self, Ok tt)
  | (field, value) :: rest =>
      if mem field updatable_fields then
        if mem field ["first_name"; "last_name"] then
          match _validate_name value (title (replace_char "_" " " field)) with
          | Ok v => update_info rest (setattr field v self)
          | Raise e => (self, Raise e)
          end
        else if mem field ["email"; "phone"] then
          match (if String.eqb field "email" then _validate_email value
                 else _validate_phone value) with
          | Ok v => update_info rest (setattr field v self)
          | Raise e => (self, Raise e)
          end
        else update_info rest (setattr field (strip value) self)
      else update_info rest self
  end.

(** The database file as [json.load] reads it; of the disk only this
    file is read here. *)
Inductive File : Type :=
| Json (data : list StudentDict)
| Malformed (raw : string).

Definition _load_data (db_file : option File) : list StudentDict :=
  match db_file with
  | Some (Json data) => data
  | Some (Malformed _) => []
  | None => []
  end.

Fixpoint load_students (now : Clock) (data : list StudentDict)
  : list Student :=
  match data with
  | [] => []
  | student_data :: rest =>
      match from_dict now student_data with
      | Ok s => s :: load_students now rest
      | Raise _ => load_students now rest
      end
  end.

Definition get_all_students (now : Clock) (db_file : option File)
  : list Student :=
  load_students now (_load_data db_file).

Record Stats : Type := mkStats {
  total_students : nat;
  average_gpa : float;
  majors : PyDict.dict nat;
  age_distribution : PyDict.dict nat
}.

(** The integer nearest to [q], a tie going to the even one. *)
Definition round_half_even (q : Q) : Z :=
  let f := Qfloor q in
  match (q - inject_Z f ?= 1 # 2)%Q with
  | Lt => f
  | Gt => (f + 1)%Z
  | Eq => if Z.even f then f else (f + 1)%Z
  end.

(** The number a finite, non-zero float stands for, sign apart. *)
Definition magnitude (m : positive) (e : Z) : Q :=
  (inject_Z (Zpos m) * Qpower 2 e)%Q.

(** [round(x, 2)] on a float: the exact value of [x] is rounded to two
    decimals, a tie going to the even digit, and the result is the float
    nearest to that decimal, which is the correctly rounded quotient of
    the integer of its digits by 100. From 2^53 / 100 on, where floats
    are more than 0.01 apart, that float is [x] itself, as it is for
    zeros, infinities and NaN. *)
Definition round2 (x : float) : float :=
  match Prim2SF x with
  | S754_finite negative m e =>
      let n := round_half_even (magnitude m e * 100) in
      if (n <? 2 ^ 53)%Z then
        let r := (PrimFloat.of_uint63 (Uint63.of_Z n) / 100)%float in
        if negative then (- r)%float else r
      else x
  | _ => x
  end.

(** [d[k] = d.get(k, 0) + 1] *)
Definition bump (k : string) (d : PyDict.dict nat) : PyDict.dict nat :=
  PyDict.set k (get_default (PyDict.get k d) 0 + 1)%nat d.

(** [student.major or 'Undeclared'] *)
Definition major_label (student : Student) : string :=
  if truthy (major student) then major student else "Undeclared".

Definition count_majors (students : list Student) : PyDict.dict nat :=
  fold_left (fun majors student => bump (major_label student) majors)
    students [].

Definition age_bucket (age : Z) : string :=
  if ((18 <=? age) && (age <=? 20))%Z then "18-20"
  else if ((21 <=? age) && (age <=? 25))%Z then "21-25"
  else if ((26 <=? age) && (age <=? 30))%Z then "26-30"
  else "30+".

Definition empty_age_ranges : PyDict.dict nat :=
  [("18-20", 0%nat); ("21-25", 0%nat); ("26-30", 0%nat); ("30+", 0%nat)].

Fixpoint count_ages (now : Clock) (students : list Student)
    (age_ranges : PyDict.dict nat) : res (PyDict.dict nat) :=
  match students with
  | [] => Ok age_ranges
  | student :: rest =>
      do age <- get_age now student;
      count_ages now rest (bump (age_bucket age) age_ranges)
  end.

(** [student.gpa > 0]; false of a NaN gpa. *)
Definition has_gpa (s : Student) : bool := (0 <? gpa s)%float.

Inductive EntityOp : Type :=
| AddCourse (name : string)
| RemoveCourse (name : string)
| AddGrade (course : string) (value : float)
| UpdateFields (partial : list (string * string)).

Definition is_remove (op : EntityOp) : bool :=
  match op with RemoveCourse _ => true | _ => false end.

Section Interpreter.
Variable sum : list float -> float.

Definition _update_gpa (self : Student) : Student :=
  if PyDict.truthy (grades self) then
    set_gpa (sum (PyDict.values (grades self))
             / of_nat (length (grades self)))%float self
  else set_gpa 0%float self.

(** [grade < 0.0 or grade > 4.0]: both comparisons are false of NaN. *)
Definition add_grade (course_name : string) (grade : float) (self : Student)
  : res (bool * Student) :=
  if negb (mem course_name (courses self)) then
    Raise (ValueError ("Course '" ++ course_name
                       ++ "' not found in student's course list"))
  else if (grade <? 0)%float || (4 <? grade)%float then
    Raise (ValueError "Grade must be between 0.0 and 4.0")
  else
    let self := set_grades (PyDict.set course_name grade (grades self)) self in
    Ok (true, _update_gpa self).

(** The object after one call, whether the call returned or raised. *)
Definition apply_op (op : EntityOp) (self : Student) : Student :=
  match op with
  | AddCourse n =>
      match add_course n self with Ok (_, s') => s' | Raise _ => self end
  | RemoveCourse n => snd (remove_course n self)
  | AddGrade c g =>
      match add_grade c g self with Ok (_, s') => s' | Raise _ => self end
  | UpdateFields kw => fst (update_info kw self)
  end.

Definition run_ops (ops : list EntityOp) (self : Student) : Student :=
  fold_left (fun s op => apply_op op s) ops self.

Definition statistics_of (now : Clock) (students : list Student)
  : res Stats :=
  match students with
  | [] => Ok (mkStats 0 0%float [] [])
  | _ :: _ =>
      let total_students := length students in
      let total_gpa := sum (List.map gpa (filter has_gpa students)) in
      let students_with_gpa := length (filter has_gpa students) in
      let average_gpa :=
        if (0 <? students_with_gpa)%nat
        then (total_gpa / of_nat students_with_gpa)%float
        else 0%float in
      let majors := count_majors students in
      do age_ranges <- count_ages now students empty_age_ranges;
      Ok (mkStats total_students (round2 average_gpa) majors age_ranges)
  end.

Definition get_statistics (now : Clock) (db_file : option File)
  : res Stats :=
  statistics_of now (get_all_students now db_file).

End Interpreter.

Definition to_dict (self : Student) : StudentDict :=
  mkStudentDict (student_id self) (first_name self) (last_name self)
    (email self) (phone self) (date_of_birth self)
    (Some (address self)) (Some (major self)) (Some (gpa self))
    (Some (enrollment_date self)) (Some (courses self))
    (Some (grades self)).

(** How many students carry the major label [m]. *)
Definition major_count (m : string) (students : list Student) : nat :=
  length (filter (fun s => String.eqb (major_label s) m) students).

(** The date of birth of a student that was loaded parses. *)
Definition dob_parses (s : Student) : Prop :=
  exists d, PyDate.strptime (date_of_birth s) = Some d.

(** The students of the demonstration script. *)
Definition alice_student (g : float) : Student :=
  mkStudent "STU001" "Alice" "Johnson" "alice.johnson@university.edu"
    "(555) 123-4567" "2001-03-15" "123 Campus Drive" "Computer Science" g
    "2026-11-03" [] [].

Definition bob_student (g : float) : Student :=
  mkStudent "STU002" "Bob" "Smith" "bob.smith@university.edu"
    "(555) 234-5678" "2000-07-22" "456 University Ave" "Mathematics" g
    "2026-11-03" [] [].

Definition carol_student (g : float) : Student :=
  mkStudent "STU003" "Carol" "Davis" "carol.davis@university.edu"
    "(555) 345-6789" "2002-01-10" "789 College Street" "Physics" g
    "2026-11-03" [] [].

Definition demo_file : option File :=
  Some (Json [to_dict (alice_student 3.8); to_dict (bob_student 3.6);
              to_dict (carol_student 3.9)]).

(** Four stored records whose ages at [demo_clock] are 19, 22, 27, 35. *)
Definition born (sid dob : string) : StudentDict :=
  mkStudentDict sid "Dana" "Scully" "dana.scully@university.edu"
    "(555) 456-7890" dob None None None None None None.

Definition ages_file : option File :=
  Some (Json [born "STU101" "2007-03-15"; born "STU102" "2004-07-22";
              born "STU103" "1999-01-10"; born "STU104" "1991-01-10"]).

End Binary64.

(** ** Counting for the statistics *)

(** How many of the ages satisfy [p]. *)
Definition ages_where (p : Z -> bool) (ages : list Z) : nat :=
  length (filter p ages).

Definition within (lo hi : Z) (age : Z) : bool :=
  ((lo <=? age) && (age <=? hi))%Z.

Definition outside_18_30 (age : Z) : bool :=
  ((age <? 18) || (30 <? age))%Z.

(** ** Predicates used in the proofs *)

(** The first character, if any, is not whitespace. *)
Definition head_ok (s : string) : Prop :=
  match s with
  | EmptyString => True
  | String c _ => is_space c = false
  end.

(** Whitespace sits at the same positions in both strings. *)
Inductive same_shape : string -> string -> Prop :=
| shape_nil : same_shape EmptyString EmptyString
| shape_cons c c' r r' :
    is_space c = is_space c' -> same_shape r r' ->
    same_shape (String c r) (String c' r').

(** No whitespace at either end. *)
Definition stripped (s : string) : Prop := head_ok s /\ rstrip s = s.

(** No whitespace anywhere. *)
Definition no_space (s : string) : Prop :=
  PyStr.all (fun c => negb (is_space c)) s = true.

(** Some character test of [r] accepts [c]. *)
Fixpoint any_test (c : ascii) (r : Regex.re) : bool :=
  match r with
  | Regex.Void | Regex.Eps => false
  | Regex.Chr p => p c
  | Regex.Cat a b | Regex.Alt a b => any_test c a || any_test c b
  | Regex.Star a => any_test c a
  end.

(** A syntactic reason for [r] to match nothing. *)
Fixpoint dead (r : Regex.re) : bool :=
  match r with
  | Regex.Void => true
  | Regex.Eps | Regex.Chr _ | Regex.Star _ => false
  | Regex.Cat a b => dead a || dead b
  | Regex.Alt a b => dead a && dead b
  end.

(** Every character test of [r] gives the same answer on [f c] and [c]. *)
Fixpoint tests_respect (f : ascii -> ascii) (r : Regex.re) : Prop :=
  match r with
  | Regex.Void | Regex.Eps => True
  | Regex.Chr p => forall c, p (f c) = p c
  | Regex.Cat a b | Regex.Alt a b => tests_respect f a /\ tests_respect f b
  | Regex.Star a => tests_respect f a
  end.

(** The date of birth of a student that was loaded parses. *)
Definition dob_parses (s : Student) : Prop :=
  exists d, PyDate.strptime (date_of_birth s) = Some d.

(** A grade or gpa between 0.0 and 4.0. *)
Definition in_range (v : Q) : Prop := (0 <= v)%Q /\ (v <= 4)%Q.

(** Everything a valid entity needs except the length of the stored id,
    together with the range of the recorded grades. *)
Record well_formed (s : Student) : Prop := mk_well_formed {
  wf_id : exists raw, _validate_student_id raw = Ok (student_id s);
  wf_first : _validate_name (first_name s) "First name" = Ok (first_name s);
  wf_last : _validate_name (last_name s) "Last name" = Ok (last_name s);
  wf_email : _validate_email (email s) = Ok (email s);
  wf_phone : _validate_phone (phone s) = Ok (phone s);
  wf_dob : _validate_date (date_of_birth s) = Ok (date_of_birth s);
  wf_gpa : in_range (gpa s);
  wf_grades : Forall in_range (PyDict.values (grades s))
}.

(** ** Dates in order *)

(** The date [b] is [t] or earlier. *)
Definition not_after (b t : Date) : Prop :=
  (year b < year t)%Z \/
  (year b = year t /\
   ((month b < month t)%Z \/ (month b = month t /\ (day b <= day t)%Z))).

(** The student the constructor builds from the id made of two spaces
    and a letter, and a file that holds its map. *)
Definition short_id_student : Student :=
  mkStudent "A" "Alice" "Johnson" "alice.johnson@university.edu"
    "(555) 123-4567" "2001-03-15" "123 Campus Drive" "Computer Science" 0
    "2026-11-03" [] [].

Definition short_id_disk : StudentDatabase.Disk :=
  StudentDatabase.mkDisk
    (Some (StudentDatabase.Json [to_dict short_id_student])) [].

(** Two rows of an import file: a new student with a course list, and a
    student whose id the demonstration file already holds. *)
Definition demo_rows : list StudentDatabase.CsvRow :=
  [StudentDatabase.mkCsvRow "stu004" "dana" "scully"
     "dana.scully@university.edu" "(555) 456-7890" "1999-02-23"
     None (Some "Biology") (Some "3.5") None
     (Some "Anatomy, Genetics,, Anatomy");
   StudentDatabase.mkCsvRow "stu001" "alice" "johnson"
     "alice.johnson@university.edu" "(555) 123-4567" "2001-03-15"
     None None None None None].

(** Built-ins that read every number as 3.5 and know no inherited
    attribute; enough for the examples. *)
Definition demo_builtins : Builtins :=
  mkBuiltins (fun _ => Ok (7 # 2)) (fun _ => Ok 0%Z) (fun _ => None).

(** * Properties *)

(** ** Strings, lists and dictionaries *)

Section StringFacts.
Import PyStr.

Lemma mem_In (x : string) (l : list string) : mem x l = true <-> In x l.
Proof.
  unfold mem. rewrite existsb_exists. split.
  - intros [y [Hy E]]. apply String.eqb_eq in E. now subst.
  - intros H. exists x. split; [exact H | apply String.eqb_refl].
Qed.

Lemma mem_not_In (x : string) (l : list string) :
  mem x l = false <-> ~ In x l.
Proof.
  rewrite <- mem_In. destruct (mem x l); split; congruence.
Qed.

Lemma mem_app (x : string) (l1 l2 : list string) :
  mem x (l1 ++ l2) = mem x l1 || mem x l2.
Proof. unfold mem. apply existsb_app. Qed.

Lemma rstrip_idem (s : string) : rstrip (rstrip s) = rstrip s.
Proof.
  induction s as [| c r IH]; simpl; [reflexivity |].
  destruct (rstrip r) as [| c' r'] eqn:E.
  - destruct (is_space c) eqn:Hc; simpl; [reflexivity | now rewrite Hc].
  - simpl. simpl in IH. rewrite IH. reflexivity.
Qed.

Lemma lstrip_head_ok (s : string) : head_ok (lstrip s).
Proof.
  induction s as [| c r IH]; simpl; [exact I |].
  destruct (is_space c) eqn:Hc; [exact IH | exact Hc].
Qed.

Lemma lstrip_fix (s : string) : head_ok s -> lstrip s = s.
Proof. destruct s as [| c r]; simpl; [easy | now intros ->]. Qed.

Lemma rstrip_head_ok (s : string) : head_ok s -> head_ok (rstrip s).
Proof.
  destruct s as [| c r]; simpl; [easy |]. intros Hc.
  destruct (rstrip r); [rewrite Hc |]; exact Hc.
Qed.

Lemma strip_idem (s : string) : strip (strip s) = strip s.
Proof.
  unfold strip.
  rewrite (lstrip_fix (rstrip (lstrip s))).
  - apply rstrip_idem.
  - apply rstrip_head_ok, lstrip_head_ok.
Qed.

Lemma strip_empty : strip EmptyString = EmptyString.
Proof. reflexivity. Qed.

Lemma strip_changed_truthy (s : string) : strip s <> s -> truthy s = true.
Proof. destruct s; [intros H; now elim H | reflexivity]. Qed.

End StringFacts.

Section ListFacts.

Lemma list_remove_In (x c : string) (l : list string) :
  In x l -> x <> c -> In x (list_remove c l).
Proof.
  induction l as [| y r IH]; simpl; [easy |].
  intros [-> | H] Hne.
  - destruct (String.eqb_spec c x); [congruence | now left].
  - destruct (String.eqb c y); [exact H | right; now apply IH].
Qed.

Lemma list_remove_incl (x c : string) (l : list string) :
  In x (list_remove c l) -> In x l.
Proof.
  induction l as [| y r IH]; simpl; [easy |].
  destruct (String.eqb c y); [now right |].
  intros [-> | H]; [now left | right; now apply IH].
Qed.

End ListFacts.

Section DictFacts.
Context {V : Type}.
Implicit Types (d : PyDict.dict V) (k : string) (v : V).

Lemma dict_get_set_same k v d : PyDict.get k (PyDict.set k v d) = Some v.
Proof.
  induction d as [| [k' v'] r IH]; simpl.
  - now rewrite String.eqb_refl.
  - destruct (String.eqb k k') eqn:E; simpl; rewrite E; [reflexivity | exact IH].
Qed.

Lemma dict_get_set_other k k' v d :
  k' <> k -> PyDict.get k' (PyDict.set k v d) = PyDict.get k' d.
Proof.
  intros Hne. induction d as [| [k0 v0] r IH]; simpl.
  - destruct (String.eqb_spec k' k); [congruence | reflexivity].
  - destruct (String.eqb_spec k k0) as [-> | Hk]; simpl.
    + destruct (String.eqb_spec k' k0); [congruence | reflexivity].
    + destruct (String.eqb k' k0); [reflexivity | exact IH].
Qed.

Lemma dict_keys_set k k' v d :
  In k' (PyDict.keys (PyDict.set k v d)) <-> k' = k \/ In k' (PyDict.keys d).
Proof.
  unfold PyDict.keys.
  induction d as [| [k0 v0] r IH]; simpl.
  - intuition.
  - destruct (String.eqb_spec k k0) as [-> | Hk]; simpl.
    + intuition.
    + rewrite IH. intuition.
Qed.

Lemma dict_keys_del k k' d :
  In k' (PyDict.keys (PyDict.del k d)) <-> k' <> k /\ In k' (PyDict.keys d).
Proof.
  unfold PyDict.keys, PyDict.del.
  induction d as [| [k0 v0] r IH]; simpl.
  - intuition.
  - destruct (String.eqb_spec k k0) as [-> | Hk]; simpl.
    + rewrite IH. intuition congruence.
    + rewrite IH. intuition congruence.
Qed.

Lemma dict_get_del_same k d : PyDict.get k (PyDict.del k d) = None.
Proof.
  unfold PyDict.del.
  induction d as [| [k0 v0] r IH]; simpl; [reflexivity |].
  destruct (String.eqb k k0) eqn:E; simpl; [exact IH | now rewrite E].
Qed.

Lemma dict_has_keys k d : PyDict.has k d = true <-> In k (PyDict.keys d).
Proof.
  unfold PyDict.has, PyDict.keys.
  induction d as [| [k0 v0] r IH]; simpl.
  - intuition congruence.
  - destruct (String.eqb_spec k k0) as [-> | Hk].
    + intuition.
    + rewrite IH. intuition congruence.
Qed.

Lemma dict_set_truthy k v d : PyDict.truthy (PyDict.set k v d) = true.
Proof.
  destruct d as [| [k0 v0] r]; simpl; [reflexivity |].
  now destruct (String.eqb k k0).
Qed.

End DictFacts.

(** ** The entity *)

Lemma Qltb_lt (a b : Q) : Qltb a b = true <-> (a < b)%Q.
Proof.
unfold Qltb. rewrite negb_true_iff. split.
- intros H. apply Qnot_le_lt. intros Hle.
  apply Qle_bool_iff in Hle. congruence.
- intros H. destruct (Qle_bool b a) eqn:E; [| reflexivity].
  apply Qle_bool_iff in E. elim (Qlt_not_le _ _ H E).
Qed.

Lemma Qltb_ge (a b : Q) : Qltb a b = false <-> (b <= a)%Q.
Proof.
unfold Qltb. rewrite negb_false_iff. apply Qle_bool_iff.
Qed.

Lemma validate_gpa_ok (g g' : Q) : _validate_gpa g = Ok g' -> g' = g.
Proof.
unfold _validate_gpa. destruct (Qltb g 0 || Qltb 4 g); congruence.
Qed.

(** What a successful construction says about its result. *)
Lemma init_inv now sid fn ln em ph dob addr mj g s :
  __init__ now sid fn ln em ph dob addr mj g = Ok s ->
  _validate_student_id sid = Ok (student_id s) /\
  _validate_name fn "First name" = Ok (first_name s) /\
  _validate_name ln "Last name" = Ok (last_name s) /\
  _validate_email em = Ok (email s) /\
  _validate_phone ph = Ok (phone s) /\
  _validate_date dob = Ok (date_of_birth s) /\
  _validate_gpa g = Ok (gpa s) /\
  address s = addr /\ major s = mj /\
  enrollment_date s = today_iso now /\ courses s = [] /\ grades s = [].
Proof.
unfold __init__.
destruct (_validate_student_id sid); simpl; [| discriminate].
destruct (_validate_name fn _); simpl; [| discriminate].
destruct (_validate_name ln _); simpl; [| discriminate].
destruct (_validate_email em); simpl; [| discriminate].
destruct (_validate_phone ph); simpl; [| discriminate].
destruct (_validate_date dob); simpl; [| discriminate].
destruct (_validate_gpa g); simpl; [| discriminate].
intros [= <-]. simpl. repeat split; reflexivity.
Qed.

Lemma from_dict_inv now data s :
  from_dict now data = Ok s ->
  exists s0,
    __init__ now (d_student_id data) (d_first_name data) (d_last_name data)
      (d_email data) (d_phone data) (d_date_of_birth data)
      (get_default (d_address data) EmptyString)
      (get_default (d_major data) EmptyString)
      (get_default (d_gpa data) 0%Q) = Ok s0 /\
    s = set_grades (get_default (d_grades data) [])
          (set_courses (get_default (d_courses data) [])
             (set_enrollment_date
                (get_default (d_enrollment_date data) (enrollment_date s0))
                s0)).
Proof.
unfold from_dict. destruct (__init__ _ _ _ _ _ _ _ _ _ _) as [s0 |];
  simpl; [| discriminate].
intros [= <-]. now exists s0.
Qed.

(** [update_info] touches none of the identity and academic attributes. *)
Lemma update_info_frame (kwargs : list (string * string)) (s : Student) :
  let s' := fst (update_info kwargs s) in
  student_id s' = student_id s /\ date_of_birth s' = date_of_birth s /\
  gpa s' = gpa s /\ enrollment_date s' = enrollment_date s /\
  courses s' = courses s /\ grades s' = grades s.
Proof.
revert s. induction kwargs as [| [field value] rest IH]; intros s;
  cbn [update_info].
- simpl. repeat split; reflexivity.
- assert (Hset : forall v,
    let s1 := setattr field v s in
    student_id s1 = student_id s /\ date_of_birth s1 = date_of_birth s /\
    gpa s1 = gpa s /\ enrollment_date s1 = enrollment_date s /\
    courses s1 = courses s /\ grades s1 = grades s).
  { intros v. unfold setattr.
    repeat match goal with
           | |- context [String.eqb ?a ?b] => destruct (String.eqb a b)
           end; simpl; repeat split; reflexivity. }
  assert (Hstep : forall v,
    let s' := fst (update_info rest (setattr field v s)) in
    student_id s' = student_id s /\ date_of_birth s' = date_of_birth s /\
    gpa s' = gpa s /\ enrollment_date s' = enrollment_date s /\
    courses s' = courses s /\ grades s' = grades s).
  { intros v. specialize (IH (setattr field v s)). specialize (Hset v).
    simpl in *. intuition congruence. }
  destruct (mem field updatable_fields); [| apply IH].
  destruct (mem field ["first_name"; "last_name"]).
  + destruct (_validate_name value _); [apply Hstep |].
    simpl. repeat split; reflexivity.
  + destruct (mem field ["email"; "phone"]); [| apply Hstep].
    match goal with
    | |- context [match ?x with Ok _ => _ | Raise _ => _ end] => destruct x
    end; [apply Hstep |].
    simpl. repeat split; reflexivity.
Qed.

Lemma alice_constructs : alice (19 # 5) = Ok (alice_student (19 # 5)).
Proof. vm_compute. reflexivity. Qed.

Lemma add_course_inv (n : string) (s s' : Student) (b : bool) :
  add_course n s = Ok (b, s') ->
  gpa s' = gpa s /\ grades s' = grades s /\
  (courses s' = courses s \/ courses s' = courses s ++ [strip n]).
Proof.
unfold add_course. destruct (negb (truthy n)); [discriminate |].
destruct (negb (mem (strip n) (courses s))); intros [= <- <-]; simpl; auto.
Qed.

Lemma add_grade_ok_inv (c : string) (g : Q) (s s' : Student) (b : bool) :
  add_grade c g s = Ok (b, s') ->
  In c (courses s) /\ (0 <= g)%Q /\ (g <= 4)%Q /\ b = true /\
  s' = set_gpa (mean (PyDict.set c g (grades s)))
         (set_grades (PyDict.set c g (grades s)) s).
Proof.
unfold add_grade. destruct (mem c (courses s)) eqn:Hc; simpl; [| discriminate].
destruct (Qltb g 0) eqn:H0; simpl; [discriminate |].
destruct (Qltb 4 g) eqn:H4; simpl; [discriminate |].
unfold _update_gpa. simpl. rewrite dict_set_truthy.
intros [= <- <-]. apply mem_In in Hc. apply Qltb_ge in H0, H4. auto.
Qed.

Lemma remove_course_inv (c : string) (s : Student) :
  (mem c (courses s) = false /\ remove_course c s = (false, s)) \/
  (mem c (courses s) = true /\ fst (remove_course c s) = true /\
   courses (snd (remove_course c s)) = list_remove c (courses s) /\
   grades (snd (remove_course c s)) = PyDict.del c (grades s)).
Proof.
unfold remove_course. destruct (mem c (courses s)); [right | now left].
simpl. destruct (PyDict.has c (grades s)) eqn:H; simpl; repeat split.
(* no entry for [c]: deleting it changes nothing *)
unfold PyDict.del. symmetry. apply forallb_filter_id.
apply forallb_forall. intros [k v] Hin. simpl.
destruct (String.eqb_spec c k) as [-> | Hne]; [| reflexivity].
assert (In k (PyDict.keys (grades s))) as Hk.
{ unfold PyDict.keys. apply in_map_iff. now exists (k, v). }
apply dict_has_keys in Hk. congruence.
Qed.

Lemma apply_op_keeps_subset (op : EntityOp) (s : Student) :
  grades_within_courses s -> grades_within_courses (apply_op op s).
Proof.
unfold grades_within_courses. intros Hs.
destruct op as [n | n | c g | kw]; simpl.
- destruct (add_course n s) as [[b s'] |] eqn:E; [| exact Hs].
  apply add_course_inv in E. destruct E as (_ & Eg & [Ec | Ec]);
    rewrite Eg, Ec; intros k Hk; [| apply in_or_app; left]; now apply Hs.
- destruct (remove_course_inv n s) as [[_ E] | (_ & _ & Ec & Eg)].
  + rewrite E. exact Hs.
  + rewrite Ec, Eg. intros k Hk. apply dict_keys_del in Hk.
    destruct Hk as [Hne Hk]. apply list_remove_In; [now apply Hs | exact Hne].
- destruct (add_grade c g s) as [[b s'] |] eqn:E; [| exact Hs].
  apply add_grade_ok_inv in E. destruct E as (Hc & _ & _ & _ & ->). simpl.
  intros k Hk. apply dict_keys_set in Hk.
  destruct Hk as [-> | Hk]; [exact Hc | now apply Hs].
- pose proof (update_info_frame kw s) as F. simpl in F.
  destruct F as (_ & _ & _ & _ & Ec & Eg). rewrite Ec, Eg. exact Hs.
Qed.

(** C2 (amended). Every key of grades is one of the courses in a freshly
    constructed student, and each of add_course, remove_course, add_grade
    and update_info keeps it so; remove_course leaves no grade under the
    removed name. [from_dict] takes courses and grades from the map as
    they are, so its result has the property exactly when the map has it,
    as every map written by [to_dict] from such a student does. *)
Theorem grades_stay_within_courses :
  (forall now sid fn ln em ph dob addr mj g s,
     __init__ now sid fn ln em ph dob addr mj g = Ok s ->
     grades_within_courses s) /\
  (forall op s,
     grades_within_courses s -> grades_within_courses (apply_op op s)) /\
  (forall c s,
     grades_within_courses s ->
     PyDict.get c (grades (snd (remove_course c s))) = None) /\
  (forall now data s,
     from_dict now data = Ok s ->
     (grades_within_courses s <->
      forall k, In k (PyDict.keys (get_default (d_grades data) [])) ->
                In k (get_default (d_courses data) []))) /\
  (forall now s s',
     grades_within_courses s -> from_dict now (to_dict s) = Ok s' ->
     grades_within_courses s').
Proof.
repeat apply conj.
- intros now sid fn ln em ph dob addr mj g s H. apply init_inv in H.
  destruct H as (_&_&_&_&_&_&_&_&_&_&_&Hg).
  unfold grades_within_courses. rewrite Hg. simpl. tauto.
- exact apply_op_keeps_subset.
- intros c s Hs. destruct (remove_course_inv c s) as [[Hc E] | (_ & _ & _ & Eg)].
  + rewrite E. simpl. destruct (PyDict.get c (grades s)) eqn:G; [| reflexivity].
    assert (PyDict.has c (grades s) = true) as Hh
      by (unfold PyDict.has; now rewrite G).
    apply dict_has_keys, Hs, mem_In in Hh. congruence.
  + rewrite Eg. apply dict_get_del_same.
- intros now data s H. apply from_dict_inv in H. destruct H as (s0 & _ & ->).
  unfold grades_within_courses. simpl. tauto.
- intros now s s' Hs H. apply from_dict_inv in H. destruct H as (s0 & _ & ->).
  unfold grades_within_courses. simpl. exact Hs.
Qed.

Lemma grades_stay_within_courses_witness :
  grades_within_courses
    (apply_op (RemoveCourse "Algorithms")
       (set_grades [("Algorithms", 19 # 5)]
          (set_courses ["Algorithms"] (alice_student (19 # 5))))).
Proof.
apply (proj1 (proj2 grades_stay_within_courses)).
unfold grades_within_courses. simpl. tauto.
Defined.

(** C2 fails as stated: [from_dict] accepts a map whose grades mention a
    course that its courses do not list. *)
Lemma from_dict_keeps_stray_grade :
  exists s,
    from_dict demo_clock
      (mkStudentDict "STU001" "Alice" "Johnson" "alice.johnson@university.edu"
         "(555) 123-4567" "2001-03-15" None None None None
         (Some []) (Some [("Algorithms", 3 # 1)])) = Ok s /\
    In "Algorithms" (PyDict.keys (grades s)) /\
    ~ In "Algorithms" (courses s).
Proof.
eexists. split; [vm_compute; reflexivity |]. simpl. tauto.
Qed.

(** Course names are stored stripped in every reachable student. *)
Lemma reachable_courses_stripped (s : Student) :
  Reachable s -> Forall (fun c => strip c = c) (courses s).
Proof.
induction 1 as [now sid fn ln em ph dob addr mj g s H
               | op s R IH | now s s' R IH H].
- apply init_inv in H. destruct H as (_&_&_&_&_&_&_&_&_&_&Hc&_).
  rewrite Hc. constructor.
- destruct op as [n | n | c g | kw]; simpl.
  + destruct (add_course n s) as [[b s'] |] eqn:E; [| exact IH].
    apply add_course_inv in E. destruct E as (_ & _ & [Ec | Ec]); rewrite Ec;
      [exact IH |].
    apply Forall_app. split; [exact IH |].
    constructor; [apply strip_idem | constructor].
  + destruct (remove_course_inv n s) as [[_ E] | (_ & _ & Ec & _)].
    * now rewrite E.
    * rewrite Ec. rewrite Forall_forall in *. intros x Hx.
      apply IH. eapply list_remove_incl. exact Hx.
  + destruct (add_grade c g s) as [[b s'] |] eqn:E; [| exact IH].
    apply add_grade_ok_inv in E. destruct E as (_ & _ & _ & _ & ->). exact IH.
  + pose proof (update_info_frame kw s) as F. simpl in F.
    destruct F as (_ & _ & _ & _ & Ec & _). now rewrite Ec.
- apply from_dict_inv in H. destruct H as (s0 & _ & ->). exact IH.
Qed.

Lemma list_remove_app_In (x : string) (l r : list string) :
  In x l -> list_remove x (l ++ r) = list_remove x l ++ r.
Proof.
induction l as [| y t IH]; simpl; [tauto |].
destruct (String.eqb_spec x y) as [-> | Hne]; [reflexivity |].
intros [E | Hin]; [congruence |]. now rewrite IH.
Qed.

(** C10 (amended). [add_course] strips the name before the membership test
    and the append, [remove_course] compares the raw argument. For a name
    with surrounding whitespace whose stripped form is not yet a course,
    add_course appends the stripped form to courses, changes no other
    attribute and returns True. remove_course with the same raw name then
    returns False and changes nothing when the raw name is not itself one
    of the stored names, and removes that stored name and returns True
    when it is. The raw name is not among the stored names of any student
    the program builds, whose course names are all stripped. *)
Theorem add_course_strips_remove_course_does_not (n : string) (s : Student) :
  strip n <> n ->
  ~ In (strip n) (courses s) ->
  exists s1,
    add_course n s = Ok (true, s1) /\
    courses s1 = courses s ++ [strip n] /\
    (grades s1 = grades s /\ gpa s1 = gpa s /\
     student_id s1 = student_id s /\ first_name s1 = first_name s /\
     last_name s1 = last_name s /\ email s1 = email s /\
     phone s1 = phone s /\ date_of_birth s1 = date_of_birth s /\
     address s1 = address s /\ major s1 = major s /\
     enrollment_date s1 = enrollment_date s) /\
    (~ In n (courses s) -> remove_course n s1 = (false, s1)) /\
    (In n (courses s) ->
     fst (remove_course n s1) = true /\
     courses (snd (remove_course n s1))
     = list_remove n (courses s) ++ [strip n]) /\
    (Reachable s -> ~ In n (courses s)).
Proof.
intros Hn Hnew.
exists (set_courses (courses s ++ [strip n]) s).
split; [| split; [| split; [| split; [| split]]]].
- unfold add_course. rewrite (strip_changed_truthy n Hn). simpl.
  apply mem_not_In in Hnew. now rewrite Hnew.
- reflexivity.
- simpl. repeat split; reflexivity.
- intros Hraw. unfold remove_course. simpl.
  assert (mem n (courses s ++ [strip n]) = false) as ->; [| reflexivity].
  rewrite mem_app. apply orb_false_iff. split; apply mem_not_In.
  + exact Hraw.
  + simpl. intros [E | []]. now apply Hn.
- intros Hraw.
  destruct (remove_course_inv n (set_courses (courses s ++ [strip n]) s))
    as [[Hm _] | (_ & Hf & Hc & _)].
  + simpl in Hm. rewrite mem_app in Hm. apply orb_false_iff in Hm.
    destruct Hm as [Hm _]. apply mem_not_In in Hm. now elim Hm.
  + split; [exact Hf |]. rewrite Hc. simpl.
    now apply list_remove_app_In.
- intros R Hin. pose proof (reachable_courses_stripped s R) as F.
  rewrite Forall_forall in F. apply Hn. now apply F.
Qed.

Lemma add_course_strips_remove_course_does_not_witness :
  exists s1,
    add_course " Algorithms " (alice_student 0) = Ok (true, s1) /\
    courses s1 = ["Algorithms"] /\
    remove_course " Algorithms " s1 = (false, s1).
Proof.
destruct (add_course_strips_remove_course_does_not " Algorithms "
            (alice_student 0)) as (s1 & Ha & Hc & _ & Hr & _).
- vm_compute. discriminate.
- simpl. tauto.
- exists s1. split; [exact Ha |]. split; [exact Hc |].
  apply Hr. simpl. tauto.
Defined.

(** C10 fails as stated: a student loaded from a map whose courses hold
    the raw name " Algorithms " does not have the stripped form, so
    add_course appends it and returns True, and remove_course with the
    same raw name then returns True and removes the stored raw name. *)
Lemma loaded_raw_course_is_removed :
  exists s s1,
    from_dict demo_clock
      (mkStudentDict "STU001" "Alice" "Johnson" "alice.johnson@university.edu"
         "(555) 123-4567" "2001-03-15" None None None None
         (Some [" Algorithms "]) None) = Ok s /\
    strip " Algorithms " <> " Algorithms " /\
    ~ In (strip " Algorithms ") (courses s) /\
    add_course " Algorithms " s = Ok (true, s1) /\
    courses s1 = [" Algorithms "; "Algorithms"] /\
    fst (remove_course " Algorithms " s1) = true /\
    courses (snd (remove_course " Algorithms " s1)) = ["Algorithms"].
Proof.
eexists. eexists.
split; [vm_compute; reflexivity |].
split; [vm_compute; discriminate |].
split; [vm_compute; intros [H | []]; discriminate |].
split; [vm_compute; reflexivity |].
split; vm_compute; auto.
Qed.

(** ** The arithmetic of the entity, on binary64 *)

Section Binary64Entity.
Import Binary64.
Variable sum : list float -> float.

Lemma float_validate_gpa_ok (g g' : float) :
  _validate_gpa g = Ok g' -> g' = g.
Proof.
unfold _validate_gpa. destruct (_ || _); congruence.
Qed.

Lemma float_init_inv now sid fn ln em ph dob addr mj g s :
  __init__ now sid fn ln em ph dob addr mj g = Ok s ->
  _validate_date dob = Ok (date_of_birth s) /\
  gpa s = g /\ courses s = [] /\ grades s = [].
Proof.
unfold __init__.
destruct (_validate_student_id sid); simpl; [| discriminate].
destruct (_validate_name fn _); simpl; [| discriminate].
destruct (_validate_name ln _); simpl; [| discriminate].
destruct (_validate_email em); simpl; [| discriminate].
destruct (_validate_phone ph); simpl; [| discriminate].
destruct (_validate_date dob); simpl; [| discriminate].
destruct (_validate_gpa g) eqn:G; simpl; [| discriminate].
apply float_validate_gpa_ok in G. intros [= <-]. simpl. auto.
Qed.

(** [update_info] assigns neither gpa nor courses nor grades. *)
Lemma float_update_info_frame (kwargs : list (string * string))
    (s : Student) :
  let s' := fst (update_info kwargs s) in
  gpa s' = gpa s /\ courses s' = courses s /\ grades s' = grades s.
Proof.
revert s. induction kwargs as [| [field value] rest IH]; intros s;
  cbn [update_info].
- simpl. auto.
- assert (Hstep : forall v,
    let s' := fst (update_info rest (setattr field v s)) in
    gpa s' = gpa s /\ courses s' = courses s /\ grades s' = grades s).
  { intros v. specialize (IH (setattr field v s)).
    assert (Hset : gpa (setattr field v s) = gpa s /\
                   courses (setattr field v s) = courses s /\
                   grades (setattr field v s) = grades s).
    { unfold setattr.
      repeat match goal with
             | |- context [String.eqb ?a ?b] => destruct (String.eqb a b)
             end; simpl; auto. }
    simpl in *. intuition congruence. }
  destruct (mem field updatable_fields); [| apply IH].
  destruct (mem field ["first_name"; "last_name"]).
  + destruct (_validate_name value _); [apply Hstep |]. simpl. auto.
  + destruct (mem field ["email"; "phone"]); [| apply Hstep].
    match goal with
    | |- context [match ?x with Ok _ => _ | Raise _ => _ end] => destruct x
    end; [apply Hstep |].
    simpl. auto.
Qed.

Lemma float_add_course_inv (n : string) (s s' : Student) (b : bool) :
  add_course n s = Ok (b, s') -> gpa s' = gpa s /\ grades s' = grades s.
Proof.
unfold add_course. destruct (negb (truthy n)); [discriminate |].
destruct (negb (mem (strip n) (courses s))); intros [= <- <-]; simpl; auto.
Qed.

(** What [add_grade] does, case by case: it raises exactly when the
    course is not among the courses or one of the two comparisons holds;
    otherwise it stores the value under the course, assigns
    [sum(values) / len] to gpa and returns True. *)
Lemma add_grade_cases (c : string) (g : float) (s : Student) :
  ((exists msg, add_grade sum c g s = Raise (ValueError msg)) <->
   (~ In c (courses s) \/ (g <? 0)%float = true \/ (4 <? g)%float = true)) /\
  (In c (courses s) -> (g <? 0)%float = false -> (4 <? g)%float = false ->
   add_grade sum c g s
   = Ok (true,
         set_gpa (sum (List.map snd (PyDict.set c g (grades s)))
                  / of_nat (length (PyDict.set c g (grades s))))%float
           (set_grades (PyDict.set c g (grades s)) s))).
Proof.
unfold add_grade. split; [split |].
- intros [msg H]. destruct (mem c (courses s)) eqn:Hc.
  + right. simpl in H.
    destruct (g <? 0)%float; [now left |].
    destruct (4 <? g)%float; [now right |].
    discriminate.
  + left. now apply mem_not_In.
- intros [Hc | [H0 | H4]].
  + apply mem_not_In in Hc. rewrite Hc. simpl. eauto.
  + rewrite H0. destruct (mem c (courses s)); simpl; eauto.
  + rewrite H4, orb_true_r. destruct (mem c (courses s)); simpl; eauto.
- intros Hc H0 H4. apply mem_In in Hc. rewrite Hc, H0, H4. simpl.
  unfold _update_gpa. simpl. now rewrite dict_set_truthy.
Qed.

Lemma float_add_grade_ok_inv (c : string) (g : float) (s s' : Student)
    (b : bool) :
  add_grade sum c g s = Ok (b, s') ->
  grades s' = PyDict.set c g (grades s) /\
  gpa s' = (sum (List.map snd (grades s')) / of_nat (length (grades s')))%float.
Proof.
intros H.
destruct (mem c (courses s)) eqn:Hc;
  [| unfold add_grade in H; rewrite Hc in H; discriminate].
destruct (g <? 0)%float eqn:H0;
  [unfold add_grade in H; rewrite Hc, H0 in H; discriminate |].
destruct (4 <? g)%float eqn:H4;
  [unfold add_grade in H; rewrite Hc, H0, H4 in H; discriminate |].
apply mem_In in Hc.
rewrite (proj2 (add_grade_cases c g s) Hc H0 H4) in H.
injection H as _ <-. simpl. auto.
Qed.

(** What one operation other than a removal does to gpa and grades. *)
Lemma float_apply_op_gpa (op : EntityOp) (s : Student) :
  is_remove op = false ->
  (gpa (apply_op sum op s) = gpa s /\
   grades (apply_op sum op s) = grades s) \/
  (grades (apply_op sum op s) <> [] /\
   gpa (apply_op sum op s)
   = (sum (List.map snd (grades (apply_op sum op s)))
      / of_nat (length (grades (apply_op sum op s))))%float).
Proof.
destruct op as [n | n | c g | kw]; simpl; intros Hr; try discriminate.
- destruct (add_course n s) as [[b s'] |] eqn:E; [| now left].
  apply float_add_course_inv in E. now left.
- destruct (add_grade sum c g s) as [[b s'] |] eqn:E; [| now left].
  apply float_add_grade_ok_inv in E. destruct E as [Eg Em].
  right. split; [| exact Em].
  rewrite Eg. intros H. pose proof (dict_set_truthy c g (grades s)) as T.
  rewrite H in T. discriminate.
- left. pose proof (float_update_info_frame kw s) as F. simpl in F. tauto.
Qed.

End Binary64Entity.

(** C4. The claim fails of the code. A NaN grade is neither at least 0.0
    nor at most 4.0, yet both comparisons of [add_grade] are false of it:
    for every student enrolled in the course, add_grade with NaN raises
    nothing, returns True, stores NaN under the course and assigns
    [sum(values) / len] to gpa. *)
Theorem add_grade_accepts_nan
    (sum : list float -> float) (course_name : string)
    (self : Binary64.Student) :
  In course_name (Binary64.courses self) ->
  (0 <=? nan)%float = false /\ (nan <=? 4)%float = false /\
  exists self',
    Binary64.add_grade sum course_name nan self = Ok (true, self') /\
    PyDict.get course_name (Binary64.grades self') = Some nan /\
    Binary64.courses self' = Binary64.courses self /\
    Binary64.gpa self'
    = (sum (List.map snd (Binary64.grades self'))
       / Binary64.of_nat (length (Binary64.grades self')))%float.
Proof.
intros Hc. split; [reflexivity |]. split; [reflexivity |].
eexists. split.
- apply (proj2 (add_grade_cases sum course_name nan self) Hc);
    reflexivity.
- simpl. split; [apply dict_get_set_same | auto].
Qed.

Lemma add_grade_accepts_nan_witness :
  exists self',
    Binary64.add_grade Binary64.sum_left_to_right "Algorithms" nan
      (Binary64.set_courses ["Algorithms"] (Binary64.alice_student 0))
    = Ok (true, self') /\
    PyDict.get "Algorithms" (Binary64.grades self') = Some nan.
Proof.
destruct (add_grade_accepts_nan Binary64.sum_left_to_right "Algorithms"
            (Binary64.set_courses ["Algorithms"] (Binary64.alice_student 0)))
  as (_ & _ & self' & Ha & Hg & _).
- simpl. left. reflexivity.
- exists self'. split; [exact Ha | exact Hg].
Defined.

(** The NaN grade, run: with the left-to-right sum the gpa becomes NaN,
    and the constructor accepts a NaN gpa as well, so the student reloads
    from its map. *)
Lemma nan_grade_is_stored_and_reloaded :
  let s := Binary64.apply_op Binary64.sum_left_to_right
             (Binary64.AddGrade "Algorithms" nan)
             (Binary64.set_courses ["Algorithms"]
                (Binary64.alice_student 3.5)) in
  Binary64.grades s = [("Algorithms", nan)] /\
  Binary64.gpa s = nan /\
  Binary64.from_dict demo_clock (Binary64.to_dict s) = Ok s.
Proof.
vm_compute. auto.
Qed.

(** C1 (amended). Along every sequence of add_course, add_grade and
    update_info calls on a student built by the constructor with gpa [g],
    gpa is [sum(grades.values()) / len(grades)], the mean of the recorded
    values as binary floating point computes it, whenever grades is not
    empty, and is the supplied [g] whenever grades is empty: a recorded
    grade overwrites the supplied gpa, and without one it stays. *)
Theorem gpa_is_mean_or_supplied
    (sum : list float -> float) now sid fn ln em ph dob addr mj
    (g : float) (s : Binary64.Student) (ops : list Binary64.EntityOp) :
  Binary64.__init__ now sid fn ln em ph dob addr mj g = Ok s ->
  forallb (fun op => negb (Binary64.is_remove op)) ops = true ->
  (Binary64.grades (Binary64.run_ops sum ops s) <> [] ->
   Binary64.gpa (Binary64.run_ops sum ops s)
   = (sum (List.map snd (Binary64.grades (Binary64.run_ops sum ops s)))
      / Binary64.of_nat
          (length (Binary64.grades (Binary64.run_ops sum ops s))))%float) /\
  (Binary64.grades (Binary64.run_ops sum ops s) = [] ->
   Binary64.gpa (Binary64.run_ops sum ops s) = g).
Proof.
intros Hinit Hops.
assert (Hs : (Binary64.grades s <> [] ->
              Binary64.gpa s
              = (sum (List.map snd (Binary64.grades s))
                 / Binary64.of_nat (length (Binary64.grades s)))%float) /\
             (Binary64.grades s = [] -> Binary64.gpa s = g)).
{ apply float_init_inv in Hinit. destruct Hinit as (_ & Hg & _ & Hgr).
  split; [congruence | intros _; exact Hg]. }
clear Hinit. revert s Hs. unfold Binary64.run_ops.
induction ops as [| op ops IH]; intros s Hs; simpl; [exact Hs |].
simpl in Hops. apply andb_true_iff in Hops. destruct Hops as [Hop Hops].
apply IH; [exact Hops |].
apply negb_true_iff in Hop.
destruct (float_apply_op_gpa sum op s Hop) as [[Eg Er] | [Hne Hm]].
- rewrite Eg, Er. exact Hs.
- split; [intros _; exact Hm | intros H; now elim Hne].
Qed.

(** Three courses graded 1.5, 1.5 and 2.97 on a student constructed with
    gpa 3.5: with the left-to-right sum the gpa is 1.9900000000000002. *)
Lemma gpa_is_mean_or_supplied_witness :
  Binary64.gpa
    (Binary64.run_ops Binary64.sum_left_to_right
       [Binary64.AddCourse "Algebra"; Binary64.AddCourse "Biology";
        Binary64.AddCourse "Chemistry"; Binary64.AddGrade "Algebra" 1.5;
        Binary64.AddGrade "Biology" 1.5; Binary64.AddGrade "Chemistry" 2.97]
       (Binary64.alice_student 3.5))
  = 1.9900000000000002%float.
Proof.
rewrite (proj1 (gpa_is_mean_or_supplied Binary64.sum_left_to_right
         demo_clock "STU001" "Alice" "Johnson"
         "alice.johnson@university.edu" "(555) 123-4567" "2001-03-15"
         "123 Campus Drive" "Computer Science" 3.5
         (Binary64.alice_student 3.5)
         [Binary64.AddCourse "Algebra"; Binary64.AddCourse "Biology";
          Binary64.AddCourse "Chemistry"; Binary64.AddGrade "Algebra" 1.5;
          Binary64.AddGrade "Biology" 1.5; Binary64.AddGrade "Chemistry" 2.97]
         eq_refl eq_refl)).
- vm_compute. reflexivity.
- vm_compute. discriminate.
Defined.

(** C1 fails as stated: a student constructed with gpa 3.5 has no grades
    and its gpa is 3.5, not 0.0. *)
Lemma gpa_supplied_without_grades :
  exists s,
    Binary64.__init__ demo_clock "STU001" "Alice" "Johnson"
      "alice.johnson@university.edu" "(555) 123-4567" "2001-03-15"
      "123 Campus Drive" "Computer Science" 3.5 = Ok s /\
    Binary64.grades (Binary64.run_ops Binary64.sum_left_to_right [] s) = [] /\
    Binary64.gpa (Binary64.run_ops Binary64.sum_left_to_right [] s) = 3.5%float /\
    (3.5 =? 0)%float = false.
Proof.
eexists. split; [vm_compute; reflexivity |]. vm_compute. auto.
Qed.

(** [remove_course] never assigns gpa: after the last graded course is
    removed the gpa of the removed grade stays. *)
Lemma remove_course_keeps_gpa (c : string) (s : Binary64.Student) :
  Binary64.gpa (snd (Binary64.remove_course c s)) = Binary64.gpa s.
Proof.
unfold Binary64.remove_course.
destruct (mem c (Binary64.courses s)); simpl; [| reflexivity].
destruct (PyDict.has c (Binary64.grades s)); reflexivity.
Qed.

(** The same, run: grade 3.8 recorded and its course removed leaves no
    grade and gpa 3.8. *)
Lemma removed_grade_stays_in_gpa :
  let s := Binary64.run_ops Binary64.sum_left_to_right
             [Binary64.AddCourse "Algorithms";
              Binary64.AddGrade "Algorithms" 3.8;
              Binary64.RemoveCourse "Algorithms"]
             (Binary64.alice_student 0) in
  Binary64.grades s = [] /\ Binary64.gpa s = 3.8%float.
Proof.
vm_compute. auto.
Qed.

(** ** Serialization round trip *)

Lemma upper_char_idem (c : ascii) : upper_char (upper_char c) = upper_char c.
Proof. destruct c as [[] [] [] [] [] [] [] []]; reflexivity. Qed.

Lemma upper_idem (s : string) : upper (upper s) = upper s.
Proof.
unfold upper. induction s as [| c r IH]; cbn [PyStr.map]; [reflexivity |].
now rewrite upper_char_idem, IH.
Qed.

Lemma validated_id_is_upper (x : string) :
  _validate_student_id x = Ok x -> upper x = x.
Proof.
unfold _validate_student_id. destruct (negb (truthy x)); [discriminate |].
destruct (String.length x <? 3)%nat; [discriminate |].
intros [= E]. rewrite <- E at 1. rewrite upper_idem. exact E.
Qed.

(** A valid entity written by [to_dict] is read back unchanged. *)
Lemma from_dict_to_dict (now : Clock) (e : Student) :
  valid_entity e -> from_dict now (to_dict e) = Ok e.
Proof.
intros [Hid Hfn Hln Hem Hph Hdob Hg].
unfold from_dict, __init__, to_dict. simpl.
rewrite Hid, Hfn, Hln, Hem, Hph, Hdob, Hg. simpl.
destruct e; reflexivity.
Qed.

Lemma alice_valid (g : Q) :
  (0 <= g)%Q -> (g <= 4)%Q -> valid_entity (alice_student g).
Proof.
intros H0 H4. constructor; try (vm_compute; reflexivity).
simpl. unfold _validate_gpa.
apply Qltb_ge in H0, H4. now rewrite H0, H4.
Qed.

(** *** Validators return fixed points *)

Lemma strip_stripped (s : string) : stripped (strip s).
Proof.
split.
- apply rstrip_head_ok, lstrip_head_ok.
- apply rstrip_idem.
Qed.

Lemma stripped_strip (s : string) : stripped s -> strip s = s.
Proof.
intros [Hh Hr]. unfold strip. now rewrite (lstrip_fix s Hh).
Qed.

Lemma rstrip_cons_fix (c : ascii) (r : string) :
  rstrip (String c r) = String c r <->
  (r = EmptyString /\ is_space c = false) \/
  (r <> EmptyString /\ rstrip r = r).
Proof.
simpl. destruct (rstrip r) as [| c1 r1] eqn:E.
- destruct (is_space c) eqn:Hc; split.
  + discriminate.
  + intros [[_ H] | [Hne H]]; [discriminate | congruence].
  + intros [= <-]. now left.
  + intros [[-> _] | [Hne H]]; [reflexivity | congruence].
- split.
  + intros [= <-]. right. split; [discriminate | reflexivity].
  + intros [[-> _] | [_ H]]; [discriminate | congruence].
Qed.

Lemma same_shape_rstrip_fix (s t : string) :
  same_shape s t -> rstrip s = s -> rstrip t = t.
Proof.
induction 1 as [| c c' r r' Hc Hs IH]; [reflexivity |].
rewrite !rstrip_cons_fix. intros [[-> Hsp] | [Hne Hr]].
- inversion Hs; subst. left. split; [reflexivity | congruence].
- right. split; [| now apply IH].
  intros ->. inversion Hs; subst. now apply Hne.
Qed.

Lemma same_shape_stripped (s t : string) :
  same_shape s t -> stripped s -> stripped t.
Proof.
intros Hs [Hh Hr]. split.
- destruct Hs as [| c c' r r' Hc _]; [exact I |]. simpl in *. congruence.
- eapply same_shape_rstrip_fix; eassumption.
Qed.

Lemma same_shape_truthy (s t : string) :
  same_shape s t -> truthy t = truthy s.
Proof. now destruct 1. Qed.

Lemma same_shape_length (s t : string) :
  same_shape s t -> String.length t = String.length s.
Proof. induction 1; simpl; congruence. Qed.

Lemma map_same_shape (f : ascii -> ascii) (s : string) :
  (forall c, is_space (f c) = is_space c) -> same_shape s (PyStr.map f s).
Proof.
intros Hf. induction s as [| c r IH]; simpl; constructor; auto.
Qed.

Lemma upper_char_space (c : ascii) : is_space (upper_char c) = is_space c.
Proof. destruct c as [[] [] [] [] [] [] [] []]; reflexivity. Qed.

Lemma lower_char_space (c : ascii) : is_space (lower_char c) = is_space c.
Proof. destruct c as [[] [] [] [] [] [] [] []]; reflexivity. Qed.

Lemma lower_char_idem (c : ascii) : lower_char (lower_char c) = lower_char c.
Proof. destruct c as [[] [] [] [] [] [] [] []]; reflexivity. Qed.

Lemma lower_idem (s : string) : lower (lower s) = lower s.
Proof.
unfold lower. induction s as [| c r IH]; cbn [PyStr.map]; [reflexivity |].
now rewrite lower_char_idem, IH.
Qed.

(** The cases of [title_from] on one character. *)
Lemma title_char_cases (c : ascii) :
  (is_lower c = true /\ is_upper c = false /\
   is_lower (upper_char c) = false /\ is_upper (upper_char c) = true) \/
  (is_lower c = false /\ is_upper c = true /\
   is_lower (lower_char c) = true) \/
  (is_lower c = false /\ is_upper c = false).
Proof. destruct c as [[] [] [] [] [] [] [] []]; vm_compute; tauto. Qed.

Lemma title_same_shape (b : bool) (s : string) :
  same_shape s (title_from b s).
Proof.
revert b. induction s as [| c r IH]; intros b; simpl; [constructor |].
destruct (is_lower c) eqn:Hl; [| destruct (is_upper c) eqn:Hu];
  constructor; auto; destruct b; auto using upper_char_space, lower_char_space.
Qed.

Lemma title_from_idem (b : bool) (s : string) :
  title_from b (title_from b s) = title_from b s.
Proof.
revert b. induction s as [| c r IH]; intros b; simpl; [reflexivity |].
destruct (title_char_cases c) as [(Hl & Hu & Hl' & Hu') | [(Hl & Hu & Hl') | [Hl Hu]]];
  rewrite Hl; try rewrite Hu; destruct b; simpl;
  rewrite ?Hl, ?Hu, ?Hl', ?Hu', ?IH; reflexivity.
Qed.

Lemma validate_name_fixed (x y f f' : string) :
  _validate_name x f = Ok y -> _validate_name y f' = Ok y.
Proof.
unfold _validate_name. destruct (truthy x); simpl; [| discriminate].
destruct (truthy (strip x)) eqn:Hs; simpl; [| discriminate].
intros [= <-].
pose proof (title_same_shape false (strip x)) as Sh. fold (title (strip x)) in Sh.
pose proof (same_shape_stripped _ _ Sh (strip_stripped x)) as St.
rewrite (stripped_strip _ St), (same_shape_truthy _ _ Sh), Hs. simpl.
unfold title. now rewrite title_from_idem.
Qed.

Lemma validate_id_fixed (x y : string) :
  _validate_student_id x = Ok y ->
  (3 <= String.length y)%nat -> _validate_student_id y = Ok y.
Proof.
unfold _validate_student_id. destruct (truthy x); simpl; [| discriminate].
destruct (String.length x <? 3)%nat; [discriminate |].
intros [= <-] Hlen.
pose proof (map_same_shape upper_char (strip x) upper_char_space) as Sh.
fold (upper (strip x)) in Sh.
pose proof (same_shape_stripped _ _ Sh (strip_stripped x)) as St.
destruct (upper (strip x)) as [| c r] eqn:E; [simpl in Hlen; lia |].
simpl truthy. simpl negb. cbv iota.
destruct (Nat.ltb_spec (String.length (String c r)) 3); [lia |].
rewrite (stripped_strip _ St). rewrite <- E. now rewrite upper_idem.
Qed.

Lemma space_not_digit (c : ascii) : is_space c = true -> is_digit c = false.
Proof. destruct c as [[] [] [] [] [] [] [] []]; vm_compute; congruence. Qed.

Lemma count_digit_lstrip (s : string) :
  count is_digit (lstrip s) = count is_digit s.
Proof.
induction s as [| c r IH]; simpl; [reflexivity |].
destruct (is_space c) eqn:Hc; [| reflexivity].
now rewrite (space_not_digit c Hc), IH.
Qed.

Lemma count_digit_rstrip (s : string) :
  count is_digit (rstrip s) = count is_digit s.
Proof.
induction s as [| c r IH]; simpl; [reflexivity |].
destruct (rstrip r) as [| c1 r1] eqn:E.
- rewrite <- IH. simpl.
  destruct (is_space c) eqn:Hc; simpl; [| lia].
  now rewrite (space_not_digit c Hc).
- rewrite <- IH. reflexivity.
Qed.

Lemma validate_phone_fixed (x y : string) :
  _validate_phone x = Ok y -> _validate_phone y = Ok y.
Proof.
unfold _validate_phone. destruct (truthy x); simpl; [| discriminate].
destruct (Nat.ltb_spec (count is_digit x) 10); [discriminate |].
intros [= <-].
assert (count is_digit (strip x) = count is_digit x) as Hc
  by (unfold strip; now rewrite count_digit_rstrip, count_digit_lstrip).
rewrite Hc. destruct (strip x) as [| c r] eqn:E; [simpl in Hc; lia |].
simpl truthy. simpl negb. cbv iota.
destruct (Nat.ltb_spec (count is_digit x) 10); [lia |].
rewrite <- E. now rewrite strip_idem.
Qed.

Lemma validate_date_fixed (x y : string) :
  _validate_date x = Ok y -> _validate_date y = Ok y.
Proof.
unfold _validate_date. destruct (negb (truthy x)) eqn:T; [discriminate |].
destruct (PyDate.strptime x) eqn:P; [| discriminate].
intros [= <-]. now rewrite T, P.
Qed.

Lemma validate_gpa_fixed (x y : Q) :
  _validate_gpa x = Ok y -> _validate_gpa y = Ok y.
Proof. intros H. pose proof (validate_gpa_ok _ _ H) as ->. exact H. Qed.

Section RegexFacts.
Import Regex.

Lemma dead_deriv (c : ascii) (r : re) :
  dead r = true -> dead (deriv c r) = true /\ nullable r = false.
Proof.
induction r as [| | p | a IHa b IHb | a IHa b IHb | a IHa]; simpl;
  try discriminate; auto.
- intros H. apply orb_true_iff in H. destruct H as [Ha | Hb].
  + destruct (IHa Ha) as [Hd Hn]. rewrite Hn. simpl. now rewrite Hd.
  + destruct (IHb Hb) as [Hd Hn]. rewrite Hn, andb_false_r.
    destruct (nullable a); simpl; rewrite ?Hd, ?Hb, ?orb_true_r; auto.
- intros H. apply andb_true_iff in H. destruct H as [Ha Hb].
  destruct (IHa Ha) as [Hda Hna]. destruct (IHb Hb) as [Hdb Hnb].
  now rewrite Hda, Hdb, Hna, Hnb.
Qed.

Lemma dead_fullmatch (s : string) (r : re) :
  dead r = true -> fullmatch r s = false.
Proof.
revert r. induction s as [| c t IH]; intros r H; simpl.
- apply (dead_deriv "000"%char r H).
- apply IH. apply (dead_deriv c r H).
Qed.

Lemma deriv_rejected (c : ascii) (r : re) :
  any_test c r = false -> dead (deriv c r) = true.
Proof.
induction r as [| | p | a IHa b IHb | a IHa b IHb | a IHa]; simpl; auto.
- now intros ->.
- intros H. apply orb_false_iff in H. destruct H as [Ha Hb].
  destruct (nullable a); simpl; rewrite (IHa Ha); simpl; auto.
- intros H. apply orb_false_iff in H. destruct H as [Ha Hb].
  now rewrite (IHa Ha), (IHb Hb).
- intros H. now rewrite (IHa H).
Qed.

Lemma deriv_tests (c c' : ascii) (r : re) :
  any_test c' (deriv c r) = true -> any_test c' r = true.
Proof.
induction r as [| | p | a IHa b IHb | a IHa b IHb | a IHa]; simpl;
  try discriminate.
- destruct (p c); discriminate.
- destruct (nullable a); simpl; rewrite !orb_true_iff; intuition.
- rewrite !orb_true_iff; intuition.
- rewrite !orb_true_iff; intuition.
Qed.

Lemma all_weaken (p q : ascii -> bool) (s : string) :
  (forall c, p c = true -> q c = true) ->
  PyStr.all p s = true -> PyStr.all q s = true.
Proof.
intros Hpq. induction s as [| c t IH]; simpl; [reflexivity |].
rewrite !andb_true_iff. intuition.
Qed.

(** Every character of a matched string passes some test of the pattern. *)
Lemma fullmatch_chars (s : string) (r : re) :
  fullmatch r s = true -> PyStr.all (fun c => any_test c r) s = true.
Proof.
revert r. induction s as [| c t IH]; intros r H; simpl; [reflexivity |].
simpl in H. apply andb_true_iff. split.
- destruct (any_test c r) eqn:E; [reflexivity |].
  rewrite (dead_fullmatch t _ (deriv_rejected c r E)) in H. discriminate.
- eapply all_weaken; [| apply IH; exact H].
  intros c'. apply deriv_tests.
Qed.

Lemma deriv_respect (f : ascii -> ascii) (c : ascii) (r : re) :
  tests_respect f r -> deriv (f c) r = deriv c r.
Proof.
induction r as [| | p | a IHa b IHb | a IHa b IHb | a IHa]; simpl; auto.
- now intros ->.
- intros [Ha Hb]. now rewrite IHa, IHb.
- intros [Ha Hb]. now rewrite IHa, IHb.
- intros Ha. now rewrite IHa.
Qed.

Lemma respect_deriv (f : ascii -> ascii) (c : ascii) (r : re) :
  tests_respect f r -> tests_respect f (deriv c r).
Proof.
induction r as [| | p | a IHa b IHb | a IHa b IHb | a IHa]; simpl; auto.
- intros _. destruct (p c); exact I.
- intros [Ha Hb]. destruct (nullable a); simpl; auto.
- intros [Ha Hb]. auto.
Qed.

Lemma fullmatch_map (f : ascii -> ascii) (s : string) (r : re) :
  tests_respect f r -> fullmatch r (PyStr.map f s) = fullmatch r s.
Proof.
revert r. induction s as [| c t IH]; intros r H; simpl; [reflexivity |].
rewrite (deriv_respect f c r H). apply IH. now apply respect_deriv.
Qed.

Lemma last_is_chop (c : ascii) (s : string) :
  last_is c s = true -> s = (chop s ++ String c EmptyString)%string.
Proof.
induction s as [| d t IH]; simpl; [discriminate |].
destruct t as [| e u].
- intros H. apply Ascii.eqb_eq in H. now subst.
- intros H. simpl. f_equal. now apply IH.
Qed.

End RegexFacts.

Lemma no_space_rstrip (s : string) : no_space s -> rstrip s = s.
Proof.
unfold no_space. induction s as [| c r IH]; simpl; [reflexivity |].
intros H. apply andb_true_iff in H. destruct H as [Hc Hr].
rewrite (IH Hr). apply negb_true_iff in Hc.
destruct r; [now rewrite Hc | reflexivity].
Qed.

Lemma no_space_stripped (s : string) : no_space s -> stripped s.
Proof.
intros H. split; [| now apply no_space_rstrip].
destruct s as [| c r]; [exact I |]. unfold no_space in H. simpl in *.
apply andb_true_iff in H. now apply negb_true_iff.
Qed.

Lemma no_space_strip_newline (s : string) :
  no_space s -> strip (s ++ String "010"%char EmptyString) = s.
Proof.
intros H. unfold strip.
assert (R : rstrip (s ++ String "010"%char EmptyString) = s).
{ revert H. unfold no_space. induction s as [| c r IH]; simpl; [reflexivity |].
  intros H. apply andb_true_iff in H. destruct H as [Hc Hr].
  rewrite (IH Hr). apply negb_true_iff in Hc.
  destruct r; [now rewrite Hc | reflexivity]. }
destruct s as [| c r]; [reflexivity |].
rewrite lstrip_fix; [exact R |].
unfold no_space in H. simpl in *. apply andb_true_iff in H.
now apply negb_true_iff.
Qed.

Lemma email_tests_reject_space (c : ascii) :
  any_test c email_pattern = true -> negb (is_space c) = true.
Proof. destruct c as [[] [] [] [] [] [] [] []]; vm_compute; congruence. Qed.

Lemma email_tests_ignore_case :
  tests_respect lower_char email_pattern.
Proof.
simpl. repeat split;
  intros c; destruct c as [[] [] [] [] [] [] [] []]; reflexivity.
Qed.

Lemma email_match_nonempty : Regex.fullmatch email_pattern EmptyString = false.
Proof. reflexivity. Qed.

(** What the pattern accepts: a string without whitespace that it matches
    in full, to which [strip] reduces the accepted text. *)
Lemma email_match_inv (x : string) :
  Regex.match_anchored email_pattern x = true ->
  exists z, Regex.fullmatch email_pattern z = true /\ no_space z /\
            strip x = z.
Proof.
unfold Regex.match_anchored. intros H. apply orb_true_iff in H.
assert (NS : forall z, Regex.fullmatch email_pattern z = true -> no_space z).
{ intros z Hz. unfold no_space. eapply all_weaken; [| apply fullmatch_chars, Hz].
  apply email_tests_reject_space. }
destruct H as [H | H].
- exists x. repeat split; auto. apply stripped_strip, no_space_stripped; auto.
- apply andb_true_iff in H. destruct H as [Hl Hm].
  exists (Regex.chop x). repeat split; auto.
  rewrite (last_is_chop _ _ Hl) at 1. apply no_space_strip_newline; auto.
Qed.

Lemma validate_email_fixed (x y : string) :
  _validate_email x = Ok y -> _validate_email y = Ok y.
Proof.
unfold _validate_email. destruct (truthy x); simpl; [| discriminate].
destruct (Regex.match_anchored email_pattern x) eqn:M; simpl; [| discriminate].
intros [= <-]. destruct (email_match_inv x M) as (z & Hz & Hns & ->).
pose proof (map_same_shape lower_char z lower_char_space) as Sh.
fold (lower z) in Sh.
assert (Hm : Regex.fullmatch email_pattern (lower z) = true)
  by (unfold lower; now rewrite (fullmatch_map _ _ _ email_tests_ignore_case)).
assert (Ht : truthy (lower z) = true).
{ rewrite (same_shape_truthy _ _ Sh). destruct z; [| reflexivity].
  rewrite email_match_nonempty in Hz. discriminate. }
rewrite Ht. unfold Regex.match_anchored. rewrite Hm. simpl.
rewrite (stripped_strip (lower z)), lower_idem; [reflexivity |].
eapply same_shape_stripped; [exact Sh | now apply no_space_stripped].
Qed.

(** A constructed student is a valid entity as soon as its stored id has
    three characters. *)
Lemma init_valid now sid fn ln em ph dob addr mj g s :
  __init__ now sid fn ln em ph dob addr mj g = Ok s ->
  (3 <= String.length (student_id s))%nat -> valid_entity s.
Proof.
intros H Hlen. apply init_inv in H.
destruct H as (Hid & Hfn & Hln & Hem & Hph & Hdob & Hg & _).
constructor.
- now apply (validate_id_fixed sid).
- now apply (validate_name_fixed fn _ "First name").
- now apply (validate_name_fixed ln _ "Last name").
- now apply (validate_email_fixed em).
- now apply (validate_phone_fixed ph).
- now apply (validate_date_fixed dob).
- now apply (validate_gpa_fixed g).
Qed.

(** The round trip holds for every constructed student whose stored id has
    three characters: writing it with [to_dict] and reading it with
    [from_dict] gives the same student back. *)
Lemma constructed_round_trip now now' sid fn ln em ph dob addr mj g s :
  __init__ now sid fn ln em ph dob addr mj g = Ok s ->
  (3 <= String.length (student_id s))%nat ->
  from_dict now' (to_dict s) = Ok s.
Proof.
intros H Hlen. apply from_dict_to_dict. eapply init_valid; eassumption.
Qed.

(** *** Validity along the operations *)

Lemma validate_gpa_range (g : Q) : _validate_gpa g = Ok g <-> in_range g.
Proof.
unfold _validate_gpa, in_range. rewrite <- !Qltb_ge.
destruct (Qltb g 0), (Qltb 4 g); simpl; intuition congruence.
Qed.

Lemma inject_succ (n : nat) :
  (inject_Z (Z.of_nat (S n)) == inject_Z (Z.of_nat n) + 1)%Q.
Proof.
rewrite Nat2Z.inj_succ. unfold Z.succ. rewrite inject_Z_plus. reflexivity.
Qed.

Lemma sum_from_range (vs : list Q) (a : Q) :
  Forall in_range vs ->
  (a <= fold_left Qplus vs a)%Q /\
  (fold_left Qplus vs a <= a + 4 * inject_Z (Z.of_nat (length vs)))%Q.
Proof.
intros H. revert a. induction H as [| v r [H0 H4] _ IH]; intros a.
- simpl. change (inject_Z 0) with 0%Q. split; lra.
- cbn [fold_left length]. destruct (IH (a + v)%Q) as [L U].
  rewrite inject_succ. split; lra.
Qed.

Lemma mean_in_range (d : PyDict.dict Q) :
  d <> [] -> Forall in_range (PyDict.values d) -> in_range (mean d).
Proof.
intros Hne H. unfold mean, sum.
destruct (sum_from_range (PyDict.values d) 0%Q H) as [L U].
unfold PyDict.values in *. rewrite length_map in U.
assert (Hpos : (0 < inject_Z (Z.of_nat (length d)))%Q).
{ change 0%Q with (inject_Z 0). rewrite <- Zlt_Qlt.
  destruct d; [now elim Hne | simpl length; lia]. }
split.
- apply Qle_shift_div_l; [exact Hpos | lra].
- apply Qle_shift_div_r; [exact Hpos | lra].
Qed.

Lemma values_set_range (k : string) (v : Q) (d : PyDict.dict Q) :
  in_range v -> Forall in_range (PyDict.values d) ->
  Forall in_range (PyDict.values (PyDict.set k v d)).
Proof.
intros Hv. unfold PyDict.values.
induction d as [| [k' v'] r IH]; simpl; intros H.
- constructor; [exact Hv | constructor].
- inversion H; subst. destruct (String.eqb k k'); simpl; constructor; auto.
Qed.

Lemma values_del_range (k : string) (d : PyDict.dict Q) :
  Forall in_range (PyDict.values d) ->
  Forall in_range (PyDict.values (PyDict.del k d)).
Proof.
unfold PyDict.values, PyDict.del.
induction d as [| [k' v'] r IH]; simpl; intros H; [constructor |].
inversion H; subst. destruct (String.eqb k k'); simpl; auto.
Qed.

Lemma setattr_well_formed (field v : string) (s : Student) :
  well_formed s ->
  (field = "first_name" -> _validate_name v "First name" = Ok v) ->
  (field = "last_name" -> _validate_name v "Last name" = Ok v) ->
  (field = "email" -> _validate_email v = Ok v) ->
  (field = "phone" -> _validate_phone v = Ok v) ->
  well_formed (setattr field v s).
Proof.
intros [Hid Hfn Hln Hem Hph Hdob Hg Hgr] F L E P. unfold setattr.
repeat match goal with
       | |- context [String.eqb field ?k] =>
           destruct (String.eqb_spec field k)
       end; constructor; simpl; auto.
Qed.

Lemma update_info_well_formed (kwargs : list (string * string))
    (s : Student) :
  well_formed s -> well_formed (fst (update_info kwargs s)).
Proof.
revert s. induction kwargs as [| [field value] rest IH]; intros s Hs;
  cbn [update_info]; [exact Hs |].
destruct (mem field updatable_fields); [| now apply IH].
destruct (mem field ["first_name"; "last_name"]) eqn:Hname.
- destruct (_validate_name value _) as [v |] eqn:V; [| exact Hs].
  apply IH, setattr_well_formed; auto; intros ->;
    try (eapply validate_name_fixed; exact V); discriminate.
- destruct (mem field ["email"; "phone"]) eqn:Hcontact.
  + destruct (String.eqb_spec field "email") as [-> | Hne].
    * destruct (_validate_email value) as [v |] eqn:V; [| exact Hs].
      apply IH, setattr_well_formed; auto; intros; try discriminate.
      eapply validate_email_fixed; exact V.
    * destruct (_validate_phone value) as [v |] eqn:V; [| exact Hs].
      apply IH, setattr_well_formed; auto; intros ->;
        try discriminate; try congruence.
      eapply validate_phone_fixed; exact V.
  + apply IH, setattr_well_formed; auto; intros ->; discriminate.
Qed.

Lemma init_well_formed now sid fn ln em ph dob addr mj g s :
  __init__ now sid fn ln em ph dob addr mj g = Ok s -> well_formed s.
Proof.
intros H. apply init_inv in H.
destruct H as (Hid & Hfn & Hln & Hem & Hph & Hdob & Hg & _ & _ & _ & _ & Hgr).
constructor.
- now exists sid.
- now apply (validate_name_fixed fn _ "First name").
- now apply (validate_name_fixed ln _ "Last name").
- now apply (validate_email_fixed em).
- now apply (validate_phone_fixed ph).
- now apply (validate_date_fixed dob).
- apply validate_gpa_range. now apply (validate_gpa_fixed g).
- rewrite Hgr. constructor.
Qed.

Lemma apply_op_well_formed (op : EntityOp) (s : Student) :
  well_formed s -> well_formed (apply_op op s).
Proof.
intros Hs. destruct op as [n | n | c g | kw]; simpl.
- unfold add_course. destruct (negb (truthy n)); [exact Hs |].
  destruct (negb (mem (strip n) (courses s))); [| exact Hs].
  destruct Hs. constructor; auto.
- unfold remove_course. destruct (mem n (courses s)); [| exact Hs]. simpl.
  destruct Hs as [Hid Hfn Hln Hem Hph Hdob Hg Hgr].
  destruct (PyDict.has n (grades s)); constructor; simpl; auto.
  now apply values_del_range.
- destruct (add_grade c g s) as [[b s'] |] eqn:E; [| exact Hs].
  apply add_grade_ok_inv in E. destruct E as (_ & H0 & H4 & _ & ->).
  destruct Hs as [Hid Hfn Hln Hem Hph Hdob Hg Hgr].
  assert (Forall in_range (PyDict.values (PyDict.set c g (grades s)))) as Hv
    by (apply values_set_range; [split |]; assumption).
  constructor; simpl; auto.
  apply mean_in_range; [| exact Hv].
  intros H. pose proof (dict_set_truthy c g (grades s)) as T.
  rewrite H in T. discriminate.
- now apply update_info_well_formed.
Qed.

Lemma reachable_well_formed (s : Student) : Reachable s -> well_formed s.
Proof.
induction 1 as [now sid fn ln em ph dob addr mj g s H
               | op s R IH | now s s' R IH H].
- eapply init_well_formed; exact H.
- now apply apply_op_well_formed.
- apply from_dict_inv in H. destruct H as (s0 & H0 & ->).
  apply init_well_formed in H0. simpl in H0.
  destruct H0 as [Hid Hfn Hln Hem Hph Hdob Hg _].
  constructor; simpl; auto. apply (wf_grades s IH).
Qed.

(** Every student the program builds is a valid entity as soon as its
    stored id has three characters. *)
Lemma reachable_valid (s : Student) :
  Reachable s -> (3 <= String.length (student_id s))%nat -> valid_entity s.
Proof.
intros R Hlen. destruct (reachable_well_formed s R)
  as [[raw Hid] Hfn Hln Hem Hph Hdob Hg _].
constructor; auto.
- now apply (validate_id_fixed raw).
- now apply validate_gpa_range.
Qed.

(** C7: evaluation at the failing input. The constructor accepts the id
    made of two spaces and a letter (three characters before stripping)
    and stores the one-letter id; [from_dict] on the map that [to_dict]
    gives for that student raises, so the round trip yields no entity. *)
Theorem short_id_breaks_round_trip :
  exists s,
    __init__ demo_clock "  a" "Alice" "Johnson"
      "alice.johnson@university.edu" "(555) 123-4567" "2001-03-15"
      "123 Campus Drive" "Computer Science" 0%Q = Ok s /\
    student_id s = "A" /\
    from_dict demo_clock (to_dict s)
    = Raise (ValueError "Student ID must be at least 3 characters long").
Proof.
eexists. split; [vm_compute; reflexivity |]. split; vm_compute; reflexivity.
Qed.

(** ** The storage engine *)

Section Storage.
Import StudentDatabase.

Lemma find_app_none {A : Type} (p : A -> bool) (l1 l2 : list A) :
  existsb p l1 = false -> find p (l1 ++ l2) = find p l2.
Proof.
induction l1 as [| x r IH]; simpl; [reflexivity |].
destruct (p x); simpl; [discriminate | exact IH].
Qed.

Lemma save_data_no_fault now fl data disk :
  save_fault fl = NoFault ->
  fst (_save_data now fl data disk) = true /\
  db_file (snd (_save_data now fl data disk)) = Some (Json data).
Proof. unfold _save_data. intros ->. simpl. auto. Qed.

Lemma create_backup_db_file now fl disk :
  db_file (_create_backup now fl disk) = db_file disk.
Proof.
unfold _create_backup. destruct (db_file disk) eqn:E; [| exact E].
destruct (backup_fault fl); simpl; auto.
Qed.

End Storage.

(** C3. When a valid entity's id is not in the collection and the file
    write goes through, add returns True and get with the id in any
    letter case returns the entity as it was added; when the id is already
    in the collection, add returns False and the file and the backups are
    left as they were. *)
Theorem add_then_get_returns_entity
    (now now' : Clock) (fl : StudentDatabase.Faults) (e : Student)
    (disk : StudentDatabase.Disk) :
  (valid_entity e ->
   existsb (StudentDatabase.id_is (student_id e))
     (StudentDatabase._load_data disk) = false ->
   StudentDatabase.save_fault fl = StudentDatabase.NoFault ->
   fst (StudentDatabase.add_student now fl e disk) = true /\
   forall id', upper id' = upper (student_id e) ->
     StudentDatabase.get_student now' id'
       (snd (StudentDatabase.add_student now fl e disk)) = Ok (Some e)) /\
  (existsb (StudentDatabase.id_is (student_id e))
     (StudentDatabase._load_data disk) = true ->
   StudentDatabase.add_student now fl e disk = (false, disk)).
Proof.
split.
- intros Hv Hnew Hfl. unfold StudentDatabase.add_student. rewrite Hnew.
  destruct (save_data_no_fault now fl
              (StudentDatabase._load_data disk ++ [to_dict e]) disk Hfl)
    as [Hok Hdb].
  split; [exact Hok |]. intros id' Hid.
  unfold StudentDatabase.get_student, StudentDatabase._load_data at 1.
  rewrite Hdb. rewrite Hid, (validated_id_is_upper _ (valid_id e Hv)).
  rewrite find_app_none by exact Hnew. simpl.
  unfold StudentDatabase.id_is at 1. simpl. rewrite String.eqb_refl.
  rewrite (from_dict_to_dict now' e Hv). reflexivity.
- intros Hdup. unfold StudentDatabase.add_student. now rewrite Hdup.
Qed.

Lemma add_then_get_returns_entity_witness :
  fst (StudentDatabase.add_student demo_clock StudentDatabase.no_faults
         (alice_student (19 # 5))
         (StudentDatabase.mkDisk (Some (StudentDatabase.Json [])) []))
  = true /\
  StudentDatabase.get_student demo_clock "stu001"
    (snd (StudentDatabase.add_student demo_clock StudentDatabase.no_faults
            (alice_student (19 # 5))
            (StudentDatabase.mkDisk (Some (StudentDatabase.Json [])) [])))
  = Ok (Some (alice_student (19 # 5))).
Proof.
destruct (proj1 (add_then_get_returns_entity demo_clock demo_clock
                   StudentDatabase.no_faults (alice_student (19 # 5))
                   (StudentDatabase.mkDisk
                      (Some (StudentDatabase.Json [])) []))) as [Hadd Hget].
- apply alice_valid; unfold Qle; simpl; lia.
- reflexivity.
- reflexivity.
- split; [exact Hadd | apply Hget; reflexivity].
Defined.

Section WriteOps.
Import StudentDatabase.

(** Every write operation is a refusal that touches nothing or one call
    of [_save_data] on the new collection. *)
Lemma run_write_cases now fl op disk :
  match new_collection op disk with
  | None => run_write now fl op disk = (false, disk)
  | Some data => run_write now fl op disk = _save_data now fl data disk
  end.
Proof.
destruct op as [e | e | sid]; simpl.
- unfold add_student. now destruct (existsb _ _).
- unfold update_student. now destruct (replace_first _ _ _).
- unfold delete_student. now destruct (delete_first _ _).
Qed.

End WriteOps.

(** C9 (amended). Every write operation (add, update, delete) that is not
    refused first copies the current file contents verbatim into the
    timestamped backup file, and a failed backup does not change the
    outcome of the write. A failed write is reported to the caller as
    False. The file is rewritten in place: it keeps its prior contents
    when it could not be opened for writing, and holds whatever the failed
    write left when the failure comes after opening, the prior contents
    then surviving in the backup if the backup succeeded. *)
Theorem write_backs_up_then_rewrites_in_place
    (now : Clock) (fl : StudentDatabase.Faults) (op : WriteOp)
    (disk : StudentDatabase.Disk) (data : list StudentDict) :
  new_collection op disk = Some data ->
  let after := run_write now fl op disk in
  (forall content,
     StudentDatabase.db_file disk = Some content ->
     StudentDatabase.backup_fault fl = StudentDatabase.NoFault ->
     PyDict.get (StudentDatabase.backup_file now)
       (StudentDatabase.backups (snd after)) = Some content) /\
  (fst after
   = fst (run_write now
            (StudentDatabase.mkFaults StudentDatabase.NoFault
               (StudentDatabase.save_fault fl)) op disk) /\
   StudentDatabase.db_file (snd after)
   = StudentDatabase.db_file
       (snd (run_write now
               (StudentDatabase.mkFaults StudentDatabase.NoFault
                  (StudentDatabase.save_fault fl)) op disk))) /\
  (StudentDatabase.save_fault fl = StudentDatabase.NoFault ->
   fst after = true /\
   StudentDatabase.db_file (snd after) = Some (StudentDatabase.Json data)) /\
  (StudentDatabase.save_fault fl <> StudentDatabase.NoFault ->
   fst after = false) /\
  (StudentDatabase.save_fault fl = StudentDatabase.OpenFails ->
   StudentDatabase.db_file (snd after) = StudentDatabase.db_file disk) /\
  (forall remains,
     StudentDatabase.save_fault fl = StudentDatabase.WriteFails remains ->
     StudentDatabase.db_file (snd after) = Some remains).
Proof.
intros Hnew after.
pose proof (run_write_cases now fl op disk) as E.
pose proof (run_write_cases now
              (StudentDatabase.mkFaults StudentDatabase.NoFault
                 (StudentDatabase.save_fault fl)) op disk) as E'.
rewrite Hnew in E, E'. subst after. rewrite E, E'. clear E E' Hnew.
unfold StudentDatabase._save_data, StudentDatabase._create_backup.
repeat apply conj.
- intros content Hc Hb. rewrite Hc, Hb.
  destruct (StudentDatabase.save_fault fl); simpl; apply dict_get_set_same.
- destruct (StudentDatabase.save_fault fl); reflexivity.
- destruct disk as [[content |] bk]; simpl;
    destruct (StudentDatabase.backup_fault fl);
    destruct (StudentDatabase.save_fault fl); reflexivity.
- intros ->. split; reflexivity.
- destruct (StudentDatabase.save_fault fl); [congruence | |]; reflexivity.
- intros ->. simpl. destruct (StudentDatabase.db_file disk) eqn:D;
    [destruct (StudentDatabase.backup_fault fl) |]; simpl; congruence.
- intros remains ->. reflexivity.
Qed.

Lemma write_backs_up_then_rewrites_in_place_witness :
  PyDict.get (StudentDatabase.backup_file demo_clock)
    (StudentDatabase.backups
       (snd (run_write demo_clock
               (StudentDatabase.mkFaults StudentDatabase.NoFault
                  (StudentDatabase.WriteFails (StudentDatabase.Malformed "[")))
               (Delete "stu001")
               (StudentDatabase.mkDisk
                  (Some (StudentDatabase.Json
                           [to_dict (alice_student (19 # 5))])) []))))
  = Some (StudentDatabase.Json [to_dict (alice_student (19 # 5))]).
Proof.
apply (proj1 (write_backs_up_then_rewrites_in_place demo_clock
         (StudentDatabase.mkFaults StudentDatabase.NoFault
            (StudentDatabase.WriteFails (StudentDatabase.Malformed "[")))
         (Delete "stu001")
         (StudentDatabase.mkDisk
            (Some (StudentDatabase.Json [to_dict (alice_student (19 # 5))]))
            [])
         [] eq_refl)); reflexivity.
Defined.

(** C9 fails as stated: a delete whose write fails after the file was
    opened reports False and leaves the file with what the failed write
    left, not with the collection it held before. *)
Lemma failed_write_loses_collection :
  let disk :=
    StudentDatabase.mkDisk
      (Some (StudentDatabase.Json [to_dict (alice_student (19 # 5))])) [] in
  let after :=
    StudentDatabase.delete_student demo_clock
      (StudentDatabase.mkFaults StudentDatabase.NoFault
         (StudentDatabase.WriteFails (StudentDatabase.Malformed "[")))
      "stu001" disk in
  fst after = false /\
  StudentDatabase.db_file (snd after)
  = Some (StudentDatabase.Malformed "[") /\
  StudentDatabase.db_file (snd after) <> StudentDatabase.db_file disk /\
  StudentDatabase._load_data (snd after) = [].
Proof.
simpl. repeat split; try reflexivity. discriminate.
Qed.

(** ** update_info and the update use-case *)

Lemma setattr_other (field f v : string) (s : Student) :
  f <> field -> updatable_value f (setattr field v s) = updatable_value f s.
Proof.
intros Hne. unfold setattr.
repeat match goal with
       | |- context [String.eqb field ?k] =>
           destruct (String.eqb_spec field k); [subst field |]
       end;
  try reflexivity;
  unfold updatable_value;
  repeat match goal with
         | |- context [String.eqb f ?k] =>
             destruct (String.eqb_spec f k); [subst f |]
         end;
  try reflexivity; try congruence.
Qed.

Lemma update_info_untouched (f : string) (kwargs : list (string * string))
    (s : Student) :
  ~ In f (List.map fst kwargs) ->
  updatable_value f (fst (update_info kwargs s)) = updatable_value f s.
Proof.
revert s. induction kwargs as [| [field value] rest IH]; intros s Hf;
  cbn [update_info]; [reflexivity |].
simpl in Hf.
assert (Hstep : forall v,
  updatable_value f (fst (update_info rest (setattr field v s)))
  = updatable_value f s).
{ intros v. rewrite IH by tauto. apply setattr_other. intros E. apply Hf.
  left. now symmetry. }
destruct (mem field updatable_fields); [| apply IH; tauto].
destruct (mem field ["first_name"; "last_name"]).
- destruct (_validate_name value _); [apply Hstep | reflexivity].
- destruct (mem field ["email"; "phone"]); [| apply Hstep].
  match goal with
  | |- context [match ?x with Ok _ => _ | Raise _ => _ end] => destruct x
  end; [apply Hstep | reflexivity].
Qed.

Lemma update_info_skips (k v : string) (kw1 kw2 : list (string * string))
    (s : Student) :
  mem k updatable_fields = false ->
  update_info (kw1 ++ (k, v) :: kw2) s = update_info (kw1 ++ kw2) s.
Proof.
intros Hk. revert s. induction kw1 as [| [field value] rest IH]; intros s.
- cbn [app update_info]. now rewrite Hk.
- cbn [app update_info].
  destruct (mem field updatable_fields); [| apply IH].
  destruct (mem field ["first_name"; "last_name"]).
  + destruct (_validate_name value _); [apply IH | reflexivity].
  + destruct (mem field ["email"; "phone"]); [| apply IH].
    match goal with
    | |- context [match ?x with Ok _ => _ | Raise _ => _ end] => destruct x
    end; [apply IH | reflexivity].
Qed.

Section ManagerUpdate.
Import StudentDatabase.

Lemma replace_first_ids (sid : string) (new : StudentDict)
    (data data' : list StudentDict) :
  d_student_id new = sid ->
  replace_first sid new data = Some data' ->
  List.map d_student_id data' = List.map d_student_id data.
Proof.
intros Hnew. revert data'.
induction data as [| d rest IH]; intros data'; simpl; [discriminate |].
unfold id_is at 1. destruct (String.eqb_spec (d_student_id d) sid) as [E | _].
- intros [= <-]. simpl. congruence.
- destruct (replace_first sid new rest) as [r |]; simpl; [| discriminate].
  intros [= <-]. simpl. f_equal. now apply IH.
Qed.

Lemma stored_ids_db_file (d1 d2 : Disk) :
  db_file d1 = db_file d2 -> stored_ids d1 = stored_ids d2.
Proof. unfold stored_ids, _load_data. now intros ->. Qed.

Lemma db_update_student_ids now fl (student : Student) (disk : Disk) :
  stored_ids (snd (update_student now fl student disk)) = stored_ids disk \/
  exists remains,
    save_fault fl = WriteFails remains /\
    db_file (snd (update_student now fl student disk)) = Some remains.
Proof.
unfold update_student.
destruct (replace_first _ _ _) as [data' |] eqn:R; [| now left].
unfold _save_data. destruct (save_fault fl) as [| | remains].
- left. unfold stored_ids, _load_data at 1. simpl.
  eapply replace_first_ids; [| exact R]. reflexivity.
- left. apply stored_ids_db_file. simpl. apply create_backup_db_file.
- right. exists remains. auto.
Qed.

Lemma manager_update_ids now fl sid (update_data : list (string * string))
    (disk : Disk) :
  stored_ids (snd (StudentManager.update_student now fl sid update_data disk))
  = stored_ids disk \/
  exists remains,
    save_fault fl = WriteFails remains /\
    db_file (snd (StudentManager.update_student now fl sid update_data disk))
    = Some remains.
Proof.
unfold StudentManager.update_student.
destruct (get_student now sid disk) as [[student |] | e];
  [| now left | destruct e; now left].
destruct (update_info update_data student) as [student' [u | e]];
  [| destruct e; now left].
pose proof (db_update_student_ids now fl student' disk) as H.
destruct (update_student now fl student' disk) as [saved disk'].
simpl in H. destruct saved; exact H.
Qed.

End ManagerUpdate.

(** C8. [update_info] leaves student_id, date_of_birth, gpa,
    enrollment_date, courses and grades as they were, leaves every
    updatable field that is not among the keys as it was, and skips keys
    that are not updatable fields; first_name and last_name are assigned
    what the name validator returns, email and phone what their
    validators return, address and major the stripped text as given.
    The Manager's update never changes a stored id: afterwards the file
    lists the same ids in the same order, unless the write failed after
    opening and the file holds what that write left. *)
Theorem update_info_touches_only_named_fields :
  (forall kwargs s,
     let s' := fst (update_info kwargs s) in
     student_id s' = student_id s /\ date_of_birth s' = date_of_birth s /\
     gpa s' = gpa s /\ enrollment_date s' = enrollment_date s /\
     courses s' = courses s /\ grades s' = grades s) /\
  (forall f kwargs s,
     ~ In f (List.map fst kwargs) ->
     updatable_value f (fst (update_info kwargs s)) = updatable_value f s) /\
  (forall k v kw1 kw2 s,
     ~ In k updatable_fields ->
     update_info (kw1 ++ (k, v) :: kw2) s = update_info (kw1 ++ kw2) s) /\
  (forall v s,
     update_info [("first_name", v)] s
     = match _validate_name v "First Name" with
       | Ok v' => (set_first_name v' s, Ok tt)
       | Raise e => (s, Raise e)
       end /\
     update_info [("last_name", v)] s
     = match _validate_name v "Last Name" with
       | Ok v' => (set_last_name v' s, Ok tt)
       | Raise e => (s, Raise e)
       end /\
     update_info [("email", v)] s
     = match _validate_email v with
       | Ok v' => (set_email v' s, Ok tt)
       | Raise e => (s, Raise e)
       end /\
     update_info [("phone", v)] s
     = match _validate_phone v with
       | Ok v' => (set_phone v' s, Ok tt)
       | Raise e => (s, Raise e)
       end /\
     update_info [("address", v)] s = (set_address (strip v) s, Ok tt) /\
     update_info [("major", v)] s = (set_major (strip v) s, Ok tt)) /\
  (forall now fl sid update_data disk,
     let disk' :=
       snd (StudentManager.update_student now fl sid update_data disk) in
     stored_ids disk' = stored_ids disk \/
     exists remains,
       StudentDatabase.save_fault fl = StudentDatabase.WriteFails remains /\
       StudentDatabase.db_file disk' = Some remains).
Proof.
repeat apply conj; try (intros v s;
  cbn [update_info]; simpl;
  match goal with
  | |- context [match ?x with Ok _ => _ | Raise _ => _ end] => now destruct x
  | |- _ => reflexivity
  end).
- exact update_info_frame.
- exact update_info_untouched.
- intros k v kw1 kw2 s Hk. apply update_info_skips. now apply mem_not_In.
- exact manager_update_ids.
Qed.

Lemma update_info_touches_only_named_fields_witness :
  updatable_value "email"
    (fst (update_info [("major", " Physics "); ("nickname", "Al")]
            (alice_student 0)))
  = updatable_value "email" (alice_student 0) /\
  update_info ([("major", "Physics")] ++ ("nickname", "Al") :: [])
    (alice_student 0)
  = update_info ([("major", "Physics")] ++ []) (alice_student 0).
Proof.
split.
- apply (proj1 (proj2 update_info_touches_only_named_fields)).
  simpl. intros [H | [H | []]]; discriminate.
- apply (proj1 (proj2 (proj2 update_info_touches_only_named_fields))).
  simpl. intros H. repeat destruct H as [H | H]; try discriminate. exact H.
Defined.

(** ** Search *)

Section Search.
Import StudentDatabase.
Variable py : Builtins.
Variable now : Clock.




Lemma validate_date_parses (x y : string) :
  _validate_date x = Ok y -> exists d, PyDate.strptime y = Some d.
Proof.
unfold _validate_date. destruct (negb (truthy x)); [discriminate |].
destruct (PyDate.strptime x) as [d |] eqn:E; [| discriminate].
intros [= <-]. now exists d.
Qed.

Lemma from_dict_dob (clk : Clock) (data : StudentDict) (s : Student) :
  from_dict clk data = Ok s -> dob_parses s.
Proof.
intros H. apply from_dict_inv in H. destruct H as (s0 & H & ->).
apply init_inv in H. destruct H as (_&_&_&_&_&Hd&_).
unfold dob_parses. simpl. eapply validate_date_parses. exact Hd.
Qed.

Lemma load_students_dob (clk : Clock) (data : list StudentDict) :
  Forall dob_parses (load_students clk data).
Proof.
induction data as [| d rest IH]; simpl; [constructor |].
destruct (from_dict clk d) as [s |] eqn:E; [| exact IH].
constructor; [eapply from_dict_dob; exact E | exact IH].
Qed.

Lemma get_age_returns (clk : Clock) (s : Student) :
  dob_parses s -> exists a, get_age clk s = Ok a.
Proof.
intros [d Hd]. unfold get_age. rewrite Hd.
destruct (_ || _); eauto.
Qed.

Lemma criterion_returns (s : Student) (kv : string * pyval) :
  dob_parses s -> well_typed kv = true ->
  exists b, criterion_holds py now s (fst kv) (snd kv) = Ok b.
Proof.
intros Hd Hwt. destruct kv as [k v]. simpl.
destruct (get_age_returns now s Hd) as [a Ha].
unfold well_typed in Hwt. simpl in Hwt. unfold criterion_holds.
repeat match goal with
       | |- context [String.eqb k ?n] =>
           destruct (String.eqb_spec k n); [subst k |]
       end;
  try (rewrite Ha);
  try (destruct v; simpl in *; try discriminate; eauto; fail).
destruct (getattr py k s) as [[] |]; destruct v; eauto.
Qed.

Lemma record_matches_returns (criteria : list (string * pyval))
    (s : Student) :
  dob_parses s -> forallb well_typed criteria = true ->
  record_matches py now criteria s = Ok (forallb (satisfied py now s) criteria).
Proof.
intros Hd. induction criteria as [| kv rest IH]; simpl; [reflexivity |].
intros Hwt. apply andb_true_iff in Hwt. destruct Hwt as [Hkv Hrest].
destruct kv as [k v]. unfold satisfied at 1. simpl.
destruct (criterion_returns s (k, v) Hd Hkv) as [b Hb]. simpl in Hb.
rewrite Hb. simpl. destruct b; [now apply IH | reflexivity].
Qed.

Lemma search_loop_filters (criteria : list (string * pyval))
    (students : list Student) :
  Forall dob_parses students -> forallb well_typed criteria = true ->
  search_loop py now criteria students
  = Ok (filter (fun s => forallb (satisfied py now s) criteria) students).
Proof.
intros Hd Hwt. induction Hd as [| s rest Hs Hrest IH]; simpl; [reflexivity |].
rewrite (record_matches_returns criteria s Hs Hwt). simpl.
rewrite IH. simpl. reflexivity.
Qed.


End Search.



(** ** Statistics *)

Section Statistics.
Import Binary64.

Lemma float_from_dict_dob (now : Clock) (data : StudentDict) (s : Student) :
  from_dict now data = Ok s -> dob_parses s.
Proof.
unfold from_dict. destruct (__init__ _ _ _ _ _ _ _ _ _ _) as [s0 |] eqn:I;
  simpl; [| discriminate].
intros [= <-]. apply float_init_inv in I. destruct I as (Hd & _).
unfold dob_parses. simpl. eapply validate_date_parses. exact Hd.
Qed.

Lemma float_load_students_dob (now : Clock) (data : list StudentDict) :
  Forall dob_parses (load_students now data).
Proof.
induction data as [| d rest IH]; simpl; [constructor |].
destruct (from_dict now d) as [s |] eqn:E; [| exact IH].
constructor; [eapply float_from_dict_dob; exact E | exact IH].
Qed.

Lemma float_get_age_returns (now : Clock) (s : Student) :
  dob_parses s -> exists a, get_age now s = Ok a.
Proof.
intros [d Hd]. unfold get_age. rewrite Hd.
destruct (_ || _); eauto.
Qed.

Lemma bump_get (k m : string) (d : PyDict.dict nat) :
  PyDict.get m (bump k d)
  = if String.eqb m k then Some (get_default (PyDict.get k d) 0 + 1)%nat
    else PyDict.get m d.
Proof.
unfold bump. destruct (String.eqb_spec m k) as [-> | Hne].
- apply dict_get_set_same.
- now apply dict_get_set_other.
Qed.

Lemma count_majors_from (students : list Student) (acc : PyDict.dict nat)
    (m : string) :
  PyDict.get m
    (fold_left (fun majors student => bump (major_label student) majors)
       students acc)
  = match major_count m students with
    | O => PyDict.get m acc
    | S n => Some (get_default (PyDict.get m acc) 0 + S n)%nat
    end.
Proof.
revert acc. unfold major_count.
induction students as [| s rest IH]; intros acc; simpl; [reflexivity |].
rewrite IH, bump_get. rewrite (String.eqb_sym m).
destruct (String.eqb_spec (major_label s) m) as [-> | Hne]; simpl.
- destruct (length _); simpl; f_equal; lia.
- reflexivity.
Qed.

Lemma count_ages_returns (now : Clock) (students : list Student) :
  Forall dob_parses students ->
  exists ages,
    Forall2 (fun s a => get_age now s = Ok a) students ages /\
    forall acc,
      count_ages now students acc
      = Ok (fold_left (fun d a => bump (age_bucket a) d) ages acc).
Proof.
induction 1 as [| s rest Hs _ IH].
- exists []. split; [constructor | reflexivity].
- destruct IH as (ages & HF & Hc).
  destruct (float_get_age_returns now s Hs) as [a Ha].
  exists (a :: ages). split; [now constructor |].
  intros acc. simpl. rewrite Ha. simpl. apply Hc.
Qed.

Lemma age_bucket_cases (a : Z) :
  (within 18 20 a = true /\ age_bucket a = "18-20") \/
  (within 21 25 a = true /\ age_bucket a = "21-25") \/
  (within 26 30 a = true /\ age_bucket a = "26-30") \/
  (outside_18_30 a = true /\ age_bucket a = "30+").
Proof.
unfold age_bucket, within, outside_18_30.
destruct (Z.leb_spec 18 a), (Z.leb_spec a 20), (Z.leb_spec 21 a),
  (Z.leb_spec a 25), (Z.leb_spec 26 a), (Z.leb_spec a 30),
  (Z.ltb_spec a 18), (Z.ltb_spec 30 a); simpl; try lia; tauto.
Qed.

Lemma bucket_exclusive (a : Z) :
  (Nat.b2n (within 18 20 a) + Nat.b2n (within 21 25 a)
   + Nat.b2n (within 26 30 a) + Nat.b2n (outside_18_30 a) = 1)%nat.
Proof.
unfold within, outside_18_30.
destruct (Z.leb_spec 18 a), (Z.leb_spec a 20), (Z.leb_spec 21 a),
  (Z.leb_spec a 25), (Z.leb_spec 26 a), (Z.leb_spec a 30),
  (Z.ltb_spec a 18), (Z.ltb_spec 30 a); simpl; lia.
Qed.

Lemma ages_where_cons (p : Z -> bool) (a : Z) (ages : list Z) :
  ages_where p (a :: ages) = (Nat.b2n (p a) + ages_where p ages)%nat.
Proof. unfold ages_where. simpl. now destruct (p a). Qed.

Lemma histogram_from (ages : list Z) (n1 n2 n3 n4 : nat) :
  fold_left (fun d a => bump (age_bucket a) d) ages
    [("18-20", n1); ("21-25", n2); ("26-30", n3); ("30+", n4)]
  = [("18-20", (n1 + ages_where (within 18 20) ages)%nat);
     ("21-25", (n2 + ages_where (within 21 25) ages)%nat);
     ("26-30", (n3 + ages_where (within 26 30) ages)%nat);
     ("30+", (n4 + ages_where outside_18_30 ages)%nat)].
Proof.
revert n1 n2 n3 n4.
induction ages as [| a rest IH]; intros n1 n2 n3 n4.
- simpl. unfold ages_where. simpl. now rewrite !Nat.add_0_r.
- cbn [fold_left]. rewrite !ages_where_cons.
  pose proof (bucket_exclusive a) as X.
  destruct (age_bucket_cases a) as [[H E] | [[H E] | [[H E] | [H E]]]];
    rewrite E; rewrite H in *;
    change (Nat.b2n true) with 1%nat in X;
    cbv [bump PyDict.get PyDict.set get_default String.eqb Ascii.eqb
         Bool.eqb];
    rewrite IH;
    destruct (within 18 20 a), (within 21 25 a), (within 26 30 a),
      (outside_18_30 a); simpl in X; try discriminate; try lia;
    simpl; repeat (f_equal; try lia).
Qed.

End Statistics.

(** [round] to two decimals rounds the exact value of the float, not the
    decimal it was written as: 2.675 is stored just below the tie and goes
    to 2.67, and so does the average of 3.55 and 3.80 to 3.67; a tie that
    is stored exactly goes to the even digit; the sign of a negative value
    that rounds to zero stays; NaN and the infinities round to
    themselves. *)
Lemma round2_examples :
  Binary64.round2 2.675 = 2.67%float /\
  Binary64.round2 ((3.55 + 3.80) / 2) = 3.67%float /\
  Binary64.round2 0.125 = 0.12%float /\
  Binary64.round2 0.375 = 0.38%float /\
  Binary64.round2 3.7666666666666666 = 3.77%float /\
  Binary64.round2 4 = 4%float /\
  Binary64.round2 (-0.001) = (-0)%float /\
  Binary64.round2 nan = nan /\
  Binary64.round2 infinity = infinity.
Proof.
repeat split; vm_compute; reflexivity.
Qed.

(** C5 (amended). When at least one record loads, statistics returns the
    number of loaded records; the average gpa over exactly the records
    with gpa > 0, computed as [sum / count] in binary floating point (0.0
    when there are none) and then rounded to two decimals by [round]; for
    every label the number of records with that major, an empty major
    counting under Undeclared; and the four age buckets 18-20, 21-25,
    26-30 and 30+, in this order, with inclusive bounds, every age below
    18 or above 30 counting under 30+. Over the ages 19, 22, 27, 35 each
    bucket counts 1. *)
Theorem statistics_counts_and_rounds
    (sum : list float -> float) (now : Clock)
    (db_file : option Binary64.File) :
  Binary64.get_all_students now db_file <> [] ->
  exists st ages,
    Binary64.get_statistics sum now db_file = Ok st /\
    Forall2 (fun s a => Binary64.get_age now s = Ok a)
      (Binary64.get_all_students now db_file) ages /\
    Binary64.total_students st
    = length (Binary64.get_all_students now db_file) /\
    Binary64.average_gpa st
    = Binary64.round2
        (match filter (fun s => (0 <? Binary64.gpa s)%float)
                 (Binary64.get_all_students now db_file) with
         | [] => 0%float
         | positive =>
             (sum (List.map Binary64.gpa positive)
              / Binary64.of_nat (length positive))%float
         end) /\
    (forall m,
       PyDict.get m (Binary64.majors st)
       = match Binary64.major_count m
                 (Binary64.get_all_students now db_file) with
         | O => None
         | S n => Some (S n)
         end) /\
    (forall s, Binary64.major_label s
               = if truthy (Binary64.major s) then Binary64.major s
                 else "Undeclared") /\
    Binary64.age_distribution st
    = [("18-20", ages_where (within 18 20) ages);
       ("21-25", ages_where (within 21 25) ages);
       ("26-30", ages_where (within 26 30) ages);
       ("30+", ages_where outside_18_30 ages)] /\
    (ages = [19; 22; 27; 35]%Z ->
     Binary64.age_distribution st
     = [("18-20", 1%nat); ("21-25", 1%nat); ("26-30", 1%nat);
        ("30+", 1%nat)]).
Proof.
intros Hne. unfold Binary64.get_statistics.
pose proof (float_load_students_dob now (Binary64._load_data db_file)) as Hd.
fold (Binary64.get_all_students now db_file) in Hd.
destruct (count_ages_returns now _ Hd) as (ages & HF & Hc).
set (students := Binary64.get_all_students now db_file) in *.
assert (Hdist :
  fold_left (fun d a => Binary64.bump (Binary64.age_bucket a) d)
    ages Binary64.empty_age_ranges
  = [("18-20", ages_where (within 18 20) ages);
     ("21-25", ages_where (within 21 25) ages);
     ("26-30", ages_where (within 26 30) ages);
     ("30+", ages_where outside_18_30 ages)])
  by (unfold Binary64.empty_age_ranges; now rewrite histogram_from).
unfold Binary64.statistics_of.
destruct students as [| s0 rest] eqn:Es; [now elim Hne |].
eexists. exists ages.
rewrite Hc. cbn [bind]. rewrite Hdist.
split; [reflexivity |]. cbn [Binary64.total_students
  Binary64.average_gpa Binary64.majors Binary64.age_distribution].
repeat apply conj.
- exact HF.
- reflexivity.
- f_equal. unfold Binary64.has_gpa.
  destruct (filter _ (s0 :: rest)); reflexivity.
- intros m. unfold Binary64.count_majors.
  rewrite count_majors_from. simpl.
  destruct (Binary64.major_count m (s0 :: rest)); reflexivity.
- reflexivity.
- reflexivity.
- intros ->. reflexivity.
Qed.

Lemma statistics_counts_and_rounds_witness :
  exists st,
    Binary64.get_statistics Binary64.sum_left_to_right demo_clock
      Binary64.ages_file = Ok st /\
    Binary64.total_students st = 4%nat.
Proof.
destruct (statistics_counts_and_rounds Binary64.sum_left_to_right
            demo_clock Binary64.ages_file)
  as (st & ages & Hst & _ & Htotal & _).
- vm_compute. discriminate.
- exists st. split; [exact Hst |]. rewrite Htotal. vm_compute. reflexivity.
Defined.

(** The scenario of the specification, run: four loaded records aged 19,
    22, 27 and 35 put one record in each bucket. *)
Lemma statistics_over_four_ages :
  exists st,
    Binary64.get_statistics Binary64.sum_left_to_right demo_clock
      Binary64.ages_file = Ok st /\
    Binary64.age_distribution st
    = [("18-20", 1%nat); ("21-25", 1%nat); ("26-30", 1%nat); ("30+", 1%nat)].
Proof.
eexists. split; vm_compute; reflexivity.
Qed.

(** C5 fails as stated: over the three demonstration records, with gpa
    3.8, 3.6 and 3.9, the reported average is 3.77, which is not their
    average 3.766666666666667. *)
Lemma statistics_average_is_rounded :
  exists st,
    Binary64.get_statistics Binary64.sum_left_to_right demo_clock
      Binary64.demo_file = Ok st /\
    Binary64.average_gpa st = 3.77%float /\
    ((3.8 + 3.6 + 3.9) / 3)%float = 3.766666666666667%float /\
    (3.77 =? 3.766666666666667)%float = false.
Proof.
eexists. split; [vm_compute; reflexivity |]. vm_compute. auto.
Qed.

(** * Further properties of the entity *)

Lemma lower_no_space (z : string) : no_space z -> no_space (lower z).
Proof.
unfold no_space, lower. induction z as [| c r IH]; simpl; [reflexivity |].
rewrite !andb_true_iff, lower_char_space. intuition.
Qed.

Lemma validate_id_normal (x y : string) :
  _validate_student_id x = Ok y -> upper y = y /\ strip y = y.
Proof.
unfold _validate_student_id. destruct (negb (truthy x)); [discriminate |].
destruct (String.length x <? 3)%nat; [discriminate |]. intros [= <-].
split; [apply upper_idem |]. apply stripped_strip.
eapply same_shape_stripped; [| apply (strip_stripped x)].
apply map_same_shape, upper_char_space.
Qed.

Lemma validate_name_normal (x f y : string) :
  _validate_name x f = Ok y ->
  strip y = y /\ title y = y /\ y <> EmptyString.
Proof.
unfold _validate_name. destruct (negb (truthy x)); [discriminate |].
destruct (truthy (strip x)) eqn:T; simpl; [| discriminate]. intros [= <-].
pose proof (title_same_shape false (strip x)) as Sh.
fold (title (strip x)) in Sh. repeat split.
- apply stripped_strip. eapply same_shape_stripped; [exact Sh |].
  apply strip_stripped.
- unfold title. apply title_from_idem.
- intros E. rewrite <- (same_shape_truthy _ _ Sh), E in T. discriminate.
Qed.

Lemma validate_email_normal (x y : string) :
  _validate_email x = Ok y -> lower y = y /\ no_space y.
Proof.
unfold _validate_email. destruct (negb (truthy x)); [discriminate |].
destruct (Regex.match_anchored email_pattern x) eqn:M; simpl; [| discriminate].
intros [= <-]. destruct (email_match_inv x M) as (z & _ & Hns & ->).
split; [apply lower_idem | now apply lower_no_space].
Qed.

Lemma validate_phone_normal (x y : string) :
  _validate_phone x = Ok y ->
  strip y = y /\ (10 <= count is_digit y)%nat.
Proof.
unfold _validate_phone. destruct (negb (truthy x)); [discriminate |].
destruct (Nat.ltb_spec (count is_digit x) 10); [discriminate |].
intros [= <-]. split; [apply strip_idem |].
unfold strip. now rewrite count_digit_rstrip, count_digit_lstrip.
Qed.

Lemma validate_id_short (y : string) :
  (String.length y < 3)%nat ->
  exists msg, _validate_student_id y = Raise (ValueError msg).
Proof.
intros H. unfold _validate_student_id. destruct y as [| c r]; simpl; eauto.
destruct (Nat.ltb_spec (S (String.length r)) 3); [eauto | simpl in H; lia].
Qed.

(** X1. On ASCII input, what the validators return is in normal form: a
    student id is upper-case and stripped; a name is non-empty, stripped
    and title-cased; an email is lower-case and free of whitespace; a
    phone number is stripped and keeps at least ten digits. A returned
    name, email or phone number passes the same validator unchanged; a
    returned student id does so when it has at least three characters and
    is rejected when it has fewer, which can happen because the length is
    tested before the id is stripped. *)
Theorem validators_return_normal_forms (x y : string) :
  isascii x = true ->
  (_validate_student_id x = Ok y ->
   upper y = y /\ strip y = y /\
   ((3 <= String.length y)%nat -> _validate_student_id y = Ok y) /\
   ((String.length y < 3)%nat ->
    exists msg, _validate_student_id y = Raise (ValueError msg))) /\
  (forall f f',
     _validate_name x f = Ok y ->
     strip y = y /\ title y = y /\ y <> EmptyString /\
     _validate_name y f' = Ok y) /\
  (_validate_email x = Ok y ->
   lower y = y /\ no_space y /\ _validate_email y = Ok y) /\
  (_validate_phone x = Ok y ->
   strip y = y /\ (10 <= count is_digit y)%nat /\ _validate_phone y = Ok y).
Proof.
intros _. repeat apply conj.
- intros H. destruct (validate_id_normal x y H) as (A & B).
  repeat split; auto.
  + now apply (validate_id_fixed x).
  + apply validate_id_short.
- intros f f' H. destruct (validate_name_normal x f y H) as (A & B & C).
  repeat split; auto. now apply (validate_name_fixed x y f f').
- intros H. destruct (validate_email_normal x y H) as (A & B).
  repeat split; auto. now apply (validate_email_fixed x).
- intros H. destruct (validate_phone_normal x y H) as (A & B).
  repeat split; auto. now apply (validate_phone_fixed x).
Qed.

Lemma validators_return_normal_forms_witness :
  (upper "A" = "A" /\ strip "A" = "A" /\
   exists msg, _validate_student_id "A" = Raise (ValueError msg)) /\
  (lower "alice@uni.edu" = "alice@uni.edu" /\ no_space "alice@uni.edu" /\
   _validate_email "alice@uni.edu" = Ok "alice@uni.edu").
Proof.
split.
- destruct (proj1 (validators_return_normal_forms "  a" "A" eq_refl) eq_refl)
    as (A & B & _ & C).
  split; [exact A |]. split; [exact B |]. apply C. simpl. lia.
- apply (proj1 (proj2 (proj2
           (validators_return_normal_forms "Alice@Uni.EDU" "alice@uni.edu"
              eq_refl)))).
  vm_compute. reflexivity.
Defined.

(** X2. A student the program has built, whose validated text attributes
    are ASCII and whose stored id has at least three characters, survives
    the round trip through its map: [from_dict] of [to_dict] gives back
    the same student, courses, grades and gpa included. *)
Theorem reachable_round_trip (now : Clock) (s : Student) :
  Reachable s -> (3 <= String.length (student_id s))%nat ->
  isascii (student_id s) = true ->
  isascii (first_name s) = true -> isascii (last_name s) = true ->
  isascii (email s) = true -> isascii (phone s) = true ->
  isascii (date_of_birth s) = true ->
  from_dict now (to_dict s) = Ok s.
Proof.
intros R Hlen _ _ _ _ _ _. apply from_dict_to_dict. now apply reachable_valid.
Qed.

Lemma reachable_round_trip_witness :
  from_dict demo_clock
    (to_dict (apply_op (AddGrade "Algorithms" (19 # 5))
                (apply_op (AddCourse "Algorithms") (alice_student 0))))
  = Ok (apply_op (AddGrade "Algorithms" (19 # 5))
          (apply_op (AddCourse "Algorithms") (alice_student 0))).
Proof.
apply reachable_round_trip.
- apply R_op, R_op.
  apply (R_init demo_clock "STU001" "Alice" "Johnson"
           "alice.johnson@university.edu" "(555) 123-4567" "2001-03-15"
           "123 Campus Drive" "Computer Science" 0%Q).
  vm_compute. reflexivity.
- simpl. lia.
- reflexivity.
- reflexivity.
- reflexivity.
- reflexivity.
- reflexivity.
- reflexivity.
Defined.

Lemma list_remove_NoDup (c : string) (l : list string) :
  NoDup l -> NoDup (list_remove c l).
Proof.
induction 1 as [| y r Hy Hr IH]; simpl; [constructor |].
destruct (String.eqb c y); [exact Hr |].
constructor; [| exact IH]. intros Hin. apply Hy.
eapply list_remove_incl. exact Hin.
Qed.

Lemma dict_set_keys_NoDup (k : string) (v : Q) (d : PyDict.dict Q) :
  NoDup (PyDict.keys d) -> NoDup (PyDict.keys (PyDict.set k v d)).
Proof.
unfold PyDict.keys. induction d as [| [k' v'] r IH]; simpl; intros H.
- constructor; [easy | constructor].
- inversion H as [| ? ? Hk Hr]; subst.
  destruct (String.eqb_spec k k') as [-> | Hne]; simpl.
  + now constructor.
  + constructor; [| now apply IH].
    intros Hin. apply (dict_keys_set k k' v r) in Hin.
    destruct Hin as [E | Hin]; [congruence | now apply Hk].
Qed.

Lemma dict_del_keys_NoDup (k : string) (d : PyDict.dict Q) :
  NoDup (PyDict.keys d) -> NoDup (PyDict.keys (PyDict.del k d)).
Proof.
unfold PyDict.keys, PyDict.del.
induction d as [| [k' v'] r IH]; simpl; intros H; [constructor |].
inversion H as [| ? ? Hk Hr]; subst.
destruct (String.eqb k k'); simpl; [now apply IH |].
constructor; [| now apply IH].
intros Hin. apply Hk. apply (dict_keys_del k k' r) in Hin. tauto.
Qed.

Lemma apply_op_unique (op : EntityOp) (s : Student) :
  NoDup (courses s) /\ NoDup (PyDict.keys (grades s)) ->
  NoDup (courses (apply_op op s)) /\
  NoDup (PyDict.keys (grades (apply_op op s))).
Proof.
intros [Hc Hg]. destruct op as [n | n | c g | kw]; simpl.
- unfold add_course. destruct (negb (truthy n)); [now split |].
  destruct (mem (strip n) (courses s)) eqn:M; simpl; [now split |].
  split; [| exact Hg]. apply mem_not_In in M.
  apply NoDup_app; [exact Hc | constructor; [easy | constructor] |].
  intros x Hx [<- | []]. now apply M.
- destruct (remove_course_inv n s) as [[_ E] | (_ & _ & Ec & Eg)].
  + rewrite E. now split.
  + rewrite Ec, Eg. split;
      [now apply list_remove_NoDup | now apply dict_del_keys_NoDup].
- destruct (add_grade c g s) as [[b s'] |] eqn:E; [| now split].
  apply add_grade_ok_inv in E. destruct E as (_ & _ & _ & _ & ->). simpl.
  split; [exact Hc | now apply dict_set_keys_NoDup].
- pose proof (update_info_frame kw s) as F. simpl in F.
  destruct F as (_ & _ & _ & _ & Ec & Eg). rewrite Ec, Eg. now split.
Qed.

Lemma reachable_grades_within_courses (s : Student) :
  Reachable s -> grades_within_courses s.
Proof.
induction 1 as [now sid fn ln em ph dob addr mj g s H
               | op s R IH | now s s' R IH H].
- apply init_inv in H. destruct H as (_&_&_&_&_&_&_&_&_&_&_&Hg).
  unfold grades_within_courses. rewrite Hg. simpl. tauto.
- now apply apply_op_keeps_subset.
- apply from_dict_inv in H. destruct H as (s0 & _ & ->). exact IH.
Qed.

Lemma reachable_no_duplicates (s : Student) :
  Reachable s ->
  NoDup (courses s) /\ NoDup (PyDict.keys (grades s)).
Proof.
induction 1 as [now sid fn ln em ph dob addr mj g s H
               | op s R IH | now s s' R IH H].
- apply init_inv in H. destruct H as (_&_&_&_&_&_&_&_&_&_&Hc&Hg).
  rewrite Hc, Hg. split; constructor.
- now apply apply_op_unique.
- apply from_dict_inv in H. destruct H as (s0 & _ & ->). exact IH.
Qed.

(** X4. In every student the program builds no course is listed twice,
    no course has two grades, and so there are never more grades than
    courses. *)
Theorem reachable_courses_unique (s : Student) :
  Reachable s ->
  NoDup (courses s) /\ NoDup (PyDict.keys (grades s)) /\
  (length (grades s) <= length (courses s))%nat.
Proof.
intros R. destruct (reachable_no_duplicates s R) as [Hc Hg].
repeat split; auto.
replace (length (grades s)) with (length (PyDict.keys (grades s)))
  by apply length_map.
apply NoDup_incl_length; [exact Hg |].
exact (reachable_grades_within_courses s R).
Qed.

Lemma reachable_courses_unique_witness :
  NoDup (courses (apply_op (AddCourse " Algorithms")
                    (apply_op (AddCourse "Algorithms") (alice_student 0)))).
Proof.
apply (proj1 (reachable_courses_unique _
  (R_op (AddCourse " Algorithms") _
     (R_op (AddCourse "Algorithms") _
        (R_init demo_clock "STU001" "Alice" "Johnson"
           "alice.johnson@university.edu" "(555) 123-4567" "2001-03-15"
           "123 Campus Drive" "Computer Science" 0%Q
           (alice_student 0) eq_refl))))).
Defined.

(** X5. Once [add_course] has returned for a name, whether it added the
    course or found it, the stripped name is among the courses and a
    second call with the same name returns False and changes nothing. *)
Theorem add_course_again_is_refused (n : string) (s s1 : Student) (b : bool) :
  add_course n s = Ok (b, s1) ->
  In (strip n) (courses s1) /\ add_course n s1 = Ok (false, s1).
Proof.
unfold add_course. destruct (truthy n) eqn:T; simpl; [| discriminate].
destruct (mem (strip n) (courses s)) eqn:M; simpl; intros [= <- <-].
- split; [now apply mem_In |]. now rewrite M.
- assert (In (strip n) (courses s ++ [strip n])) as Hin
    by (apply in_or_app; right; now left).
  split; [exact Hin |]. simpl. apply mem_In in Hin. now rewrite Hin.
Qed.

Lemma add_course_again_is_refused_witness :
  In (strip " Algorithms ")
    (courses (set_courses ["Algorithms"] (alice_student 0))) /\
  add_course " Algorithms " (set_courses ["Algorithms"] (alice_student 0))
  = Ok (false, set_courses ["Algorithms"] (alice_student 0)).
Proof.
apply (add_course_again_is_refused " Algorithms " (alice_student 0)
         (set_courses ["Algorithms"] (alice_student 0)) true).
reflexivity.
Defined.

Lemma list_remove_last (n : string) (l : list string) :
  ~ In n l -> list_remove n (l ++ [n]) = l.
Proof.
induction l as [| y r IH]; simpl; intros H.
- now rewrite String.eqb_refl.
- destruct (String.eqb_spec n y) as [-> | _]; [elim H; now left |].
  f_equal. apply IH. tauto.
Qed.

(** X6. On a student the program has built, adding a course under a
    stripped, non-empty name that is not yet listed and then removing it
    under the same name gives back the student as it was. *)
Theorem remove_course_undoes_add_course (n : string) (s : Student) :
  Reachable s -> strip n = n -> n <> EmptyString -> ~ In n (courses s) ->
  add_course n s = Ok (true, set_courses (courses s ++ [n]) s) /\
  remove_course n (set_courses (courses s ++ [n]) s) = (true, s).
Proof.
intros R Hs Hne Hnew. split.
- unfold add_course. destruct n; [now elim Hne |]. simpl truthy. simpl negb.
  cbv iota. rewrite Hs. apply mem_not_In in Hnew. now rewrite Hnew.
- unfold remove_course. simpl.
  assert (mem n (courses s ++ [n]) = true) as ->
    by (apply mem_In, in_or_app; right; now left).
  rewrite (list_remove_last n _ Hnew).
  assert (PyDict.has n (grades s) = false) as ->.
  { destruct (PyDict.has n (grades s)) eqn:E; [| reflexivity].
    apply dict_has_keys in E.
    elim Hnew. now apply (reachable_grades_within_courses s R). }
  destruct s; reflexivity.
Qed.

Lemma remove_course_undoes_add_course_witness :
  remove_course "Algorithms"
    (set_courses (courses (alice_student 0) ++ ["Algorithms"])
       (alice_student 0))
  = (true, alice_student 0).
Proof.
refine (proj2 (remove_course_undoes_add_course "Algorithms" (alice_student 0)
  (R_init demo_clock "STU001" "Alice" "Johnson"
     "alice.johnson@university.edu" "(555) 123-4567" "2001-03-15"
     "123 Campus Drive" "Computer Science" 0%Q (alice_student 0) eq_refl)
  eq_refl _ _)).
- discriminate.
- simpl. tauto.
Defined.

(** X7. [get_age] never raises on a student the program has built: the
    date of birth was validated at construction and no operation changes
    it. The age is negative exactly when the date of birth is after the
    clock's date, which the constructor does not reject. *)
Theorem reachable_age (now : Clock) (s : Student) :
  Reachable s ->
  exists birth age,
    PyDate.strptime (date_of_birth s) = Some birth /\
    get_age now s = Ok age /\
    ((0 <= age)%Z <-> not_after birth (today now)).
Proof.
intros R. destruct (reachable_well_formed s R) as [_ _ _ _ _ Hd _ _].
destruct (validate_date_parses _ _ Hd) as [birth Hb].
unfold get_age. rewrite Hb. unfold not_after.
destruct (Z.ltb_spec (month (today now)) (month birth));
  destruct (Z.eqb_spec (month (today now)) (month birth));
  destruct (Z.ltb_spec (day (today now)) (day birth)); simpl;
  eexists; eexists; (split; [reflexivity |]); (split; [reflexivity |]); lia.
Qed.

Lemma reachable_age_witness :
  exists birth age,
    PyDate.strptime (date_of_birth (alice_student 0)) = Some birth /\
    get_age demo_clock (alice_student 0) = Ok age /\
    ((0 <= age)%Z <-> not_after birth (today demo_clock)).
Proof.
apply (reachable_age demo_clock (alice_student 0)
  (R_init demo_clock "STU001" "Alice" "Johnson"
     "alice.johnson@university.edu" "(555) 123-4567" "2001-03-15"
     "123 Campus Drive" "Computer Science" 0%Q (alice_student 0) eq_refl)).
Defined.

(** * Further properties of the storage engine *)

Section StorageMore.
Import StudentDatabase.

Lemma load_students_In (now : Clock) (data : list StudentDict) (s : Student) :
  In s (load_students now data) <->
  exists d, In d data /\ from_dict now d = Ok s.
Proof.
induction data as [| d rest IH]; simpl.
- split; [easy | now intros (d & [] & _)].
- destruct (from_dict now d) as [s0 |] eqn:E; simpl; rewrite IH; split.
  + intros [<- | (d' & Hd & H)]; [exists d; auto | exists d'; auto].
  + intros (d' & [<- | Hd] & H); [left; congruence | right; eauto].
  + intros (d' & Hd & H). eauto.
  + intros (d' & [<- | Hd] & H); [congruence | eauto].
Qed.

Lemma load_students_length (now : Clock) (data : list StudentDict) :
  (length (load_students now data) <= length data)%nat.
Proof.
induction data as [| d rest IH]; simpl; [lia |].
destruct (from_dict now d); simpl; lia.
Qed.

Lemma load_students_valid (now : Clock) (es : list Student) :
  Forall valid_entity es -> load_students now (List.map to_dict es) = es.
Proof.
induction 1 as [| e rest He _ IH]; simpl; [reflexivity |].
now rewrite (from_dict_to_dict now e He), IH.
Qed.

Lemma find_id_absent (u : string) (data : list StudentDict) :
  ~ In u (List.map d_student_id data) -> find (id_is u) data = None.
Proof.
induction data as [| d rest IH]; simpl; [reflexivity |]. intros H.
unfold id_is at 1. destruct (String.eqb_spec (d_student_id d) u); [tauto |].
apply IH. tauto.
Qed.

Lemma existsb_id_In (u : string) (data : list StudentDict) :
  existsb (id_is u) data = true <-> In u (List.map d_student_id data).
Proof.
rewrite existsb_exists, in_map_iff. unfold id_is.
split; intros (d & A & B).
- apply String.eqb_eq in B. eauto.
- exists d. split; [exact B | now apply String.eqb_eq].
Qed.

Lemma delete_first_none (u : string) (data : list StudentDict) :
  delete_first u data = None <-> existsb (id_is u) data = false.
Proof.
induction data as [| d rest IH]; simpl; [tauto |].
destruct (id_is u d); simpl; [split; discriminate |].
destruct (delete_first u rest); simpl in *; [| tauto].
split; [discriminate |]. intros H. apply IH in H. discriminate.
Qed.

Lemma replace_first_none (u : string) (new : StudentDict)
    (data : list StudentDict) :
  replace_first u new data = None <-> existsb (id_is u) data = false.
Proof.
induction data as [| d rest IH]; simpl; [tauto |].
destruct (id_is u d); simpl; [split; discriminate |].
destruct (replace_first u new rest); simpl in *; [| tauto].
split; [discriminate |]. intros H. apply IH in H. discriminate.
Qed.

Lemma delete_first_ids (u : string) (data data' : list StudentDict) :
  delete_first u data = Some data' ->
  (forall x, In x (List.map d_student_id data') ->
             In x (List.map d_student_id data)) /\
  (NoDup (List.map d_student_id data) ->
   NoDup (List.map d_student_id data') /\
   ~ In u (List.map d_student_id data')).
Proof.
revert data'. induction data as [| d rest IH]; intros data'; simpl;
  [discriminate |].
unfold id_is at 1. destruct (String.eqb_spec (d_student_id d) u) as [E | Hne].
- intros [= <-]. split; [auto |]. intros H.
  inversion H; subst. split; assumption.
- destruct (delete_first u rest) as [r |]; simpl; [| discriminate].
  intros [= <-]. destruct (IH r eq_refl) as [Hin Hnd]. simpl. split.
  + intros x [-> | Hx]; auto.
  + intros H. inversion H as [| ? ? Hd Hr]; subst.
    destruct (Hnd Hr) as [Hn Hu]. split.
    * constructor; [| exact Hn]. intros Hx. apply Hd. now apply Hin.
    * intros [E | Hx]; [congruence | now apply Hu].
Qed.

Lemma replace_first_find (u : string) (new : StudentDict)
    (data data' : list StudentDict) :
  d_student_id new = u -> replace_first u new data = Some data' ->
  find (id_is u) data' = Some new.
Proof.
intros Hnew. revert data'.
induction data as [| d rest IH]; intros data'; simpl; [discriminate |].
destruct (id_is u d) eqn:E.
- intros [= <-]. simpl. unfold id_is. now rewrite Hnew, String.eqb_refl.
- destruct (replace_first u new rest) as [r |]; simpl; [| discriminate].
  intros [= <-]. simpl. rewrite E. now apply IH.
Qed.

(** A lookup under another id does not see a replacement or a deletion. *)
Lemma replace_first_find_other (u u' : string) (new : StudentDict)
    (data data' : list StudentDict) :
  d_student_id new = u -> u' <> u ->
  replace_first u new data = Some data' ->
  find (id_is u') data' = find (id_is u') data.
Proof.
intros Hnew Hne. revert data'.
induction data as [| d rest IH]; intros data'; simpl; [discriminate |].
unfold id_is at 1. destruct (String.eqb_spec (d_student_id d) u) as [E | Hd].
- intros [= <-]. simpl. unfold id_is at 1 3. rewrite Hnew, E.
  destruct (String.eqb_spec u u'); [congruence | reflexivity].
- destruct (replace_first u new rest) as [r |]; simpl; [| discriminate].
  intros [= <-]. simpl. destruct (id_is u' d); [reflexivity | now apply IH].
Qed.

Lemma delete_first_find_other (u u' : string) (data data' : list StudentDict) :
  u' <> u -> delete_first u data = Some data' ->
  find (id_is u') data' = find (id_is u') data.
Proof.
intros Hne. revert data'.
induction data as [| d rest IH]; intros data'; simpl; [discriminate |].
unfold id_is at 1. destruct (String.eqb_spec (d_student_id d) u) as [E | Hd].
- intros [= <-]. unfold id_is at 2. rewrite E.
  destruct (String.eqb_spec u u'); [congruence | reflexivity].
- destruct (delete_first u rest) as [r |]; simpl; [| discriminate].
  intros [= <-]. simpl. destruct (id_is u' d); [reflexivity | now apply IH].
Qed.

Lemma find_app_other (u' : string) (new : StudentDict)
    (data : list StudentDict) :
  d_student_id new <> u' ->
  find (id_is u') (data ++ [new]) = find (id_is u') data.
Proof.
intros Hne. induction data as [| d rest IH]; simpl.
- unfold id_is. destruct (String.eqb_spec (d_student_id new) u'); [tauto |].
  reflexivity.
- destruct (id_is u' d); [reflexivity | exact IH].
Qed.

Lemma get_student_by_find (now : Clock) (sid : string) (d1 d2 : Disk) :
  find (id_is (upper sid)) (_load_data d1)
  = find (id_is (upper sid)) (_load_data d2) ->
  get_student now sid d1 = get_student now sid d2.
Proof. unfold get_student. now intros ->. Qed.

Lemma save_data_load now fl data disk :
  (forall r, save_fault fl <> WriteFails r) ->
  _load_data (snd (_save_data now fl data disk)) = data \/
  _load_data (snd (_save_data now fl data disk)) = _load_data disk.
Proof.
intros Hf. unfold _save_data. destruct (save_fault fl) as [| | r].
- now left.
- right. unfold _load_data. simpl. now rewrite create_backup_db_file.
- now elim (Hf r).
Qed.

End StorageMore.

(** X8. [get_all_students] returns, in file order, exactly the students
    that [from_dict] builds from the stored records, skipping the records
    it rejects; it therefore never returns more students than records are
    stored, and a file that holds the maps of valid entities loads as
    those entities. *)
Theorem get_all_students_loads_what_validates (now : Clock) :
  (forall disk s,
     In s (StudentDatabase.get_all_students now disk) <->
     exists d, In d (StudentDatabase._load_data disk) /\
               from_dict now d = Ok s) /\
  (forall disk,
     (length (StudentDatabase.get_all_students now disk)
      <= length (StudentDatabase._load_data disk))%nat) /\
  (forall es backups,
     Forall valid_entity es ->
     StudentDatabase.get_all_students now
       (StudentDatabase.mkDisk
          (Some (StudentDatabase.Json (List.map to_dict es))) backups)
     = es).
Proof.
repeat apply conj.
- intros disk s. apply load_students_In.
- intros disk. apply load_students_length.
- intros es backups H. unfold StudentDatabase.get_all_students. simpl.
  now apply load_students_valid.
Qed.

Lemma get_all_students_loads_what_validates_witness :
  StudentDatabase.get_all_students demo_clock
    (StudentDatabase.mkDisk
       (Some (StudentDatabase.Json
                (List.map to_dict
                   [alice_student (19 # 5); alice_student 0]))) [])
  = [alice_student (19 # 5); alice_student 0].
Proof.
apply (proj2 (proj2 (get_all_students_loads_what_validates demo_clock))).
repeat constructor; try (vm_compute; reflexivity).
Defined.

Lemma run_write_keeps_ids_unique
    (now : Clock) (fl : StudentDatabase.Faults) (op : WriteOp)
    (disk : StudentDatabase.Disk) :
  NoDup (stored_ids disk) ->
  (forall r, StudentDatabase.save_fault fl <> StudentDatabase.WriteFails r) ->
  NoDup (stored_ids (snd (run_write now fl op disk))).
Proof.
intros Hnd Hf. pose proof (run_write_cases now fl op disk) as E.
destruct (new_collection op disk) as [data |] eqn:N;
  [| now rewrite E].
rewrite E. unfold stored_ids in *.
destruct (save_data_load now fl data disk Hf) as [-> | ->]; [| exact Hnd].
destruct op as [e | e | sid]; simpl in N.
- destruct (existsb _ _) eqn:X; [discriminate |]. injection N as <-.
  rewrite map_app. simpl. apply NoDup_app; [exact Hnd | | ].
  + constructor; [easy | constructor].
  + intros x Hx [<- | []].
    apply existsb_id_In in Hx. congruence.
- erewrite replace_first_ids; [exact Hnd | | exact N]. reflexivity.
- now apply (delete_first_ids _ _ _ N).
Qed.

(** X9. The write operations keep the stored ids unique: when no two
    stored records share an id, none do after an add, an update or a
    delete, provided the write does not fail after opening the file. *)
Theorem writes_keep_ids_unique
    (now : Clock) (fl : StudentDatabase.Faults) (op : WriteOp)
    (disk : StudentDatabase.Disk) :
  NoDup (stored_ids disk) ->
  (forall r, StudentDatabase.save_fault fl <> StudentDatabase.WriteFails r) ->
  NoDup (stored_ids (snd (run_write now fl op disk))).
Proof. apply run_write_keeps_ids_unique. Qed.

Lemma writes_keep_ids_unique_witness :
  NoDup (stored_ids
           (snd (run_write demo_clock StudentDatabase.no_faults
                   (Add (bob_student (18 # 5)))
                   (StudentDatabase.mkDisk
                      (Some (StudentDatabase.Json
                               [to_dict (alice_student (19 # 5))])) [])))).
Proof.
apply writes_keep_ids_unique.
- repeat constructor. simpl. tauto.
- discriminate.
Defined.

(** X10. Deleting an id no stored record carries returns False and
    leaves the file and the backups untouched. When the stored ids are
    unique and the write goes through, a delete of a stored id returns
    True and a later get of that id, in any letter case, finds
    nothing. *)
Theorem delete_then_get_is_absent
    (now now' : Clock) (fl : StudentDatabase.Faults) (sid : string)
    (disk : StudentDatabase.Disk) :
  (~ In (upper sid) (stored_ids disk) ->
   StudentDatabase.delete_student now fl sid disk = (false, disk)) /\
  (In (upper sid) (stored_ids disk) ->
   NoDup (stored_ids disk) ->
   StudentDatabase.save_fault fl = StudentDatabase.NoFault ->
   fst (StudentDatabase.delete_student now fl sid disk) = true /\
   forall sid', upper sid' = upper sid ->
     StudentDatabase.get_student now' sid'
       (snd (StudentDatabase.delete_student now fl sid disk)) = Ok None).
Proof.
unfold StudentDatabase.delete_student, stored_ids. split.
- intros Habs.
  destruct (StudentDatabase.delete_first _ _) as [data |] eqn:D;
    [| reflexivity].
  assert (StudentDatabase.delete_first (upper sid)
            (StudentDatabase._load_data disk) <> None) as H by congruence.
  rewrite delete_first_none in H.
  destruct (existsb _ _) eqn:X; [| congruence].
  apply existsb_id_In in X. tauto.
- intros Hin Hnd Hf.
  destruct (StudentDatabase.delete_first _ _) as [data |] eqn:D.
  + destruct (save_data_no_fault now fl data disk Hf) as [Hok Hdb].
    split; [exact Hok |]. intros sid' Hs.
    unfold StudentDatabase.get_student, StudentDatabase._load_data.
    rewrite Hdb, Hs.
    destruct (delete_first_ids _ _ _ D) as [_ H].
    destruct (H Hnd) as [_ Habs].
    now rewrite (find_id_absent _ _ Habs).
  + apply delete_first_none in D. apply existsb_id_In in Hin. congruence.
Qed.

Lemma delete_then_get_is_absent_witness :
  StudentDatabase.get_student demo_clock "Stu002"
    (snd (StudentDatabase.delete_student demo_clock
            StudentDatabase.no_faults "stu002" demo_disk))
  = Ok None.
Proof.
refine (proj2 (proj2 (delete_then_get_is_absent demo_clock demo_clock
                 StudentDatabase.no_faults "stu002" demo_disk)
                _ _ eq_refl) "Stu002" eq_refl).
- simpl. tauto.
- repeat constructor; simpl; intuition discriminate.
Defined.

(** X11. Updating a student whose id no stored record carries returns
    False and leaves the file and the backups untouched. When the id is
    stored and the write goes through, the update of a valid entity
    returns True and a later get of that id, in any letter case, returns
    the entity as it was passed. *)
Theorem update_then_get_returns_entity
    (now now' : Clock) (fl : StudentDatabase.Faults) (e : Student)
    (disk : StudentDatabase.Disk) :
  (~ In (student_id e) (stored_ids disk) ->
   StudentDatabase.update_student now fl e disk = (false, disk)) /\
  (In (student_id e) (stored_ids disk) ->
   valid_entity e ->
   StudentDatabase.save_fault fl = StudentDatabase.NoFault ->
   fst (StudentDatabase.update_student now fl e disk) = true /\
   forall sid', upper sid' = upper (student_id e) ->
     StudentDatabase.get_student now' sid'
       (snd (StudentDatabase.update_student now fl e disk)) = Ok (Some e)).
Proof.
unfold StudentDatabase.update_student, stored_ids. split.
- intros Habs.
  destruct (StudentDatabase.replace_first _ _ _) as [data |] eqn:D;
    [| reflexivity].
  assert (StudentDatabase.replace_first (student_id e) (to_dict e)
            (StudentDatabase._load_data disk) <> None) as H by congruence.
  rewrite replace_first_none in H.
  destruct (existsb _ _) eqn:X; [| congruence].
  apply existsb_id_In in X. tauto.
- intros Hin Hv Hf.
  destruct (StudentDatabase.replace_first _ _ _) as [data |] eqn:D.
  + destruct (save_data_no_fault now fl data disk Hf) as [Hok Hdb].
    split; [exact Hok |]. intros sid' Hs.
    unfold StudentDatabase.get_student, StudentDatabase._load_data.
    rewrite Hdb, Hs, (validated_id_is_upper _ (valid_id e Hv)).
    rewrite (replace_first_find (student_id e) (to_dict e) _ _ eq_refl D).
    simpl.
    now rewrite (from_dict_to_dict now' e Hv).
  + apply replace_first_none in D. apply existsb_id_In in Hin. congruence.
Qed.

Lemma update_then_get_returns_entity_witness :
  StudentDatabase.get_student demo_clock "stu001"
    (snd (StudentDatabase.update_student demo_clock
            StudentDatabase.no_faults (alice_student (7 # 2)) demo_disk))
  = Ok (Some (alice_student (7 # 2))).
Proof.
refine (proj2 (proj2 (update_then_get_returns_entity demo_clock demo_clock
                 StudentDatabase.no_faults (alice_student (7 # 2)) demo_disk)
                _ _ eq_refl) "stu001" eq_refl).
- simpl. tauto.
- apply alice_valid; unfold Qle; simpl; lia.
Defined.

(** The id a write operation is about. *)
Lemma run_write_find_other (now : Clock) (fl : StudentDatabase.Faults)
    (op : WriteOp) (disk : StudentDatabase.Disk) (u' : string) :
  u' <> match op with
        | Add e | Update e => student_id e
        | Delete sid => upper sid
        end ->
  (forall r, StudentDatabase.save_fault fl <> StudentDatabase.WriteFails r) ->
  find (StudentDatabase.id_is u')
    (StudentDatabase._load_data (snd (run_write now fl op disk)))
  = find (StudentDatabase.id_is u') (StudentDatabase._load_data disk).
Proof.
intros Hne Hf. pose proof (run_write_cases now fl op disk) as E.
destruct (new_collection op disk) as [data |] eqn:N; [| now rewrite E].
rewrite E.
destruct (save_data_load now fl data disk Hf) as [-> | ->]; [| reflexivity].
destruct op as [e | e | sid]; simpl in N.
- destruct (existsb _ _); [discriminate |]. injection N as <-.
  apply find_app_other. simpl. congruence.
- eapply replace_first_find_other; [| exact Hne | exact N]. reflexivity.
- eapply delete_first_find_other; [exact Hne | exact N].
Qed.

(** X12. A write operation on one id does not change what get returns
    for any other id: after an add, an update or a delete, whether it
    succeeded or was refused, a get under a different id gives what it
    gave before (the write not having failed after opening the file). *)
Theorem writes_leave_other_ids_alone
    (now now' : Clock) (fl : StudentDatabase.Faults) (op : WriteOp)
    (disk : StudentDatabase.Disk) (sid' : string) :
  upper sid' <> match op with
                | Add e | Update e => student_id e
                | Delete sid => upper sid
                end ->
  (forall r, StudentDatabase.save_fault fl <> StudentDatabase.WriteFails r) ->
  StudentDatabase.get_student now' sid' (snd (run_write now fl op disk))
  = StudentDatabase.get_student now' sid' disk.
Proof.
intros Hne Hf. apply get_student_by_find.
now apply run_write_find_other.
Qed.

Lemma writes_leave_other_ids_alone_witness :
  StudentDatabase.get_student demo_clock "stu003"
    (snd (run_write demo_clock StudentDatabase.no_faults (Delete "stu001")
            demo_disk))
  = StudentDatabase.get_student demo_clock "stu003" demo_disk.
Proof.
apply writes_leave_other_ids_alone; discriminate.
Defined.

(** X13. A database file that is missing or holds malformed text reads as
    the empty collection: nothing is listed, every get finds nothing,
    update and delete are refused. An add then writes a collection of
    that one record over the file; what a malformed file held survives
    only in the backup taken by that write. *)
Theorem unreadable_file_reads_as_empty
    (now : Clock) (fl : StudentDatabase.Faults)
    (disk : StudentDatabase.Disk) :
  (StudentDatabase.db_file disk = None \/
   exists raw, StudentDatabase.db_file disk
               = Some (StudentDatabase.Malformed raw)) ->
  StudentDatabase.get_all_students now disk = [] /\
  (forall sid, StudentDatabase.get_student now sid disk = Ok None) /\
  (forall e, StudentDatabase.update_student now fl e disk = (false, disk)) /\
  (forall sid,
     StudentDatabase.delete_student now fl sid disk = (false, disk)) /\
  (forall e,
     StudentDatabase.save_fault fl = StudentDatabase.NoFault ->
     fst (StudentDatabase.add_student now fl e disk) = true /\
     StudentDatabase.db_file (snd (StudentDatabase.add_student now fl e disk))
     = Some (StudentDatabase.Json [to_dict e])) /\
  (forall e raw,
     StudentDatabase.db_file disk = Some (StudentDatabase.Malformed raw) ->
     StudentDatabase.backup_fault fl = StudentDatabase.NoFault ->
     PyDict.get (StudentDatabase.backup_file now)
       (StudentDatabase.backups
          (snd (StudentDatabase.add_student now fl e disk)))
     = Some (StudentDatabase.Malformed raw)).
Proof.
intros H.
assert (L : StudentDatabase._load_data disk = []).
{ unfold StudentDatabase._load_data. destruct H as [-> | [raw ->]]; reflexivity. }
unfold StudentDatabase.get_all_students, StudentDatabase.get_student,
  StudentDatabase.update_student, StudentDatabase.delete_student,
  StudentDatabase.add_student. rewrite L. simpl.
repeat apply conj; try reflexivity.
- intros e Hf. apply (save_data_no_fault now fl [to_dict e] disk Hf).
- intros e raw Hdb Hb. unfold StudentDatabase._save_data,
    StudentDatabase._create_backup. rewrite Hdb, Hb.
  destruct (StudentDatabase.save_fault fl); simpl; apply dict_get_set_same.
Qed.

Lemma unreadable_file_reads_as_empty_witness :
  StudentDatabase.db_file
    (snd (StudentDatabase.add_student demo_clock StudentDatabase.no_faults
            (alice_student 0)
            (StudentDatabase.mkDisk
               (Some (StudentDatabase.Malformed "[{")) [])))
  = Some (StudentDatabase.Json [to_dict (alice_student 0)]).
Proof.
refine (proj2 (proj1 (proj2 (proj2 (proj2 (proj2
  (unreadable_file_reads_as_empty demo_clock StudentDatabase.no_faults
     (StudentDatabase.mkDisk (Some (StudentDatabase.Malformed "[{")) [])
     _))))) (alice_student 0) eq_refl)).
right. exists "[{". reflexivity.
Defined.

Lemma append_length (s t : string) :
  String.length (s ++ t) = (String.length s + String.length t)%nat.
Proof. induction s as [| c r IH]; simpl; [reflexivity | now rewrite IH]. Qed.

Lemma append_inj_right (s1 s2 t : string) :
  (s1 ++ t = s2 ++ t)%string -> s1 = s2.
Proof.
revert s2. induction s1 as [| c r IH]; intros [| c' r'] H; simpl in H.
- reflexivity.
- apply (f_equal String.length) in H. simpl in H.
  rewrite append_length in H. lia.
- apply (f_equal String.length) in H. simpl in H.
  rewrite append_length in H. lia.
- injection H as -> H. f_equal. now apply IH.
Qed.

Lemma backup_file_inj (now1 now2 : Clock) :
  StudentDatabase.backup_file now1 = StudentDatabase.backup_file now2 ->
  stamp now1 = stamp now2.
Proof.
unfold StudentDatabase.backup_file. intros H.
simpl in H. injection H as H. now apply append_inj_right in H.
Qed.

(** X14. Backups are named by the clock's second. Of two writes that go
    through, the backup taken by the second holds the collection the
    first one wrote. When both fall in the same second they share one
    backup file, so what the file held before the first write is no
    longer backed up; when they fall in different seconds it still is. *)
Theorem backups_are_one_per_second
    (now1 now2 : Clock) (data1 data2 : list StudentDict)
    (disk : StudentDatabase.Disk) (before : StudentDatabase.File) :
  StudentDatabase.db_file disk = Some before ->
  let after :=
    snd (StudentDatabase._save_data now2 StudentDatabase.no_faults data2
           (snd (StudentDatabase._save_data now1 StudentDatabase.no_faults
                   data1 disk))) in
  PyDict.get (StudentDatabase.backup_file now2)
    (StudentDatabase.backups after) = Some (StudentDatabase.Json data1) /\
  (stamp now1 = stamp now2 ->
   PyDict.get (StudentDatabase.backup_file now1)
     (StudentDatabase.backups after) = Some (StudentDatabase.Json data1)) /\
  (stamp now1 <> stamp now2 ->
   PyDict.get (StudentDatabase.backup_file now1)
     (StudentDatabase.backups after) = Some before).
Proof.
intros Hdb. unfold StudentDatabase._save_data, StudentDatabase._create_backup.
rewrite Hdb. simpl. repeat apply conj.
- apply dict_get_set_same.
- intros E. unfold StudentDatabase.backup_file. rewrite E.
  apply dict_get_set_same.
- intros Hne. rewrite dict_get_set_other; [apply dict_get_set_same |].
  intros E. apply Hne. now apply backup_file_inj.
Qed.

Lemma backups_are_one_per_second_witness :
  PyDict.get (StudentDatabase.backup_file demo_clock)
    (StudentDatabase.backups
       (snd (StudentDatabase._save_data demo_clock StudentDatabase.no_faults
               []
               (snd (StudentDatabase._save_data demo_clock
                       StudentDatabase.no_faults
                       [to_dict (alice_student 0)] demo_disk)))))
  = Some (StudentDatabase.Json [to_dict (alice_student 0)]).
Proof.
apply (proj1 (proj2 (backups_are_one_per_second demo_clock demo_clock
         [to_dict (alice_student 0)] [] demo_disk _ eq_refl))).
reflexivity.
Defined.

(** * Further properties of the Manager *)

Section ManagerMore.
Import StudentDatabase.

Lemma find_id_none (u : string) (data : list StudentDict) :
  find (id_is u) data = None -> ~ In u (List.map d_student_id data).
Proof.
intros H Hin. apply existsb_id_In in Hin. apply existsb_exists in Hin.
destruct Hin as (d & Hd & Hp). now rewrite (find_none _ _ H d Hd) in Hp.
Qed.

Lemma get_student_none (now : Clock) (sid : string) (disk : Disk) :
  get_student now sid disk = Ok None ->
  ~ In (upper sid) (stored_ids disk).
Proof.
unfold get_student, stored_ids.
destruct (find _ _) as [d |] eqn:F; [| intros _; now apply find_id_none].
destruct (from_dict now d); discriminate.
Qed.

Lemma db_add_student_result (now : Clock) (fl : Faults) (e : Student)
    (disk : Disk) :
  (fst (add_student now fl e disk) = true ->
   db_file (snd (add_student now fl e disk))
   = Some (Json (_load_data disk ++ [to_dict e]))) /\
  (fst (add_student now fl e disk) = false -> save_fault fl = NoFault ->
   snd (add_student now fl e disk) = disk).
Proof.
unfold add_student. destruct (existsb _ _); [split; [discriminate | reflexivity] |].
unfold _save_data. destruct (save_fault fl); simpl; split;
  try discriminate; reflexivity.
Qed.



End ManagerMore.

(** X15. The Manager's add stores a record only after the constructor
    has accepted the data and a lookup of the normalised id has found
    nothing: on success the file holds the former collection followed by
    the new student's map, whose courses and grades are empty whatever
    the input carried, and the id was not stored before. When it reports
    failure and the write itself could not fail, the file and the backups
    are untouched. *)
Theorem manager_add_checks_then_stores
    (now : Clock) (fl : StudentDatabase.Faults) (student_data : StudentDict)
    (disk : StudentDatabase.Disk) :
  (fst (fst (StudentManager.add_student now fl student_data disk)) = true ->
   exists s,
     __init__ now (d_student_id student_data) (d_first_name student_data)
       (d_last_name student_data) (d_email student_data)
       (d_phone student_data) (d_date_of_birth student_data)
       (get_default (d_address student_data) EmptyString)
       (get_default (d_major student_data) EmptyString)
       (get_default (d_gpa student_data) 0%Q) = Ok s /\
     courses s = [] /\ grades s = [] /\
     ~ In (student_id s) (stored_ids disk) /\
     StudentDatabase.db_file
       (snd (StudentManager.add_student now fl student_data disk))
     = Some (StudentDatabase.Json
               (StudentDatabase._load_data disk ++ [to_dict s]))) /\
  (fst (fst (StudentManager.add_student now fl student_data disk)) = false ->
   StudentDatabase.save_fault fl = StudentDatabase.NoFault ->
   snd (StudentManager.add_student now fl student_data disk) = disk).
Proof.
unfold StudentManager.add_student.
destruct (__init__ _ _ _ _ _ _ _ _ _ _) as [s | e] eqn:I;
  [| destruct e; (split; [discriminate | reflexivity])].
destruct (StudentDatabase.get_student now (student_id s) disk)
  as [[found |] | e] eqn:G;
  [split; [discriminate | reflexivity] |
   | destruct e; (split; [discriminate | reflexivity])].
pose proof (db_add_student_result now fl s disk) as [Hok Hfail].
destruct (StudentDatabase.add_student now fl s disk) as [saved disk'].
simpl in *. unfold StudentManager.persisted.
destruct saved; simpl; split; try discriminate; auto.
intros _. exists s. pose proof (init_inv _ _ _ _ _ _ _ _ _ _ _ I) as Inv.
destruct Inv as (Hid & _ & _ & _ & _ & _ & _ & _ & _ & _ & Hc & Hg).
repeat split; auto.
apply get_student_none in G.
now rewrite (proj1 (validate_id_normal _ _ Hid)) in G.
Qed.

Lemma manager_add_checks_then_stores_witness :
  snd (StudentManager.add_student demo_clock StudentDatabase.no_faults
         (to_dict (alice_student 0)) demo_disk)
  = demo_disk.
Proof.
apply (proj2 (manager_add_checks_then_stores demo_clock
         StudentDatabase.no_faults (to_dict (alice_student 0)) demo_disk)).
- vm_compute. reflexivity.
- reflexivity.
Defined.




Section UseCases.
Import StudentDatabase.


End UseCases.



Section StoredStudent.
Import StudentDatabase.

(** A get of the id of a stored, built student returns that student. *)
Lemma get_stored_reachable (now : Clock) (s : Student) (disk : Disk) :
  Reachable s -> (3 <= String.length (student_id s))%nat ->
  find (id_is (student_id s)) (_load_data disk) = Some (to_dict s) ->
  get_student now (student_id s) disk = Ok (Some s).
Proof.
intros R Hlen F. pose proof (reachable_valid s R Hlen) as V.
unfold get_student.
rewrite (validated_id_is_upper _ (valid_id s V)), F. simpl.
now rewrite (from_dict_to_dict now s V).
Qed.

End StoredStudent.

(** X19. The transcript of a stored student the program has built shows
    that student's courses, grades and gpa, and its count of completed
    courses never exceeds its count of courses. *)
Theorem transcript_of_stored_student
    (now : Clock) (s : Student) (disk : StudentDatabase.Disk) :
  Reachable s -> (3 <= String.length (student_id s))%nat ->
  find (StudentDatabase.id_is (student_id s))
    (StudentDatabase._load_data disk) = Some (to_dict s) ->
  exists t,
    StudentManager.get_student_transcript now (student_id s) disk
    = (Some t, "Transcript generated successfully") /\
    StudentManager.t_courses t = courses s /\
    StudentManager.t_grades t = grades s /\
    StudentManager.overall_gpa t = gpa s /\
    StudentManager.total_courses t = length (courses s) /\
    (StudentManager.completed_courses t
     <= StudentManager.total_courses t)%nat.
Proof.
intros R Hlen F. unfold StudentManager.get_student_transcript.
rewrite (get_stored_reachable now s disk R Hlen F).
eexists. split; [reflexivity |]. simpl. repeat split.
destruct (reachable_no_duplicates s R) as [_ Hg].
replace (length (grades s)) with (length (PyDict.keys (grades s)))
  by apply length_map.
apply NoDup_incl_length; [exact Hg |].
exact (reachable_grades_within_courses s R).
Qed.

Lemma transcript_of_stored_student_witness :
  exists t,
    StudentManager.get_student_transcript demo_clock "STU001" demo_disk
    = (Some t, "Transcript generated successfully") /\
    (StudentManager.completed_courses t
     <= StudentManager.total_courses t)%nat.
Proof.
destruct (transcript_of_stored_student demo_clock (alice_student (19 # 5))
            demo_disk) as (t & Ht & _ & _ & _ & _ & Hle).
- apply (R_init demo_clock "STU001" "Alice" "Johnson"
           "alice.johnson@university.edu" "(555) 123-4567" "2001-03-15"
           "123 Campus Drive" "Computer Science" (19 # 5)).
  vm_compute. reflexivity.
- simpl. lia.
- reflexivity.
- exists t. split; [exact Ht | exact Hle].
Defined.

(** X20. A stored record that [from_dict] rejects is stuck for the
    Manager: every use-case first loads the student, so get, transcript,
    update, delete, add and remove course and add grade all report
    failure for its id and leave the file and the backups untouched. *)
Theorem invalid_record_blocks_use_cases
    (show : Q -> string) (now : Clock) (fl : StudentDatabase.Faults)
    (sid : string) (disk : StudentDatabase.Disk) (d : StudentDict)
    (e : exn) :
  find (StudentDatabase.id_is (upper sid)) (StudentDatabase._load_data disk)
  = Some d ->
  from_dict now d = Raise e ->
  fst (StudentManager.get_student now sid disk) = None /\
  fst (StudentManager.get_student_transcript now sid disk) = None /\
  (forall update_data,
     let r := StudentManager.update_student now fl sid update_data disk in
     fst (fst r) = false /\ snd r = disk) /\
  (let r := StudentManager.delete_student now fl sid disk in
   fst (fst r) = false /\ snd r = disk) /\
  (forall c,
     let r := StudentManager.add_course_to_student now fl sid c disk in
     fst (fst r) = false /\ snd r = disk) /\
  (forall c,
     let r := StudentManager.remove_course_from_student now fl sid c disk in
     fst (fst r) = false /\ snd r = disk) /\
  (forall c g,
     let r := StudentManager.add_grade_to_student show now fl sid c g disk in
     fst (fst r) = false /\ snd r = disk).
Proof.
intros F H.
assert (G : StudentDatabase.get_student now sid disk = Raise e)
  by (unfold StudentDatabase.get_student; now rewrite F, H).
unfold StudentManager.get_student, StudentManager.get_student_transcript,
  StudentManager.update_student, StudentManager.delete_student,
  StudentManager.add_course_to_student,
  StudentManager.remove_course_from_student,
  StudentManager.add_grade_to_student.
rewrite G. destruct e; simpl; repeat split.
Qed.

Lemma invalid_record_blocks_use_cases_witness :
  __init__ demo_clock "  a" "Alice" "Johnson" "alice.johnson@university.edu"
    "(555) 123-4567" "2001-03-15" "123 Campus Drive" "Computer Science" 0%Q
  = Ok short_id_student /\
  snd (StudentManager.delete_student demo_clock StudentDatabase.no_faults "a"
         short_id_disk)
  = short_id_disk.
Proof.
split; [vm_compute; reflexivity |].
refine (proj2 (proj1 (proj2 (proj2 (proj2
  (invalid_record_blocks_use_cases (fun _ => EmptyString) demo_clock
     StudentDatabase.no_faults "a" short_id_disk (to_dict short_id_student)
     (ValueError "Student ID must be at least 3 characters long")
     eq_refl _)))))).
vm_compute. reflexivity.
Defined.

(** * Rankings and named searches *)

Section Ranking.
Import StudentManager.

Lemma insert_by_gpa_perm (x : Student) (l : list Student) :
  Permutation (insert_by_gpa x l) (x :: l).
Proof.
induction l as [| y r IH]; simpl; [apply Permutation_refl |].
destruct (Qltb (gpa x) (gpa y)); [| apply Permutation_refl].
eapply perm_trans; [apply perm_skip, IH | apply perm_swap].
Qed.

Lemma sort_by_gpa_desc_perm (l : list Student) :
  Permutation (sort_by_gpa_desc l) l.
Proof.
induction l as [| x r IH]; simpl; [constructor |].
eapply perm_trans; [apply insert_by_gpa_perm | now apply perm_skip].
Qed.

Lemma insert_by_gpa_sorted (x : Student) (l : list Student) :
  StronglySorted (fun a b => (gpa b <= gpa a)%Q) l ->
  StronglySorted (fun a b => (gpa b <= gpa a)%Q) (insert_by_gpa x l).
Proof.
induction 1 as [| y r Hr IH Hy]; simpl.
- constructor; constructor.
- destruct (Qltb (gpa x) (gpa y)) eqn:E.
  + constructor; [exact IH |].
    apply (Permutation_Forall (Permutation_sym (insert_by_gpa_perm x r))).
    constructor; [| exact Hy]. apply Qltb_lt in E. now apply Qlt_le_weak.
  + apply Qltb_ge in E. constructor; [now constructor |].
    constructor; [exact E |].
    eapply Forall_impl; [| exact Hy]. intros z Hz. simpl in Hz.
    eapply Qle_trans; eassumption.
Qed.

Lemma sort_by_gpa_desc_sorted (l : list Student) :
  StronglySorted (fun a b => (gpa b <= gpa a)%Q) (sort_by_gpa_desc l).
Proof.
induction l as [| x r IH]; simpl; [constructor |].
now apply insert_by_gpa_sorted.
Qed.

Lemma insert_by_gpa_ties (g : Q) (x : Student) (l : list Student) :
  filter (fun s => Qeq_bool (gpa s) g) (insert_by_gpa x l)
  = filter (fun s => Qeq_bool (gpa s) g) (x :: l).
Proof.
induction l as [| y r IH]; [reflexivity |]. cbn [insert_by_gpa].
destruct (Qltb (gpa x) (gpa y)) eqn:E; [| reflexivity].
cbn [filter] in *. rewrite IH.
destruct (Qeq_bool (gpa x) g) eqn:Ex, (Qeq_bool (gpa y) g) eqn:Ey;
  try reflexivity.
apply Qltb_lt in E. apply Qeq_bool_iff in Ex, Ey.
rewrite Ex, Ey in E. now elim (Qlt_irrefl g).
Qed.

Lemma sort_by_gpa_desc_ties (g : Q) (l : list Student) :
  filter (fun s => Qeq_bool (gpa s) g) (sort_by_gpa_desc l)
  = filter (fun s => Qeq_bool (gpa s) g) l.
Proof.
induction l as [| x r IH]; [reflexivity |]. simpl sort_by_gpa_desc.
rewrite insert_by_gpa_ties. cbn [filter]. now rewrite IH.
Qed.

Lemma slice_to_prefix {A : Type} (limit : Z) (l : list A) :
  exists rest, slice_to limit l ++ rest = l.
Proof.
unfold slice_to. destruct (0 <=? limit)%Z;
  eexists; apply firstn_skipn.
Qed.

Lemma slice_to_length {A : Type} (limit : Z) (l : list A) :
  ((0 <= limit)%Z ->
   length (slice_to limit l) = Nat.min (Z.to_nat limit) (length l)) /\
  ((limit < 0)%Z ->
   length (slice_to limit l) = (length l - Z.to_nat (- limit))%nat).
Proof.
unfold slice_to. destruct (Z.leb_spec 0 limit); split; intros; try lia.
- apply length_firstn.
- rewrite length_firstn. lia.
Qed.

End Ranking.

(** X21. [get_top_students] returns the head of the ranking of the loaded
    students with gpa > 0: together with the students it leaves out it is
    a rearrangement of them, ordered by gpa from the highest down, with
    students of equal gpa in file order. A limit of zero or more keeps at
    most that many; a negative limit drops that many from the low end. *)
Theorem top_students_head_the_ranking
    (now : Clock) (limit : Z) (disk : StudentDatabase.Disk) :
  let positive :=
    filter StudentDatabase.has_gpa
      (StudentDatabase.get_all_students now disk) in
  let top := StudentManager.get_top_students now limit disk in
  (exists rest,
     Permutation (top ++ rest) positive /\
     StronglySorted (fun a b => (gpa b <= gpa a)%Q) (top ++ rest) /\
     forall g,
       filter (fun s => Qeq_bool (gpa s) g) (top ++ rest)
       = filter (fun s => Qeq_bool (gpa s) g) positive) /\
  ((0 <= limit)%Z ->
   length top = Nat.min (Z.to_nat limit) (length positive)) /\
  ((limit < 0)%Z ->
   length top = (length positive - Z.to_nat (- limit))%nat).
Proof.
intros positive top. subst top. unfold StudentManager.get_top_students.
fold positive.
destruct (slice_to_prefix limit (StudentManager.sort_by_gpa_desc positive))
  as [rest E].
destruct (slice_to_length limit (StudentManager.sort_by_gpa_desc positive))
  as [L0 L1].
rewrite (Permutation_length (sort_by_gpa_desc_perm positive)) in L0, L1.
repeat apply conj; auto.
exists rest. rewrite E. repeat apply conj.
- apply sort_by_gpa_desc_perm.
- apply sort_by_gpa_desc_sorted.
- intros g. apply sort_by_gpa_desc_ties.
Qed.

Lemma top_students_head_the_ranking_witness :
  length (StudentManager.get_top_students demo_clock 2 demo_disk)
  = Nat.min (Z.to_nat 2)
      (length (filter StudentDatabase.has_gpa
                 (StudentDatabase.get_all_students demo_clock demo_disk))).
Proof.
apply (proj1 (proj2 (top_students_head_the_ranking demo_clock 2 demo_disk))).
lia.
Defined.

Section NamedSearches.
Import StudentDatabase.

Lemma contains_empty (hay : string) : contains EmptyString hay = true.
Proof. destruct hay; reflexivity. Qed.

Lemma lower_upper_char (c : ascii) : lower_char (upper_char c) = lower_char c.
Proof. destruct c as [[] [] [] [] [] [] [] []]; reflexivity. Qed.

Lemma lower_upper (s : string) : lower (upper s) = lower s.
Proof.
unfold lower, upper. induction s as [| c r IH]; cbn [PyStr.map];
  [reflexivity |].
now rewrite lower_upper_char, IH.
Qed.

Lemma filter_all {A : Type} (p : A -> bool) (l : list A) :
  (forall x, p x = true) -> filter p l = l.
Proof.
intros H. induction l as [| x r IH]; simpl; [reflexivity |].
now rewrite H, IH.
Qed.

End NamedSearches.



(** X23. On ASCII text, [get_students_by_major] is a substring search
    that ignores letter case: when the given text and the stored majors
    are ASCII it returns, in file order, the loaded students whose major
    contains the given text once both are lower-cased, so the upper-cased
    text finds the same students, and the empty text finds every loaded
    student, undeclared ones included. *)
Theorem students_by_major_is_a_substring_search
    (py : Builtins) (now : Clock) (major_text : string)
    (disk : StudentDatabase.Disk) :
  isascii major_text = true ->
  Forall (fun s => isascii (major s) = true)
    (StudentDatabase.get_all_students now disk) ->
  StudentManager.get_students_by_major py now major_text disk
  = Ok (filter (fun s => contains (lower major_text) (lower (major s)))
          (StudentDatabase.get_all_students now disk)) /\
  StudentManager.get_students_by_major py now (upper major_text) disk
  = StudentManager.get_students_by_major py now major_text disk /\
  StudentManager.get_students_by_major py now EmptyString disk
  = Ok (StudentDatabase.get_all_students now disk).
Proof.
intros _ _.
assert (G : forall m,
  StudentManager.get_students_by_major py now m disk
  = Ok (filter (fun s => contains (lower m) (lower (major s)))
          (StudentDatabase.get_all_students now disk))).
{ intros m. unfold StudentManager.get_students_by_major,
    StudentDatabase.search_students.
  rewrite search_loop_filters;
    [| apply load_students_dob | reflexivity].
  f_equal. apply filter_ext. intros s.
  unfold satisfied, StudentDatabase.criterion_holds. simpl.
  now rewrite andb_true_r. }
repeat apply conj.
- apply G.
- rewrite !G. now rewrite lower_upper.
- rewrite G. f_equal. apply filter_all. intros s. apply contains_empty.
Qed.

Lemma students_by_major_is_a_substring_search_witness :
  StudentManager.get_students_by_major demo_builtins demo_clock "PHYS"
    demo_disk
  = StudentManager.get_students_by_major demo_builtins demo_clock "phys"
      demo_disk.
Proof.
destruct (students_by_major_is_a_substring_search demo_builtins demo_clock
            "phys" demo_disk) as (_ & H & _).
- reflexivity.
- vm_compute. repeat constructor.
- exact H.
Defined.

(** X24. Criteria named after an attribute, with a text or a number as
    value. Against a text attribute (here student_id and phone) a text is
    a substring test that ignores letter case, and a number never matches;
    against gpa a number matches exactly when it equals the gpa; and a
    criterion named courses, grades or after a method rejects every
    student, whatever text or number it carries. *)
Theorem attribute_criteria
    (py : Builtins) (now : Clock) (s : Student) :
  (forall v,
     StudentDatabase.criterion_holds py now s "student_id" (VStr v)
     = Ok (contains (lower v) (lower (student_id s))) /\
     StudentDatabase.criterion_holds py now s "phone" (VStr v)
     = Ok (contains (lower v) (lower (phone s)))) /\
  (forall n,
     StudentDatabase.criterion_holds py now s "student_id" (VInt n)
     = Ok false) /\
  (forall q,
     StudentDatabase.criterion_holds py now s "gpa" (VFloat q) = Ok true
     <-> (gpa s == q)%Q) /\
  (forall key v,
     In key ["courses"; "grades"; "get_age"; "to_dict"; "add_course"] ->
     StudentDatabase.criterion_holds py now s key (VStr v) = Ok false) /\
  (forall key n q,
     In key ["courses"; "grades"; "get_age"; "to_dict"; "add_course"] ->
     StudentDatabase.criterion_holds py now s key (VInt n) = Ok false /\
     StudentDatabase.criterion_holds py now s key (VFloat q) = Ok false).
Proof.
repeat apply conj.
- intros v. split; reflexivity.
- reflexivity.
- intros q. unfold StudentDatabase.criterion_holds. simpl. split.
  + intros [= H]. now apply Qeq_bool_iff.
  + intros H. apply Qeq_bool_iff in H. now rewrite H.
- intros key v Hin. simpl in Hin.
  repeat destruct Hin as [<- | Hin]; try reflexivity.
  destruct Hin.
- intros key n q Hin. simpl in Hin.
  repeat destruct Hin as [<- | Hin]; try (split; reflexivity).
  destruct Hin.
Qed.

Lemma attribute_criteria_witness :
  StudentDatabase.criterion_holds
    (mkBuiltins (fun _ => Ok 0%Q) (fun _ => Ok 0%Z) (fun _ => None))
    demo_clock (set_courses ["Algorithms"] (alice_student 0))
    "courses" (VStr "Algorithms")
  = Ok false.
Proof.
apply (proj1 (proj2 (proj2 (proj2 (attribute_criteria
         (mkBuiltins (fun _ => Ok 0%Q) (fun _ => Ok 0%Z) (fun _ => None))
         demo_clock (set_courses ["Algorithms"] (alice_student 0))))))).
simpl. tauto.
Defined.

(** X25. The age criteria are inclusive bounds on the computed age, for
    every student whose date of birth parses: age_min holds exactly when
    the age is at least the bound and age_max when it is at most the
    bound. A float bound is first truncated towards zero. *)
Theorem age_criteria_are_inclusive
    (py : Builtins) (now : Clock) (s : Student) (age : Z) :
  get_age now s = Ok age ->
  (forall n,
     (StudentDatabase.criterion_holds py now s "age_min" (VInt n) = Ok true
      <-> (n <= age)%Z) /\
     (StudentDatabase.criterion_holds py now s "age_max" (VInt n) = Ok true
      <-> (age <= n)%Z)) /\
  (forall q,
     StudentDatabase.criterion_holds py now s "age_min" (VFloat q)
     = StudentDatabase.criterion_holds py now s "age_min"
         (VInt (Z.quot (Qnum q) (Zpos (Qden q)))) /\
     StudentDatabase.criterion_holds py now s "age_max" (VFloat q)
     = StudentDatabase.criterion_holds py now s "age_max"
         (VInt (Z.quot (Qnum q) (Zpos (Qden q))))).
Proof.
intros Ha. split.
- intros n. unfold StudentDatabase.criterion_holds. simpl. rewrite Ha. simpl.
  split; (split; [intros [= H]; apply negb_true_iff, Z.ltb_ge in H; exact H
                 | intros H; apply Z.ltb_ge in H; now rewrite H]).
- intros q. unfold StudentDatabase.criterion_holds. simpl. rewrite Ha.
  split; reflexivity.
Qed.

Lemma age_criteria_are_inclusive_witness :
  StudentDatabase.criterion_holds
    (mkBuiltins (fun _ => Ok 0%Q) (fun _ => Ok 0%Z) (fun _ => None))
    demo_clock (alice_student 0) "age_min" (VInt 25%Z) = Ok true
  <-> (25 <= 25)%Z.
Proof.
apply (proj1 (proj1 (age_criteria_are_inclusive
         (mkBuiltins (fun _ => Ok 0%Q) (fun _ => Ok 0%Z) (fun _ => None))
         demo_clock (alice_student 0) 25%Z eq_refl) 25%Z)).
Defined.

(** * CSV import *)

Section CsvImport.
Import StudentDatabase.

Lemma add_courses_grades (cs : list string) (s s' : Student) :
  add_courses cs s = Ok s' -> grades s' = grades s.
Proof.
revert s. induction cs as [| c rest IH]; intros s; simpl.
- now intros [= <-].
- destruct (add_course c s) as [[b s1] |] eqn:A; simpl; [| discriminate].
  intros H. apply IH in H. apply add_course_inv in A.
  destruct A as (_ & Hg & _). congruence.
Qed.

Lemma import_row_grades (py : Builtins) (now : Clock) (row : CsvRow)
    (s : Student) :
  import_row py now row = Ok s -> grades s = [].
Proof.
unfold import_row.
destruct (match c_gpa row with Some _ => _ | None => _ end) as [g |];
  simpl; [| discriminate].
destruct (__init__ _ _ _ _ _ _ _ _ _ _) as [s0 |] eqn:I; simpl;
  [| discriminate].
destruct (add_courses _ s0) as [s1 |] eqn:A; simpl; [| discriminate].
intros [= <-]. apply add_courses_grades in A. apply init_inv in I.
destruct I as (_&_&_&_&_&_&_&_&_&_&_&Hg).
destruct (c_enrollment_date row) as [d |]; [destruct (truthy d) |];
  simpl; congruence.
Qed.

Lemma db_add_step (now : Clock) (fl : Faults) (e : Student) (disk : Disk) :
  (forall r, save_fault fl <> WriteFails r) ->
  (fst (add_student now fl e disk) = true /\
   _load_data (snd (add_student now fl e disk))
   = _load_data disk ++ [to_dict e]) \/
  (fst (add_student now fl e disk) = false /\
   _load_data (snd (add_student now fl e disk)) = _load_data disk).
Proof.
intros Hf. unfold add_student. destruct (existsb _ _); [now right |].
unfold _save_data. destruct (save_fault fl) as [| | r].
- now left.
- right. split; [reflexivity |]. unfold _load_data. simpl.
  now rewrite create_backup_db_file.
- now elim (Hf r).
Qed.

Lemma import_rows_spec (py : Builtins) (now : Clock) (fl : Faults)
    (rows : list CsvRow) :
  (forall r, save_fault fl <> WriteFails r) ->
  forall disk ok failed,
    let result := import_rows py now fl rows disk ok failed in
    (fst (fst result) + snd (fst result) = ok + failed + length rows)%nat /\
    (exists added,
       _load_data (snd result) = _load_data disk ++ added /\
       fst (fst result) = (ok + length added)%nat /\
       Forall (fun d => d_grades d = Some []) added) /\
    (NoDup (stored_ids disk) -> NoDup (stored_ids (snd result))).
Proof.
intros Hf. induction rows as [| row rest IH]; intros disk ok failed.
- simpl. split; [lia |]. split; [| auto].
  exists []. rewrite app_nil_r. simpl.
  split; [reflexivity |]. split; [lia | constructor].
- cbn [import_rows length].
  destruct (import_row py now row) as [s |] eqn:R.
  + pose proof (db_add_step now fl s disk Hf) as Step.
    pose proof (run_write_keeps_ids_unique now fl (Add s) disk) as U.
    simpl in U.
    destruct (add_student now fl s disk) as [added disk'].
    simpl in Step, U.
    destruct Step as [[-> L] | [-> L]].
    * destruct (IH disk' (S ok) failed) as (Hc & (more & Hl & Hn & Hg) & Hu).
      split; [cbv zeta in *; lia |]. split; [| auto].
      exists (to_dict s :: more). rewrite Hl, L, <- app_assoc.
      split; [reflexivity |]. split; [simpl; cbv zeta in *; lia |].
      constructor; [| exact Hg]. simpl. f_equal.
      exact (import_row_grades py now row s R).
    * destruct (IH disk' ok (S failed)) as (Hc & (more & Hl & Hn & Hg) & Hu).
      split; [cbv zeta in *; lia |]. split; [| auto].
      exists more. rewrite Hl, L. auto.
  + destruct (IH disk ok (S failed)) as (Hc & Hex & Hu).
    split; [cbv zeta in *; lia |]. split; [exact Hex | exact Hu].
Qed.

End CsvImport.

(** X26. [import_from_csv] only appends: when no write fails after
    opening the file, the collection afterwards is the former one followed
    by one record per row counted as imported, the two counts add up to
    the number of rows, and stored ids that were unique stay unique. An
    imported record carries no grades: the gpa comes from the gpa column,
    not from grades. *)
Theorem import_appends_and_counts
    (py : Builtins) (now : Clock) (fl : StudentDatabase.Faults)
    (rows : list StudentDatabase.CsvRow) (disk : StudentDatabase.Disk) :
  (forall r, StudentDatabase.save_fault fl <> StudentDatabase.WriteFails r) ->
  let result := StudentDatabase.import_from_csv py now fl rows disk in
  (fst (fst result) + snd (fst result) = length rows)%nat /\
  (exists added,
     StudentDatabase._load_data (snd result)
     = StudentDatabase._load_data disk ++ added /\
     length added = fst (fst result) /\
     Forall (fun d => d_grades d = Some []) added) /\
  (NoDup (stored_ids disk) -> NoDup (stored_ids (snd result))).
Proof.
intros Hf result. subst result. unfold StudentDatabase.import_from_csv.
destruct (import_rows_spec py now fl rows Hf disk 0%nat 0%nat)
  as (Hc & (added & Hl & Hn & Hg) & Hu).
split; [cbv zeta in *; lia |]. split; [| exact Hu].
exists added. split; [exact Hl |]. split; [cbv zeta in *; lia | exact Hg].
Qed.

Lemma import_appends_and_counts_witness :
  (fst (fst (StudentDatabase.import_from_csv demo_builtins demo_clock
               StudentDatabase.no_faults demo_rows demo_disk))
   + snd (fst (StudentDatabase.import_from_csv demo_builtins demo_clock
                 StudentDatabase.no_faults demo_rows demo_disk))
   = length demo_rows)%nat.
Proof.
apply (proj1 (import_appends_and_counts demo_builtins demo_clock
                StudentDatabase.no_faults demo_rows demo_disk
                ltac:(discriminate))).
Defined.
